(** * Printer monitoring backend: the counter-cut reconciliation engine

    A shallow embedding of the routes module of the backend (the helpers
    [computeDerivedOnline] and [calcularPeriodoCorte], the telemetry
    ingestion route, the register-cut route and the report route) together
    with the properties its specification states about them.

    Modelling conventions.
    - JavaScript numbers that hold counters, levels and millisecond
      instants are integers ([Z]); [NaN] is kept as a separate value since
      the code tests for it.  Infinities and fractional values are not
      represented; the percentage test [(lvl / max) * 100 <= 20] is read
      with exact arithmetic.
    - A property that may be [null] or [undefined] is an [option]; the
      untyped parts of a request body are [json] values.
    - Collections are lists of documents in insertion order; [findOne]
      returns the first match.
    - Mongoose schemas are not part of the routes module: documents are
      stored as the routes build them. *)

From Stdlib Require Import ZArith QArith List String Bool Lia DecimalString.
Import ListNotations.

Set Warnings "-register-all".

Local Open Scope string_scope.
Local Open Scope list_scope.
Local Open Scope Z_scope.

(** ** JavaScript values *)

Inductive number : Type :=
| Num (z : Z)
| NaN.

Inductive Date : Type :=
| ValidDate (t : Z)      (* milliseconds since the epoch *)
| InvalidDate.

Inductive json : Type :=
| JUndefined
| JNull
| JBool (b : bool)
| JNumber (n : number)
| JString (s : string)
| JArray (xs : list json)
| JObject (fields : list (string * json)).

Definition ObjectId : Type := nat.
Bind Scope nat_scope with ObjectId.

(** [Number.isFinite] / [isFinite] on a number. *)
Definition isFinite (n : number) : bool :=
  match n with Num _ => true | NaN => false end.

(** [a - b] *)
Definition number_sub (a b : number) : number :=
  match a, b with
  | Num x, Num y => Num (x - y)
  | _, _ => NaN
  end.

(** [a <= b]: every comparison with [NaN] is false. *)
Definition number_le (a b : number) : bool :=
  match a, b with
  | Num x, Num y => x <=? y
  | _, _ => false
  end.

(** [a > b] *)
Definition number_gt (a b : number) : bool :=
  match a, b with
  | Num x, Num y => y <? x
  | _, _ => false
  end.

(** [new Date(d)] on a Date, and [d.getTime()]. *)
Definition new_Date (d : Date) : Date := d.

Definition getTime (d : Date) : number :=
  match d with ValidDate t => Num t | InvalidDate => NaN end.

(** Truthiness of the values the routes test with [!x], [x || y], [x ? a : b]. *)
Definition truthy_string (s : string) : bool :=
  negb (String.eqb s "").

Definition truthy_Z (z : Z) : bool := negb (z =? 0).

(** [x || d] for a string property that may be absent. *)
Definition or_string (x : option string) (d : string) : string :=
  match x with
  | Some s => if truthy_string s then s else d
  | None => d
  end.

(** [x || d] for a numeric property that may be absent. *)
Definition or_Z (x : option Z) (d : Z) : Z :=
  match x with
  | Some z => if truthy_Z z then z else d
  | None => d
  end.

(** [x || []] for an array property that may be absent (an array is always
    truthy). *)
Definition or_array {A : Type} (x : option (list A)) : list A :=
  match x with
  | Some l => l
  | None => []
  end.

(** [!!x] for a string property that may be absent. *)
Definition present (x : option string) : bool :=
  match x with
  | Some s => truthy_string s
  | None => false
  end.

(** [typeof v === 'number'] *)
Definition typeof_number (v : json) : bool :=
  match v with JNumber _ => true | _ => false end.

(** [Number.isNaN(v)]: true for the number [NaN] only. *)
Definition Number_isNaN (v : json) : bool :=
  match v with JNumber NaN => true | _ => false end.

Definition Array_isArray (v : json) : bool :=
  match v with JArray _ => true | _ => false end.

(** The elements of an array. *)
Definition elements (v : json) : list json :=
  match v with JArray xs => xs | _ => [] end.

(** Property lookup in an object literal. *)
Fixpoint lookup_field (k : string) (fields : list (string * json)) : json :=
  match fields with
  | [] => JUndefined
  | (k', v) :: rest => if String.eqb k k' then v else lookup_field k rest
  end.

(** The host environment: conversions and formatting that depend on the
    engine, the locale and the time zone. *)
Class Runtime : Type := {
  (** [Number(s)] on a string *)
  StringToNumber : string -> number;
  (** [Number(v)] on an array or object *)
  ObjectToNumber : json -> number;
  (** [new Date(s)] on a string *)
  Date_parse : string -> Date;
  (** [d.toLocaleDateString()] *)
  toLocaleDateString : Date -> string;
  (** [n.toLocaleString()] on a number *)
  toLocaleString : Z -> string;
  (** [d.getMonth()] and [d.getFullYear()] *)
  getMonth : Date -> Z;
  getFullYear : Date -> Z;
  (** a number inside a template literal *)
  Number_toString : Z -> string;
  (** whether PDFKit draws the bar of a supply of the report: it refuses a
      coordinate that is not a number it can write *)
  PDFKit_draws : json -> bool
}.

(** ** Documents *)

Module Empresa.
Record t : Type := mk {
  _id : ObjectId;
  nombre : option string;
  apiKey : string
}.
End Empresa.

Module Impresora.
Record t : Type := mk {
  _id : ObjectId;
  empresaId : ObjectId;
  ciudad : option string;
  host : string;
  serial : option string;
  sysName : option string;
  sysDescr : option string;
  printerName : option string;
  model : option string;
  createdAt : Date
}.
End Impresora.

Module ImpresoraLatest.
Record t : Type := mk {
  printerId : ObjectId;
  lastPageCount : option Z;
  lastPageMono : option Z;
  lastPageColor : option Z;
  lastSupplies : option (list json);
  lastSeenAt : option Date;
  lowToner : option bool;
  online : option bool;
  ultimoCorteId : option ObjectId;
  lastCutDate : option Date
}.
End ImpresoraLatest.

Module CortesMensuales.
Record t : Type := mk {
  _id : ObjectId;
  printerId : ObjectId;
  empresaId : ObjectId;
  fechaCorte : Date;
  mes : Z;
  año : Z;
  contadorInicioGeneral : option Z;
  contadorFinGeneral : option Z;
  totalPaginasGeneral : option Z;
  periodo : option string;
  suppliesInicio : option (list json);
  suppliesFin : option (list json);
  nombreImpresora : string;
  modeloImpresora : string;
  (* read by the report route; the register-cut route never sets it *)
  ultimoCorteId : option ObjectId
}.
End CortesMensuales.

(** ** Online-state derivation *)

Section Online.
Context {RT : Runtime}.

(** The value of [process.env.ONLINE_STALE_MS], if set. *)
Variable env_ONLINE_STALE_MS : option string.

(** [Number(process.env.ONLINE_STALE_MS || 2 * 60 * 1000)] *)
Definition ONLINE_STALE_MS : number :=
  match env_ONLINE_STALE_MS with
  | Some s => if truthy_string s then StringToNumber s
              else Num (2 * 60 * 1000)
  | None => Num (2 * 60 * 1000)
  end.

Definition computeDerivedOnline
    (latest : option ImpresoraLatest.t) (now : Z) : bool :=
  match latest with
  | None => false
  | Some l =>
    match ImpresoraLatest.lastSeenAt l with
    | None => false
    | Some lastSeenAt =>
      match ImpresoraLatest.online l with
      | Some false => false
      | _ =>
        let ts := getTime (new_Date lastSeenAt) in
        if negb (isFinite ts) then false
        else
          let age := number_sub (Num now) ts in
          number_le age ONLINE_STALE_MS
      end
    end
  end.
End Online.

(** ** Cut calculator *)

Module PeriodoCorte.
Record t : Type := mk {
  contadorInicioGeneral : Z;
  contadorFinGeneral : Z;
  totalPaginasGeneral : Z;
  periodo : string;
  esPrimerCorte : bool
}.
End PeriodoCorte.

Section Calculo.
Context {RT : Runtime}.

(** [hoy] is the instant read by [new Date()] inside the function. *)
Definition calcularPeriodoCorte
    (ultimoCorte : option CortesMensuales.t)
    (contadoresActuales : ImpresoraLatest.t)
    (hoy : Date) : PeriodoCorte.t :=
  let contadorActual :=
    or_Z (ImpresoraLatest.lastPageCount contadoresActuales) 0 in
  match ultimoCorte with
  | None =>
    PeriodoCorte.mk 0 contadorActual contadorActual
                    "Desde instalación" true
  | Some ultimo =>
    let contadorInicioGeneral :=
      or_Z (CortesMensuales.contadorFinGeneral ultimo) 0 in
    let totalPaginasGeneral :=
      Z.max 0 (contadorActual - contadorInicioGeneral) in
    let fechaInicio := new_Date (CortesMensuales.fechaCorte ultimo) in
    let fechaFin := hoy in
    let periodo :=
      (toLocaleDateString fechaInicio ++ " - "
         ++ toLocaleDateString fechaFin)%string in
    PeriodoCorte.mk contadorInicioGeneral contadorActual
                    totalPaginasGeneral periodo false
  end.
End Calculo.

(** ** Telemetry ingestion: derived flags *)

Section Flags.
Context {RT : Runtime}.

(** [Number(v)] *)
Definition ToNumber (v : json) : number :=
  match v with
  | JUndefined => NaN
  | JNull => Num 0
  | JBool b => Num (if b then 1 else 0)
  | JNumber n => n
  | JString s => StringToNumber s
  | JArray _ | JObject _ => ObjectToNumber v
  end.

(** [s?.k] for the property names the route reads ([level], [max]);
    primitives and arrays have no such property. *)
Definition optional_get (s : json) (k : string) : json :=
  match s with
  | JObject fields => lookup_field k fields
  | _ => JUndefined
  end.

(** [(lvl / max) * 100], for [max] different from zero. *)
Definition percentage (lvl max : Z) : Q :=
  ((inject_Z lvl / inject_Z max) * 100)%Q.

(** [(lvl / max) * 100 <= bound]; only called with [max > 0]. *)
Definition percentage_le (lvl max : number) (bound : Z) : bool :=
  match lvl, max with
  | Num l, Num m => Qle_bool (percentage l m) (inject_Z bound)
  | _, _ => false
  end.

(** The callback of [supplies.some(...)]. *)
Definition supply_is_low (s : json) : bool :=
  let lvl := ToNumber (optional_get s "level") in
  let max := ToNumber (optional_get s "max") in
  if isFinite lvl && isFinite max && number_gt max (Num 0)
  then percentage_le lvl max 20
  else isFinite lvl && number_le lvl (Num 20).

(** [Array.isArray(supplies) && supplies.some(...)] *)
Definition lowToner (supplies : json) : bool :=
  Array_isArray supplies && existsb supply_is_low (elements supplies).

(** [typeof v === 'number' && !Number.isNaN(v)] *)
Definition is_numeric (v : json) : bool :=
  typeof_number v && negb (Number_isNaN v).

(** [is_numeric v ? Number(v) : null] *)
Definition numeric_or_null (v : json) : option Z :=
  if is_numeric v
  then match ToNumber v with Num z => Some z | NaN => None end
  else None.

Definition snmpOk (pageCount supplies : json)
    (sysName sysDescr serial model : option string) : bool :=
  is_numeric pageCount
  || (Array_isArray supplies && (0 <? Z.of_nat (List.length (elements supplies))))
  || present sysName || present sysDescr || present serial || present model.
End Flags.

(** ** The data store *)

Module DB.
Record t : Type := mk {
  empresas : list Empresa.t;
  impresoras : list Impresora.t;
  latests : list ImpresoraLatest.t;
  cortes : list CortesMensuales.t;
  (* the next identifier the store hands out *)
  nextId : ObjectId
}.
End DB.

(** Replace the first element that satisfies [p] by its image under [f]. *)
Fixpoint update_first {A : Type} (p : A -> bool) (f : A -> A) (l : list A)
  : list A :=
  match l with
  | [] => []
  | x :: rest => if p x then f x :: rest else x :: update_first p f rest
  end.

(** The filter [{ empresaId, ...claveOr }] of the ingestion route. *)
Inductive Clave : Type :=
| ClaveOr (serial host : string)      (* { $or: [{ serial }, { host }] } *)
| ClaveHost (host : string).          (* { host } *)

Definition matches_clave (empresaId : ObjectId) (c : Clave)
    (d : Impresora.t) : bool :=
  Nat.eqb (Impresora.empresaId d) empresaId
  && match c with
     | ClaveOr serial host =>
       match Impresora.serial d with
       | Some s => String.eqb s serial
       | None => false
       end
       || String.eqb (Impresora.host d) host
     | ClaveHost host => String.eqb (Impresora.host d) host
     end.

(** The [$set] document of the device upsert. *)
Module SetBase.
Record t : Type := mk {
  empresaId : ObjectId;
  ciudad : option string;
  host : string;
  serial : option string;
  sysName : option string;
  sysDescr : option string;
  printerName : option string;
  model : option string
}.
End SetBase.

Definition apply_setBase (b : SetBase.t) (d : Impresora.t) : Impresora.t :=
  Impresora.mk (Impresora._id d)
    (SetBase.empresaId b) (SetBase.ciudad b) (SetBase.host b)
    (SetBase.serial b) (SetBase.sysName b) (SetBase.sysDescr b)
    (SetBase.printerName b) (SetBase.model b)
    (Impresora.createdAt d).

Definition insert_setBase (b : SetBase.t) (id : ObjectId) (createdAt : Date)
  : Impresora.t :=
  Impresora.mk id
    (SetBase.empresaId b) (SetBase.ciudad b) (SetBase.host b)
    (SetBase.serial b) (SetBase.sysName b) (SetBase.sysDescr b)
    (SetBase.printerName b) (SetBase.model b)
    createdAt.

(** The [$set] document of the latest-state upsert. *)
Module SetLatest.
Record t : Type := mk {
  lastPageCount : option Z;
  lastPageMono : option Z;
  lastPageColor : option Z;
  lastSupplies : list json;
  lastSeenAt : Date;
  lowToner : bool;
  online : bool
}.
End SetLatest.

Definition apply_setLatest (s : SetLatest.t) (l : ImpresoraLatest.t)
  : ImpresoraLatest.t :=
  ImpresoraLatest.mk (ImpresoraLatest.printerId l)
    (SetLatest.lastPageCount s) (SetLatest.lastPageMono s)
    (SetLatest.lastPageColor s) (Some (SetLatest.lastSupplies s))
    (Some (SetLatest.lastSeenAt s)) (Some (SetLatest.lowToner s))
    (Some (SetLatest.online s))
    (ImpresoraLatest.ultimoCorteId l) (ImpresoraLatest.lastCutDate l).

Definition insert_setLatest (s : SetLatest.t) (printerId : ObjectId)
  : ImpresoraLatest.t :=
  ImpresoraLatest.mk printerId
    (SetLatest.lastPageCount s) (SetLatest.lastPageMono s)
    (SetLatest.lastPageColor s) (Some (SetLatest.lastSupplies s))
    (Some (SetLatest.lastSeenAt s)) (Some (SetLatest.lowToner s))
    (Some (SetLatest.online s))
    None None.

(** [$set: { ultimoCorteId, lastCutDate }] *)
Definition set_ultimoCorte (corteId : ObjectId) (lastCutDate : Date)
    (l : ImpresoraLatest.t) : ImpresoraLatest.t :=
  ImpresoraLatest.mk (ImpresoraLatest.printerId l)
    (ImpresoraLatest.lastPageCount l) (ImpresoraLatest.lastPageMono l)
    (ImpresoraLatest.lastPageColor l) (ImpresoraLatest.lastSupplies l)
    (ImpresoraLatest.lastSeenAt l) (ImpresoraLatest.lowToner l)
    (ImpresoraLatest.online l)
    (Some corteId) (Some lastCutDate).

Definition is_printer (printerId : ObjectId) (l : ImpresoraLatest.t) : bool :=
  Nat.eqb (ImpresoraLatest.printerId l) printerId.

Definition is_corte (id : ObjectId) (c : CortesMensuales.t) : bool :=
  Nat.eqb (CortesMensuales._id c) id.

(** The store operations the routes await. *)
Inductive DbOp : Type -> Type :=
| Empresa_findOne (apiKey : string) : DbOp (option Empresa.t)
| Empresa_findById (id : ObjectId) : DbOp (option Empresa.t)
| Impresora_findOneAndUpdate
    (empresaId : ObjectId) (claveOr : Clave)
    (setBase : SetBase.t) (createdAt : Date) : DbOp Impresora.t
| Impresora_findById (id : ObjectId) : DbOp (option Impresora.t)
| ImpresoraLatest_findOneAndUpdate
    (printerId : ObjectId) (set : SetLatest.t) : DbOp unit
| ImpresoraLatest_findOne (printerId : ObjectId)
  : DbOp (option ImpresoraLatest.t)
| ImpresoraLatest_setCorte
    (printerId : ObjectId) (ultimoCorteId : ObjectId) (lastCutDate : Date)
  : DbOp unit
| CortesMensuales_findById (id : ObjectId) : DbOp (option CortesMensuales.t)
| CortesMensuales_save (nuevo : ObjectId -> CortesMensuales.t)
  : DbOp CortesMensuales.t.

Definition exec {A : Type} (op : DbOp A) (db : DB.t) : A * DB.t :=
  match op in DbOp T return T * DB.t with
  | Empresa_findOne apiKey =>
    (find (fun e => String.eqb (Empresa.apiKey e) apiKey) (DB.empresas db),
     db)
  | Empresa_findById id =>
    (find (fun e => Nat.eqb (Empresa._id e) id) (DB.empresas db), db)
  | Impresora_findOneAndUpdate empresaId claveOr setBase createdAt =>
    match find (matches_clave empresaId claveOr) (DB.impresoras db) with
    | Some d =>
      (apply_setBase setBase d,
       DB.mk (DB.empresas db)
             (update_first (matches_clave empresaId claveOr)
                           (apply_setBase setBase) (DB.impresoras db))
             (DB.latests db) (DB.cortes db) (DB.nextId db))
    | None =>
      let d := insert_setBase setBase (DB.nextId db) createdAt in
      (d,
       DB.mk (DB.empresas db) (DB.impresoras db ++ [d])
             (DB.latests db) (DB.cortes db) (S (DB.nextId db)))
    end
  | Impresora_findById id =>
    (find (fun d => Nat.eqb (Impresora._id d) id) (DB.impresoras db), db)
  | ImpresoraLatest_findOneAndUpdate printerId set =>
    match find (is_printer printerId) (DB.latests db) with
    | Some _ =>
      (tt,
       DB.mk (DB.empresas db) (DB.impresoras db)
             (update_first (is_printer printerId) (apply_setLatest set)
                           (DB.latests db))
             (DB.cortes db) (DB.nextId db))
    | None =>
      (tt,
       DB.mk (DB.empresas db) (DB.impresoras db)
             (DB.latests db ++ [insert_setLatest set printerId])
             (DB.cortes db) (DB.nextId db))
    end
  | ImpresoraLatest_findOne printerId =>
    (find (is_printer printerId) (DB.latests db), db)
  | ImpresoraLatest_setCorte printerId ultimoCorteId lastCutDate =>
    (tt,
     DB.mk (DB.empresas db) (DB.impresoras db)
           (update_first (is_printer printerId)
                         (set_ultimoCorte ultimoCorteId lastCutDate)
                         (DB.latests db))
           (DB.cortes db) (DB.nextId db))
  | CortesMensuales_findById id =>
    (find (is_corte id) (DB.cortes db), db)
  | CortesMensuales_save nuevo =>
    let c := nuevo (DB.nextId db) in
    (c,
     DB.mk (DB.empresas db) (DB.impresoras db) (DB.latests db)
           (DB.cortes db ++ [c]) (S (DB.nextId db)))
  end.

(** ** Route handlers as programs over the store

    A handler is a tree of awaited store operations that ends in a response. *)

Inductive Prog (R : Type) : Type :=
| Ret (r : R)
| Await {A : Type} (op : DbOp A) (k : A -> Prog R).

Arguments Ret {R} r.
Arguments Await {R A} op k.

Notation "x <- 'await' op ;; k" := (Await op (fun x => k))
  (at level 61, op at next level, right associativity).

(** Every awaited operation fulfils. *)
Fixpoint run {R : Type} (p : Prog R) (db : DB.t) : R * DB.t :=
  match p with
  | Ret r => (r, db)
  | Await op k => let '(a, db') := exec op db in run (k a) db'
  end.

(** One awaited operation at a time.  An operation may fulfil, or reject;
    a rejection is caught by the handler's [catch], which answers with
    [onError].  A rejected write may or may not have reached the store. *)
Section Steps.
Context {R : Type}.
Variable onError : R.

Definition Config : Type := (DB.t * Prog R)%type.

Definition fulfil (c : Config) : option Config :=
  match snd c with
  | Ret _ => None
  | Await op k =>
    let r := exec op (fst c) in Some (snd r, k (fst r))
  end.

Definition reject_unapplied (c : Config) : option Config :=
  match snd c with
  | Ret _ => None
  | Await _ _ => Some (fst c, Ret onError)
  end.

Definition reject_applied (c : Config) : option Config :=
  match snd c with
  | Ret _ => None
  | Await op _ => Some (snd (exec op (fst c)), Ret onError)
  end.

Definition step (c c' : Config) : Prop :=
  fulfil c = Some c'
  \/ reject_unapplied c = Some c'
  \/ reject_applied c = Some c'.

Inductive steps : Config -> Config -> Prop :=
| steps_refl : forall c, steps c c
| steps_step : forall c1 c2 c3, step c1 c2 -> steps c2 c3 -> steps c1 c3.
End Steps.

(** ** Requests and responses *)

Module MetricsBody.
Record t : Type := mk {
  host : option string;
  pageCount : json;
  pageCountMono : json;
  pageCountColor : json;
  supplies : json;
  sysName : option string;
  sysDescr : option string;
  printerName : option string;
  serial : option string;
  model : option string;
  ciudad : option string;
  ts : option string;
  agentVersion : option string
}.

(** [{}] *)
Definition empty : t :=
  mk None JUndefined JUndefined JUndefined JUndefined
     None None None None None None None None.
End MetricsBody.

Module MetricsRequest.
Record t : Type := mk {
  authorization : option string;
  body : option MetricsBody.t
}.
End MetricsRequest.

(** The drawn texts of the report that carry data: the lines of the
    general-information block and the three headline statistics. *)
Module Pdf.
Record t : Type := mk {
  info : list string;
  stats : list (string * string)     (* label, value *)
}.
End Pdf.

(** What the report route catches, by the expression that throws. *)
Inductive PdfError : Type :=
| ImpresoraNull                       (* [impresora.empresaId] on null *)
| SinContadorFin                      (* [corte.contadorFinGeneral.toLocaleString()] *)
| SinTotalPaginas                     (* [corte.totalPaginasGeneral.toLocaleString()] *)
| SupplyNullish (index : nat)         (* [supply.level] on null or undefined *)
| SupplyNameNotString (index : nat)   (* [(supply.name || ...).toUpperCase()] *)
| PDFKitRejects (index : nat)         (* a coordinate of the bar of the supply *)
| InvalidHeaderChar.                  (* [res.setHeader('Content-Disposition', ...)] *)

(** [ErrorMessage prefix err]: the text [prefix + err.message]. *)
Inductive Body : Type :=
| Error (error : string)
| ErrorMessage (prefix : string) (err : PdfError)
| IngestOk (printerId empresaId : ObjectId) (agentVersion : string)
| CorteOk (corteId : ObjectId) (mensaje : string)
          (periodo : string) (totalPaginas : Z) (fecha : string).

Inductive Response : Type :=
| Json (status : Z) (body : Body)
| SendPdf (pdfBuffer : Pdf.t).

(** [s.slice(n)] *)
Definition slice (n : nat) (s : string) : string :=
  substring n (String.length s - n) s.

Section Routes.
Context {RT : Runtime}.

(** *** POST /api/metrics/impresoras *)

(** [supplies = []] of the destructuring: the default applies to a missing
    property only. *)
Definition supplies_of (b : MetricsBody.t) : json :=
  match MetricsBody.supplies b with
  | JUndefined => JArray []
  | v => v
  end.

(** [serial ? { $or: [{ serial }, { host }] } : { host }] *)
Definition claveOr (serial : option string) (host : string) : Clave :=
  match serial with
  | Some s => if truthy_string s then ClaveOr s host else ClaveHost host
  | None => ClaveHost host
  end.

Definition setBase (empresa : Empresa.t) (b : MetricsBody.t) (host : string)
  : SetBase.t :=
  SetBase.mk (Empresa._id empresa)
    (match MetricsBody.ciudad b with
     | Some c => if truthy_string c then Some c else None
     | None => None
     end)
    host (MetricsBody.serial b) (MetricsBody.sysName b)
    (MetricsBody.sysDescr b) (MetricsBody.printerName b)
    (MetricsBody.model b).

(** The [$set] of the latest state; [ahora] is the instant of the
    [new Date()] that stands in for a missing [ts]. *)
Definition setLatest (b : MetricsBody.t) (ahora : Date) : SetLatest.t :=
  let pageCount := MetricsBody.pageCount b in
  let supplies := supplies_of b in
  let lastSeenAt := match MetricsBody.ts b with
                    | Some ts => Date_parse ts
                    | None => ahora
                    end in
  let snmpOk :=
    snmpOk pageCount supplies (MetricsBody.sysName b)
           (MetricsBody.sysDescr b) (MetricsBody.serial b)
           (MetricsBody.model b) in
  let lowToner := lowToner supplies in
  SetLatest.mk
    (numeric_or_null pageCount)
    (numeric_or_null (MetricsBody.pageCountMono b))
    (numeric_or_null (MetricsBody.pageCountColor b))
    (if Array_isArray supplies then elements supplies else [])
    lastSeenAt lowToner snmpOk.

(** [ahoraInsert] is the instant of the [new Date()] of [$setOnInsert]. *)
Definition metrics_impresoras
    (req : MetricsRequest.t) (ahora ahoraInsert : Date) : Prog Response :=
  let auth := or_string (MetricsRequest.authorization req) "" in
  let token := if prefix "Bearer " auth then Some (slice 7 auth) else None in
  match token with
  | None => Ret (Json 401 (Error "Falta ApiKey"))
  | Some token =>
    if negb (truthy_string token) then Ret (Json 401 (Error "Falta ApiKey"))
    else
      empresa <- await Empresa_findOne token ;;
      match empresa with
      | None => Ret (Json 403 (Error "ApiKey inválida"))
      | Some empresa =>
        let b := match MetricsRequest.body req with
                 | Some b => b
                 | None => MetricsBody.empty
                 end in
        let agentVersion := match MetricsBody.agentVersion b with
                            | Some v => v
                            | None => "1.0.0"
                            end in
        match MetricsBody.host b with
        | None => Ret (Json 400 (Error "host requerido"))
        | Some host =>
          if negb (truthy_string host)
          then Ret (Json 400 (Error "host requerido"))
          else
            impresora <- await Impresora_findOneAndUpdate
                           (Empresa._id empresa)
                           (claveOr (MetricsBody.serial b) host)
                           (setBase empresa b host) ahoraInsert ;;
            _ <- await ImpresoraLatest_findOneAndUpdate
                   (Impresora._id impresora) (setLatest b ahora) ;;
            Ret (Json 200 (IngestOk (Impresora._id impresora)
                                    (Empresa._id empresa) agentVersion))
        end
      end
  end.

(** *** POST /api/impresoras/:id/registrar-corte

    [ahora] is the instant of the route's [new Date()], [hoy] the one
    read inside [calcularPeriodoCorte]. *)
Definition nuevoCorte (printerId : ObjectId) (impresora : Impresora.t)
    (latest : ImpresoraLatest.t) (ultimoCorte : option CortesMensuales.t)
    (calculos : PeriodoCorte.t) (ahora : Date) (id : ObjectId)
  : CortesMensuales.t :=
  CortesMensuales.mk id printerId (Impresora.empresaId impresora)
    ahora (getMonth ahora + 1) (getFullYear ahora)
    (Some (PeriodoCorte.contadorInicioGeneral calculos))
    (Some (PeriodoCorte.contadorFinGeneral calculos))
    (Some (PeriodoCorte.totalPaginasGeneral calculos))
    (Some (PeriodoCorte.periodo calculos))
    (Some (match ultimoCorte with
           | Some u => or_array (CortesMensuales.suppliesFin u)
           | None => []
           end))
    (Some (or_array (ImpresoraLatest.lastSupplies latest)))
    (or_string (Impresora.printerName impresora)
       (or_string (Impresora.sysName impresora) (Impresora.host impresora)))
    (or_string (Impresora.model impresora)
       (or_string (Impresora.sysDescr impresora) ""))
    None.

Definition registrar_corte_guardar (printerId : ObjectId)
    (impresora : Impresora.t) (latest : ImpresoraLatest.t)
    (ahora hoy : Date) (ultimoCorte : option CortesMensuales.t)
  : Prog Response :=
  let calculos := calcularPeriodoCorte ultimoCorte latest hoy in
  corteGuardado <- await CortesMensuales_save
                     (nuevoCorte printerId impresora latest ultimoCorte
                                 calculos ahora) ;;
  _ <- await ImpresoraLatest_setCorte
         printerId (CortesMensuales._id corteGuardado) ahora ;;
  Ret (Json 200
         (CorteOk (CortesMensuales._id corteGuardado)
            "Corte registrado correctamente"
            (Number_toString (PeriodoCorte.contadorInicioGeneral calculos)
               ++ " → "
               ++ Number_toString
                    (or_Z (ImpresoraLatest.lastPageCount latest) 0))%string
            (PeriodoCorte.totalPaginasGeneral calculos)
            (toLocaleDateString ahora))).

Definition registrar_corte (printerId : ObjectId) (ahora hoy : Date)
  : Prog Response :=
  impresora <- await Impresora_findById printerId ;;
  match impresora with
  | None => Ret (Json 404 (Error "Impresora no encontrada"))
  | Some impresora =>
    latest <- await ImpresoraLatest_findOne printerId ;;
    match latest with
    | None => Ret (Json 404 (Error "Datos de impresora no encontrados"))
    | Some latest =>
      match ImpresoraLatest.ultimoCorteId latest with
      | Some id =>
        ultimoCorte <- await CortesMensuales_findById id ;;
        registrar_corte_guardar printerId impresora latest ahora hoy
                                ultimoCorte
      | None =>
        registrar_corte_guardar printerId impresora latest ahora hoy None
      end
    end
  end.

(** The answer of the route's [catch]. *)
Definition registrar_corte_catch : Response :=
  Json 500 (Error "Error interno registrando corte").
End Routes.

(** ** Report *)

Section Report.
Context {RT : Runtime}.

(** [corte.contadorInicioGeneral?.toLocaleString() || '0'] *)
Definition texto_inicio (contadorInicioGeneral : option Z) : string :=
  match contadorInicioGeneral with
  | Some n =>
    let s := toLocaleString n in if truthy_string s then s else "0"
  | None => "0"
  end.

(** Truthiness of a value. *)
Definition truthy_json (v : json) : bool :=
  match v with
  | JUndefined | JNull => false
  | JBool b => b
  | JNumber (Num z) => truthy_Z z
  | JNumber NaN => false
  | JString s => truthy_string s
  | JArray _ | JObject _ => true
  end.

(** The callback of [supplies.forEach(...)], for a supply that is drawn
    ([index < 4]): what it throws, if it does.  [supply.level] throws on
    null and undefined; a [supply.name] that is truthy and not a string has
    no [toUpperCase]. *)
Definition dibujar_supply (index : nat) (supply : json) : option PdfError :=
  match supply with
  | JUndefined | JNull => Some (SupplyNullish index)
  | _ =>
    let name := optional_get supply "name" in
    if truthy_json name
       && negb (match name with JString _ => true | _ => false end)
    then Some (SupplyNameNotString index)
    else if negb (PDFKit_draws supply)
    then Some (PDFKitRejects index)
    else None
  end.

(** [supplies.forEach((supply, index) => { if (index >= 4) return; ... })]:
    the first error, if any. *)
Fixpoint dibujar_supplies (index : nat) (supplies : list json)
  : option PdfError :=
  match supplies with
  | [] => None
  | supply :: rest =>
    if Nat.leb 4 index then None
    else match dibujar_supply index supply with
         | Some err => Some err
         | None => dibujar_supplies (S index) rest
         end
  end.

(** The promise of [generarPDFProfesional]. *)
Inductive Rendered : Type :=
| Resolved (pdfBuffer : Pdf.t)
| Rejected (err : PdfError).

(** The data-carrying texts that [generarPDFProfesional] draws.  The
    promise rejects when [impresora] is null, when one of the counters read
    without a guard is missing, or when drawing one of the first four
    supplies throws.  [impresora] comes with its populated [empresaId]. *)
Definition generarPDFProfesional (corte : CortesMensuales.t)
    (impresora : option (Impresora.t * option Empresa.t)) : Rendered :=
  match impresora with
  | None => Rejected ImpresoraNull
  | Some (impresora, empresa) =>
    match CortesMensuales.contadorFinGeneral corte,
          CortesMensuales.totalPaginasGeneral corte with
    | Some contadorFinGeneral, Some totalPaginasGeneral =>
      match dibujar_supplies 0 (or_array (CortesMensuales.suppliesFin corte))
      with
      | Some err => Rejected err
      | None =>
      Resolved (Pdf.mk
        [ ("Empresa: " ++
           or_string (match empresa with
                      | Some e => Empresa.nombre e
                      | None => None
                      end) "N/A")%string;
          ("Impresora: " ++
           or_string (Impresora.printerName impresora)
             (or_string (Impresora.sysName impresora)
                        (Impresora.host impresora)))%string;
          ("Modelo: " ++
           or_string (Impresora.model impresora)
             (or_string (Impresora.sysDescr impresora) "N/A"))%string;
          ("Número de Serie: " ++
           or_string (Impresora.serial impresora) "No disponible")%string;
          ("Ubicación: " ++
           or_string (Impresora.ciudad impresora) "N/A")%string;
          ("Período: " ++
           or_string (CortesMensuales.periodo corte)
                     "No especificado")%string ]
        [ ("INICIO PERÍODO",
           texto_inicio (CortesMensuales.contadorInicioGeneral corte));
          ("FIN PERÍODO", toLocaleString contadorFinGeneral);
          ("CONSUMO TOTAL", toLocaleString totalPaginasGeneral) ])
      end
    | None, _ => Rejected SinContadorFin
    | Some _, None => Rejected SinTotalPaginas
    end
  end.

(** [{ ...corte, periodo }] *)
Definition with_periodo (corte : CortesMensuales.t) (periodo : string)
  : CortesMensuales.t :=
  CortesMensuales.mk
    (CortesMensuales._id corte) (CortesMensuales.printerId corte)
    (CortesMensuales.empresaId corte) (CortesMensuales.fechaCorte corte)
    (CortesMensuales.mes corte) (CortesMensuales.año corte)
    (CortesMensuales.contadorInicioGeneral corte)
    (CortesMensuales.contadorFinGeneral corte)
    (CortesMensuales.totalPaginasGeneral corte)
    (Some periodo)
    (CortesMensuales.suppliesInicio corte)
    (CortesMensuales.suppliesFin corte)
    (CortesMensuales.nombreImpresora corte)
    (CortesMensuales.modeloImpresora corte)
    (CortesMensuales.ultimoCorteId corte).

(** The answer of the [catch]: the prefix and the message of the error. *)
Definition generar_pdf_catch (err : PdfError) : Response :=
  Json 500 (ErrorMessage "Error interno generando PDF: " err).

(** Node's [checkInvalidHeaderChar]: the string has a character other than
    tab, U+0020 to U+007E and U+0080 to U+00FF.  Strings hold UTF-8, where
    the characters U+0080 to U+00FF are the two-byte sequences that start
    with 0xC2 or 0xC3. *)
Fixpoint checkInvalidHeaderChar (s : string) : bool :=
  match s with
  | EmptyString => false
  | String c rest =>
    let n := Ascii.nat_of_ascii c in
    if (Nat.eqb n 9 || (Nat.leb 32 n && Nat.leb n 126))%bool
    then checkInvalidHeaderChar rest
    else if (Nat.eqb n 194 || Nat.eqb n 195)%bool
    then match rest with
         | String c' rest' =>
           let n' := Ascii.nat_of_ascii c' in
           if (Nat.leb 128 n' && Nat.leb n' 191)%bool
           then checkInvalidHeaderChar rest'
           else true
         | EmptyString => true
         end
    else true
  end.

Definition generar_pdf_falta_corte : Response :=
  Json 400 (Error "Primero debe registrar un corte para generar el PDF").

(** [datosPDF] of the report route. *)
Definition datosPDF (corte : CortesMensuales.t)
    (ultimoCorteAnterior : option CortesMensuales.t)
    (latest : ImpresoraLatest.t) (hoy : Date) : CortesMensuales.t :=
  let calculosPeriodo := calcularPeriodoCorte ultimoCorteAnterior latest hoy in
  with_periodo corte (PeriodoCorte.periodo calculosPeriodo).

Definition generar_pdf_enviar (corte : CortesMensuales.t)
    (impresora : option (Impresora.t * option Empresa.t))
    (latest : ImpresoraLatest.t) (hoy : Date)
    (ultimoCorteAnterior : option CortesMensuales.t) : Prog Response :=
  match generarPDFProfesional
          (datosPDF corte ultimoCorteAnterior latest hoy) impresora with
  | Resolved pdfBuffer =>
    (* the file name of the header: the other characters of the value, and
       the digits of [Date.now()], are valid *)
    match impresora with
    | Some (impresora, _) =>
      if checkInvalidHeaderChar
           (or_string (Impresora.printerName impresora)
                      (Impresora.host impresora))
      then Ret (generar_pdf_catch InvalidHeaderChar)
      else Ret (SendPdf pdfBuffer)
    | None => Ret (generar_pdf_catch ImpresoraNull)
    end
  | Rejected err => Ret (generar_pdf_catch err)
  end.

(** *** GET /api/impresoras/:id/generar-pdf

    [populate] is the second query of the awaited call it belongs to. *)
Definition generar_pdf (printerId : ObjectId) (hoy : Date)
  : Prog Response :=
  latest <- await ImpresoraLatest_findOne printerId ;;
  match latest with
  | None => Ret generar_pdf_falta_corte
  | Some latest =>
    match ImpresoraLatest.ultimoCorteId latest with
    | None => Ret generar_pdf_falta_corte
    | Some id =>
      populated <- await CortesMensuales_findById id ;;
      match populated with
      | None => Ret generar_pdf_falta_corte
      | Some corte =>
        impresora <- await Impresora_findById printerId ;;
        let continuar impresora :=
          match CortesMensuales.ultimoCorteId corte with
          | Some anterior =>
            ultimoCorteAnterior <- await CortesMensuales_findById anterior ;;
            generar_pdf_enviar corte impresora latest hoy
                               ultimoCorteAnterior
          | None => generar_pdf_enviar corte impresora latest hoy None
          end in
        match impresora with
        | None => continuar None
        | Some i =>
          empresa <- await Empresa_findById (Impresora.empresaId i) ;;
          continuar (Some (i, empresa))
        end
      end
    end
  end.
End Report.

(** ** Readings used by the statements *)

(** A supply that the report can draw: an object or a primitive other than
    null and undefined, whose name, if it has one, is a string, and whose
    bar PDFKit draws. *)
Definition supply_dibujable {RT : Runtime} (supply : json) : Prop :=
  supply <> JNull /\ supply <> JUndefined
  /\ (truthy_json (optional_get supply "name") = true ->
      exists name, optional_get supply "name" = JString name)
  /\ PDFKit_draws supply = true.

(** The snapshot's total page count, a missing value read as 0. *)
Definition totalPageCount (latest : ImpresoraLatest.t) : Z :=
  match ImpresoraLatest.lastPageCount latest with
  | Some c => c
  | None => 0
  end.

(** A runtime with plain decimal numbers and dates shown as their
    millisecond count, for evaluating the routes on concrete inputs. *)
Definition decimal (z : Z) : string :=
  DecimalString.NilZero.string_of_int (Z.to_int z).

Definition plain_runtime : Runtime :=
  {| StringToNumber := fun _ => NaN;
     ObjectToNumber := fun _ => NaN;
     Date_parse := fun _ => InvalidDate;
     toLocaleDateString := fun d =>
       match d with
       | ValidDate t => decimal t
       | InvalidDate => "Invalid Date"
       end;
     toLocaleString := decimal;
     getMonth := fun _ => 0;
     getFullYear := fun _ => 1970;
     Number_toString := decimal;
     PDFKit_draws := fun _ => true |}.

(** A latest-state record that only carries a page count and a last-seen
    instant. *)
Definition latest_of (printerId : ObjectId) (lastPageCount : option Z)
    (lastSeenAt : option Date) (online : option bool)
    (ultimoCorteId : option ObjectId) : ImpresoraLatest.t :=
  ImpresoraLatest.mk printerId lastPageCount None None (Some [])
                     lastSeenAt (Some false) online ultimoCorteId None.

(** A cut that closed at [contadorFinGeneral]. *)
Definition corte_of (id printerId : ObjectId) (fechaCorte : Date)
    (contadorFinGeneral : Z) (periodo : string)
    (suppliesFin : list json) : CortesMensuales.t :=
  CortesMensuales.mk id printerId 1 fechaCorte 1 2024
    (Some 0) (Some contadorFinGeneral) (Some contadorFinGeneral)
    (Some periodo) (Some []) (Some suppliesFin) "HP" "LaserJet" None.

(** The queries of the register-cut route, as lookups in the store. *)
Definition find_impresora (db : DB.t) (id : ObjectId) : option Impresora.t :=
  fst (exec (Impresora_findById id) db).

Definition find_latest (db : DB.t) (printerId : ObjectId)
  : option ImpresoraLatest.t :=
  fst (exec (ImpresoraLatest_findOne printerId) db).

Definition find_corte (db : DB.t) (id : ObjectId) : option CortesMensuales.t :=
  fst (exec (CortesMensuales_findById id) db).

(** The previous cut of a device: the one its latest state points to. *)
Definition corte_previo (db : DB.t) (latest : ImpresoraLatest.t)
  : option CortesMensuales.t :=
  match ImpresoraLatest.ultimoCorteId latest with
  | Some id => find_corte db id
  | None => None
  end.

(** A cut with this identifier is in the store. *)
Definition persisted (db : DB.t) (id : ObjectId) : Prop :=
  exists c, In c (DB.cortes db) /\ CortesMensuales._id c = id.

(** Every latest-cut pointer references a stored cut. *)
Definition no_dangling (db : DB.t) : Prop :=
  forall l id,
    In l (DB.latests db) ->
    ImpresoraLatest.ultimoCorteId l = Some id ->
    persisted db id.

(** Between [db1] and [db2] some latest-state record came to point at [id]. *)
Definition pointer_written (db1 db2 : DB.t) (id : ObjectId) : Prop :=
  exists l,
    In l (DB.latests db2)
    /\ ImpresoraLatest.ultimoCorteId l = Some id
    /\ ~ In l (DB.latests db1).

(** Supplies as an agent reports them. *)
Definition supply (name : string) (level max : Z) : json :=
  JObject [("name", JString name);
           ("level", JNumber (Num level));
           ("max", JNumber (Num max))].

Definition supply_bare (name : string) (level : Z) : json :=
  JObject [("name", JString name); ("level", JNumber (Num level))].

(** A store with one tenant and one printer that has been cut once, at
    counter 1500, and has since reported 1800 pages. *)
Definition db_un_corte : DB.t :=
  DB.mk
    [Empresa.mk 1 (Some "Acme") "emp_k1"]
    [Impresora.mk 3 1 (Some "Lima") "10.0.0.5" (Some "SN-1") None None
                  (Some "Recepcion") (Some "LaserJet") (ValidDate 10)]
    [ImpresoraLatest.mk 3 (Some 1800) None None
       (Some [supply "black" 40 100]) (Some (ValidDate 5000))
       (Some false) (Some true) (Some 7%nat) (Some (ValidDate 1000))]
    [corte_of 7 3 (ValidDate 1000) 1500 "Desde instalación"
              [supply "black" 90 100]]
    8.

(** The same printer before any telemetry reached the store. *)
Definition db_sin_latest : DB.t :=
  DB.mk
    [Empresa.mk 1 (Some "Acme") "emp_k1"]
    [Impresora.mk 3 1 (Some "Lima") "10.0.0.5" (Some "SN-1") None None
                  (Some "Recepcion") (Some "LaserJet") (ValidDate 10)]
    [] [] 4.

(** An operation of the register-cut route is in order in [db] when, if
    it is the pointer update, the cut it points to is already stored.  (The
    telemetry upsert is not an operation of that route.) *)
Definition op_in_order {A : Type} (op : DbOp A) (db : DB.t) : Prop :=
  match op with
  | ImpresoraLatest_setCorte _ ultimoCorteId _ => persisted db ultimoCorteId
  | ImpresoraLatest_findOneAndUpdate _ _ => False
  | _ => True
  end.

(** Every operation that the program issues from [db] on, each after the
    previous one has fulfilled, is in order. *)
Fixpoint in_order {R : Type} (p : Prog R) (db : DB.t) : Prop :=
  match p with
  | Ret _ => True
  | Await op k =>
    op_in_order op db /\ in_order (k (fst (exec op db))) (snd (exec op db))
  end.

(** The invariant of a run that started in [db0]: what remains to be issued
    is in order, and no pointer dangles if none did at the start. *)
Definition run_invariant {R : Type} (db0 : DB.t) (c : @Config R) : Prop :=
  in_order (snd c) (fst c) /\ (no_dangling db0 -> no_dangling (fst c)).

(** The configuration after [n] operations have fulfilled. *)
Fixpoint advance {R : Type} (n : nat) (c : @Config R) : @Config R :=
  match n with
  | O => c
  | S n' =>
    match fulfil c with
    | Some c' => advance n' c'
    | None => c
    end
  end.

(** The register-cut operation on the example printer, about to start. *)
Definition segundo_corte : @Config Response :=
  (db_un_corte,
   registrar_corte (RT := plain_runtime) 3 (ValidDate 9000) (ValidDate 9001)).

(** ** Telemetry ingestion: readings and examples *)

(** A telemetry request that the ingestion route accepts: its bearer token
    is the key of [empresa] and its body [b] names [host]. *)
Definition accepted (db : DB.t) (req : MetricsRequest.t)
    (empresa : Empresa.t) (b : MetricsBody.t) (host : string) : Prop :=
  exists token,
    MetricsRequest.authorization req = Some ("Bearer " ++ token)%string
    /\ truthy_string token = true
    /\ fst (exec (Empresa_findOne token) db) = Some empresa
    /\ MetricsRequest.body req = Some b
    /\ MetricsBody.host b = Some host
    /\ truthy_string host = true.

(** The identifier that the ingestion route answers with. *)
Definition printerId_of (r : Response) : option ObjectId :=
  match r with
  | Json _ (IngestOk printerId _ _) => Some printerId
  | _ => None
  end.

(** Tenant and host of every device; tenant and serial of every device that
    has a serial. *)
Definition host_keys (db : DB.t) : list (ObjectId * string) :=
  map (fun d => (Impresora.empresaId d, Impresora.host d)) (DB.impresoras db).

Definition serial_keys (db : DB.t) : list (ObjectId * string) :=
  flat_map (fun d => match Impresora.serial d with
                     | Some s => if truthy_string s
                                 then [(Impresora.empresaId d, s)] else []
                     | None => []
                     end)
           (DB.impresoras db).

Definition unique_by_host (db : DB.t) : Prop := NoDup (host_keys db).
Definition unique_by_serial (db : DB.t) : Prop := NoDup (serial_keys db).

(** The device match in the words of the specification: tenant and serial
    when the report has a serial, tenant and host otherwise. *)
Definition spec_matches (empresaId : ObjectId) (serial : option string)
    (host : string) (d : Impresora.t) : bool :=
  Nat.eqb (Impresora.empresaId d) empresaId
  && if present serial
     then match Impresora.serial d, serial with
          | Some s', Some s => String.eqb s' s
          | _, _ => false
          end
     else String.eqb (Impresora.host d) host.

(** The liveness signal in the words of the specification: a numeric page
    count, a non-empty supplies list, or any identity string of the report.
    (The host is left out: a report always has one.) *)
Definition spec_snmpOk (b : MetricsBody.t) : bool :=
  is_numeric (MetricsBody.pageCount b)
  || match supplies_of b with
     | JArray (_ :: _) => true
     | _ => false
     end
  || present (MetricsBody.serial b) || present (MetricsBody.printerName b)
  || present (MetricsBody.sysName b) || present (MetricsBody.sysDescr b)
  || present (MetricsBody.model b).

(** A supply as the data model has it: a numeric level, and a maximum that
    is numeric or left out. *)
Definition reported_level (s : json) : option Z :=
  match optional_get s "level" with
  | JNumber (Num l) => Some l
  | _ => None
  end.

Definition reported_max (s : json) : option Z :=
  match optional_get s "max" with
  | JNumber (Num m) => Some m
  | _ => None
  end.

Definition well_formed_supply (s : json) : Prop :=
  (exists l, optional_get s "level" = JNumber (Num l))
  /\ (optional_get s "max" = JUndefined
      \/ optional_get s "max" = JNull
      \/ exists m, optional_get s "max" = JNumber (Num m)).

(** The level is at most 20% of a positive maximum, or at most 20 when the
    maximum is absent or not positive. *)
Definition low_supply (s : json) : Prop :=
  exists l,
    reported_level s = Some l
    /\ ((exists m, reported_max s = Some m /\ 0 < m
                   /\ (inject_Z l / inject_Z m <= 20 # 100)%Q)
        \/ ((reported_max s = None
             \/ exists m, reported_max s = Some m /\ m <= 0)
            /\ l <= 20)).

(** The same condition on a supply as the route reads it: the level and
    the maximum are what [Number()] makes of them, so that null counts as 0,
    a boolean as 0 or 1, and a missing value counts as absent. *)
Definition counted_level {RT : Runtime} (s : json) : option Z :=
  match ToNumber (optional_get s "level") with
  | Num l => Some l
  | NaN => None
  end.

Definition counted_max {RT : Runtime} (s : json) : option Z :=
  match ToNumber (optional_get s "max") with
  | Num m => Some m
  | NaN => None
  end.

Definition low_supply_counted {RT : Runtime} (s : json) : Prop :=
  exists l,
    counted_level s = Some l
    /\ ((exists m, counted_max s = Some m /\ 0 < m
                   /\ (inject_Z l / inject_Z m <= 20 # 100)%Q)
        \/ ((counted_max s = None
             \/ exists m, counted_max s = Some m /\ m <= 0)
            /\ l <= 20)).

(** A store with one tenant and no printer yet. *)
Definition db_vacia : DB.t :=
  DB.mk [Empresa.mk 1 (Some "Acme") "emp_k1"] [] [] [] 2.

(** A report of the tenant's agent. *)
Definition reporte (host : string) (serial printerName : option string)
    (pageCount supplies : json) : MetricsRequest.t :=
  MetricsRequest.mk (Some "Bearer emp_k1")
    (Some (MetricsBody.mk (Some host) pageCount JUndefined JUndefined supplies
                          None None printerName serial None None None None)).

Definition ingest (req : MetricsRequest.t) (db : DB.t) : Response * DB.t :=
  run (metrics_impresoras (RT := plain_runtime) req
         (ValidDate 5000) (ValidDate 5001)) db.

(** One printer of the tenant has reported, with its serial. *)
Definition db_una_impresora : DB.t :=
  snd (ingest (reporte "10.0.0.5" (Some "SN-1") None
                       (JNumber (Num 100)) JUndefined)
              db_vacia).

(** A second printer has reported, with a serial of its own. *)
Definition db_dos_impresoras : DB.t :=
  snd (ingest (reporte "10.0.0.6" (Some "SN-2") None
                       (JNumber (Num 70)) JUndefined)
              db_una_impresora).

(** The printer at the first address now reports the second serial. *)
Definition reporte_cambio : MetricsRequest.t :=
  reporte "10.0.0.5" (Some "SN-2") None (JNumber (Num 120)) JUndefined.

(** A report that carries a host and a printer name only. *)
Definition reporte_solo_nombre : MetricsRequest.t :=
  reporte "10.0.0.5" None (Some "Recepcion") JUndefined JUndefined.

(** A report with one supply at 15 of 100. *)
Definition reporte_toner_bajo : MetricsRequest.t :=
  reporte "10.0.0.5" (Some "SN-1") None (JNumber (Num 100))
          (JArray [supply "black" 15 100]).

(** A report with one supply whose level is null, of a maximum of 100. *)
Definition reporte_nivel_nulo : MetricsRequest.t :=
  reporte "10.0.0.5" (Some "SN-1") None (JNumber (Num 100))
          (JArray [JObject [("level", JNull); ("max", JNumber (Num 100))]]).

(** ** Report: readings and examples *)

(** The cut that came before [corte], as the report route looks it up. *)
Definition corte_anterior (db : DB.t) (corte : CortesMensuales.t)
  : option CortesMensuales.t :=
  match CortesMensuales.ultimoCorteId corte with
  | Some id => find_corte db id
  | None => None
  end.

(** The example printer after its second cut has been registered. *)
Definition db_dos_cortes : DB.t := snd (run (snd segundo_corte) db_un_corte).

(** ** Device listing: GET /api/empresas/:empresaId/impresoras *)

(** An element of the [data] array of the listing: the device, its derived
    online state, and its latest state with the derived state added (or
    null). *)
Module ImpresoraItem.
Record t : Type := mk {
  impresora : Impresora.t;
  online : bool;
  latest : option (ImpresoraLatest.t * bool)
}.
End ImpresoraItem.

(** [new Map(latest.map(l => [String(l.printerId), l])).get(String(id))]:
    a later entry with the same key replaces an earlier one. *)
Definition Map_get (latest : list ImpresoraLatest.t) (id : ObjectId)
  : option ImpresoraLatest.t :=
  find (is_printer id) (rev latest).

(** The filter [q]: [{ empresaId }], with [ciudad] added when the query
    string has one. *)
Definition matches_q (empresaId : ObjectId) (ciudad : option string)
    (i : Impresora.t) : bool :=
  Nat.eqb (Impresora.empresaId i) empresaId
  && if present ciudad
     then match Impresora.ciudad i, ciudad with
          | Some c', Some c => String.eqb c' c
          | _, _ => false
          end
     else true.

Section Listado.
Context {RT : Runtime}.
Variable env_ONLINE_STALE_MS : option string.

(** The [data] of the answer; [now] is the route's [Date.now()]. *)
Definition listar_impresoras (db : DB.t) (empresaId : ObjectId)
    (ciudad : option string) (now : Z) : list ImpresoraItem.t :=
  let impresoras := filter (matches_q empresaId ciudad) (DB.impresoras db) in
  let ids := map Impresora._id impresoras in
  let latest :=
    filter (fun l => existsb (Nat.eqb (ImpresoraLatest.printerId l)) ids)
           (DB.latests db) in
  map (fun i =>
         let l := Map_get latest (Impresora._id i) in
         let derivedOnline := computeDerivedOnline env_ONLINE_STALE_MS l now in
         let latestWithDerived := option_map (fun l => (l, derivedOnline)) l in
         ImpresoraItem.mk i derivedOnline latestWithDerived)
      impresoras.
End Listado.

(** At most one latest-state record per device. *)
Definition unique_latests (db : DB.t) : Prop :=
  NoDup (map ImpresoraLatest.printerId (DB.latests db)).

(** The status of an answer; [res.json] without [res.status] answers 200. *)
Definition status_of (r : Response) : Z :=
  match r with
  | Json status _ => status
  | SendPdf _ => 200
  end.

(** What a latest-state record holds of the last report. *)
Definition telemetry_of (l : ImpresoraLatest.t)
  : option Z * option Z * option Z * option (list json)
    * option Date * option bool * option bool :=
  (ImpresoraLatest.lastPageCount l, ImpresoraLatest.lastPageMono l,
   ImpresoraLatest.lastPageColor l, ImpresoraLatest.lastSupplies l,
   ImpresoraLatest.lastSeenAt l, ImpresoraLatest.lowToner l,
   ImpresoraLatest.online l).

(** ** Users and licences (the server module) *)

(** A Date path of a user document: never set, null, or a date. *)
Inductive FechaOpt : Type :=
| FechaUndefined
| FechaNull
| Fecha (d : Date).

(** The number a relational operator compares such a value as. *)
Definition fecha_number (f : FechaOpt) : number :=
  match f with
  | FechaUndefined => NaN
  | FechaNull => Num 0
  | Fecha d => getTime d
  end.

(** [f > ahora] and [f <= ahora], [ahora] a valid date. *)
Definition fecha_gt (f : FechaOpt) (ahora : Z) : bool :=
  number_gt (fecha_number f) (Num ahora).

Definition fecha_le (f : FechaOpt) (ahora : Z) : bool :=
  number_le (fecha_number f) (Num ahora).

Module Usuario.
Record t : Type := mk {
  email : string;
  password : string;
  activo : bool;
  ciudad : string;
  empresaId : string;
  fechaRegistro : Date;
  plan : string;
  licenciaTrial : bool;
  fechaExpiracionTrial : FechaOpt;
  fechaExpiracionLicencia : FechaOpt;
  limiteEmpresas : Z;
  stripeCustomerId : option string;
  stripeSubscriptionId : option string;
  ultimoPago : option Date
}.
End Usuario.

(** What the server module takes from bcrypt, from the calendar and from
    the string encoding of the engine. *)
Class ServerRuntime : Type := {
  (** [bcrypt.hash(password, 10)], with the salt it draws *)
  bcrypt_hash : string -> string -> string;
  (** [bcrypt.compare(password, hash)] *)
  bcrypt_compare : string -> string -> bool;
  (** [d.setDate(d.getDate() + n)] *)
  setDate_plus : Date -> Z -> Date;
  (** [s.length], in UTF-16 code units *)
  String_length : string -> Z
}.

(** [Math.ceil(x / d)] for integers, [d] positive.  The double-precision
    quotient has this ceiling for instants less than 2^27 days apart. *)
Definition Math_ceil_div (x d : Z) : Z := - ((- x) / d).

Definition ms_per_day : Z := 1000 * 60 * 60 * 24.

(** [Math.ceil((usuario.fechaExpiracionTrial - ahora) / (1000*60*60*24))] *)
Definition dias_restantes (f : FechaOpt) (ahora : Z) : number :=
  match number_sub (fecha_number f) (Num ahora) with
  | Num x => Num (Math_ceil_div x ms_per_day)
  | NaN => NaN
  end.

(** *** POST /login: the licence check *)

Inductive Acceso : Type :=
| Concedido
| Denegado (mensajeError codigoError : string)
| Lanza.          (* a TypeError, caught by the route *)

Section Login.
Context {RT : Runtime} {SRT : ServerRuntime}.

Definition login_licencia (usuario : Usuario.t) (ahora : Z) : Acceso :=
  if Usuario.activo usuario
     && fecha_gt (Usuario.fechaExpiracionLicencia usuario) ahora
  then Concedido
  else if Usuario.licenciaTrial usuario
          && fecha_gt (Usuario.fechaExpiracionTrial usuario) ahora
  then Concedido
  else if Usuario.licenciaTrial usuario
          && fecha_le (Usuario.fechaExpiracionTrial usuario) ahora
  then match Usuario.fechaExpiracionTrial usuario with
       | Fecha d =>
         Denegado ("Tu trial expiró el " ++ toLocaleDateString d ++ ".")%string
                  "TRIAL_EXPIRADO"
       | _ => Lanza
       end
  else if negb (String.eqb (Usuario.plan usuario) "trial")
          && negb (Usuario.activo usuario)
  then Denegado "Licencia pendiente de pago. Por favor completa el pago para activar tu cuenta."
                "PENDIENTE_PAGO"
  else if Usuario.activo usuario
          && fecha_le (Usuario.fechaExpiracionLicencia usuario) ahora
  then Denegado "Tu licencia ha expirado. Por favor renueva tu suscripción."
                "LICENCIA_EXPIRADA"
  else Denegado "Licencia no válida. Contacta a soporte." "LICENCIA_INVALIDA".

(** The answers of the login route. *)
Inductive LoginReply : Type :=
| LoginError (status : Z) (error codigo : string)
| LoginOk (usuario : Usuario.t) (diasRestantesTrial : option number).

Definition es_usuario (email ciudad : string) (u : Usuario.t) : bool :=
  String.eqb (Usuario.email u) email && String.eqb (Usuario.ciudad u) ciudad.

Definition login (usuarios : list Usuario.t) (email password ciudad : string)
    (ahora : Z) : LoginReply :=
  match find (es_usuario email ciudad) usuarios with
  | None => LoginError 401 "Usuario no encontrado" "USUARIO_NO_ENCONTRADO"
  | Some usuario =>
    if negb (bcrypt_compare password (Usuario.password usuario))
    then LoginError 401 "Contraseña incorrecta" "CONTRASENA_INCORRECTA"
    else
      match login_licencia usuario ahora with
      | Lanza => LoginError 500 "Error en el servidor" "ERROR_SERVIDOR"
      | Denegado mensajeError codigoError =>
        LoginError 403 mensajeError codigoError
      | Concedido =>
        let diasRestantes :=
          if Usuario.licenciaTrial usuario
             && fecha_gt (Usuario.fechaExpiracionTrial usuario) ahora
          then Some (dias_restantes (Usuario.fechaExpiracionTrial usuario) ahora)
          else None in
        LoginOk usuario diasRestantes
      end
  end.
End Login.

(** *** GET /api/verificar-licencia/:empresaId *)

Module Verificacion.
Record t : Type := mk {
  puedeAcceder : bool;
  motivo : string;
  tipo : string;
  diasRestantes : option number
}.
End Verificacion.

Definition verificar_licencia_usuario (usuario : Usuario.t) (ahora : Z)
  : Verificacion.t :=
  if Usuario.activo usuario
     && fecha_gt (Usuario.fechaExpiracionLicencia usuario) ahora
  then Verificacion.mk true "Licencia activa (pago)" "pago" None
  else if Usuario.licenciaTrial usuario
          && fecha_gt (Usuario.fechaExpiracionTrial usuario) ahora
  then Verificacion.mk true "Trial vigente" "trial"
         (Some (dias_restantes (Usuario.fechaExpiracionTrial usuario) ahora))
  else if Usuario.licenciaTrial usuario
          && fecha_le (Usuario.fechaExpiracionTrial usuario) ahora
  then Verificacion.mk false "Trial expirado" "trial_expirado" None
  else Verificacion.mk false "Licencia inactiva (pendiente de pago)"
                       "pendiente_pago" None.

(** The answer: 404 without a user of that [empresaId]. *)
Definition verificar_licencia (usuarios : list Usuario.t) (empresaId : string)
    (ahora : Z) : option Verificacion.t :=
  match find (fun u => String.eqb (Usuario.empresaId u) empresaId) usuarios with
  | None => None
  | Some usuario => Some (verificar_licencia_usuario usuario ahora)
  end.

(** *** The licence middleware of the routes module *)

Inductive Paso : Type :=
| Next (usuario : Usuario.t)
| Rechazo (status : Z) (codigo : string).

Definition middleware_licencia (usuario : Usuario.t) (ahora : Z) : Paso :=
  if Usuario.activo usuario
     && fecha_gt (Usuario.fechaExpiracionLicencia usuario) ahora
  then Next usuario
  else if Usuario.licenciaTrial usuario
          && fecha_gt (Usuario.fechaExpiracionTrial usuario) ahora
  then Next usuario
  else if Usuario.licenciaTrial usuario
          && fecha_le (Usuario.fechaExpiracionTrial usuario) ahora
  then Rechazo 403 "TRIAL_EXPIRADO"
  else if negb (String.eqb (Usuario.plan usuario) "trial")
          && negb (Usuario.activo usuario)
  then Rechazo 403 "PENDIENTE_PAGO"
  else Rechazo 403 "LICENCIA_INVALIDA".

(** [a || b || c] on strings that may be absent. *)
Definition first_present (a b c : option string) : option string :=
  if present a then a else if present b then b else c.

(** The six places of a request (with a body) that the middleware reads. *)
Module LicenciaRequest.
Record t : Type := mk {
  params_empresaId : option string;
  query_empresaId : option string;
  body_empresaId : option string;
  query_ciudad : option string;
  body_ciudad : option string;
  header_x_ciudad : option string
}.
End LicenciaRequest.

Definition verificarLicencia (usuarios : list Usuario.t)
    (req : LicenciaRequest.t) (ahora : Z) : Paso :=
  let empresaId := first_present (LicenciaRequest.params_empresaId req)
                     (LicenciaRequest.query_empresaId req)
                     (LicenciaRequest.body_empresaId req) in
  let ciudad := first_present (LicenciaRequest.query_ciudad req)
                  (LicenciaRequest.body_ciudad req)
                  (LicenciaRequest.header_x_ciudad req) in
  match empresaId, ciudad with
  | Some empresaId, Some ciudad =>
    if negb (truthy_string empresaId) || negb (truthy_string ciudad)
    then Rechazo 401 "SIN_CREDENCIALES"
    else
      match find (fun u => String.eqb (Usuario.empresaId u) empresaId
                           && String.eqb (Usuario.ciudad u) ciudad) usuarios with
      | None => Rechazo 401 "USUARIO_NO_ENCONTRADO"
      | Some usuario => middleware_licencia usuario ahora
      end
  | _, _ => Rechazo 401 "SIN_CREDENCIALES"
  end.

(** [s] is the first of three optional strings that is there and not
    empty. *)
Definition sin_valor (a : option string) : Prop :=
  a = None \/ a = Some EmptyString.

Definition primero_de (a b c : option string) (s : string) : Prop :=
  s <> EmptyString
  /\ (a = Some s
      \/ (sin_valor a /\ b = Some s)
      \/ (sin_valor a /\ sin_valor b /\ c = Some s)).

(** The company and the city that a request names: the company by the
    route parameter, else the query string, else the body; the city by the
    query string, else the body, else the header. *)
Definition nombra (req : LicenciaRequest.t) (empresaId ciudad : string)
  : Prop :=
  primero_de (LicenciaRequest.params_empresaId req)
             (LicenciaRequest.query_empresaId req)
             (LicenciaRequest.body_empresaId req) empresaId
  /\ primero_de (LicenciaRequest.query_ciudad req)
                (LicenciaRequest.body_ciudad req)
                (LicenciaRequest.header_x_ciudad req) ciudad.

(** [u] is the first user of the store with the company and the city. *)
Definition primer_usuario (usuarios : list Usuario.t)
    (empresaId ciudad : string) (u : Usuario.t) : Prop :=
  Usuario.empresaId u = empresaId /\ Usuario.ciudad u = ciudad
  /\ exists antes despues,
       usuarios = antes ++ u :: despues
       /\ forall x, In x antes ->
                    ~ (Usuario.empresaId x = empresaId
                       /\ Usuario.ciudad x = ciudad).

(** The condition under which a licence is in force. *)
Definition licencia_vigente (u : Usuario.t) (ahora : Z) : bool :=
  (Usuario.activo u && fecha_gt (Usuario.fechaExpiracionLicencia u) ahora)
  || (Usuario.licenciaTrial u && fecha_gt (Usuario.fechaExpiracionTrial u) ahora).

(** *** POST /api/registro *)

Module RegistroBody.
Record t : Type := mk {
  email : option string;
  password : option string;
  ciudad : option string;
  empresaId : option string;
  plan : option string;           (* default ['trial'] *)
  diasTrial : option Z            (* default [7] *)
}.
End RegistroBody.

Inductive RegistroReply : Type :=
| RegistroError (status : Z) (error : string)
| RegistroOk (message : string) (empresaId plan : string) (activo : bool)
             (diasTrial : Z) (expiraTrial : Date) (limiteEmpresas : Z).

Definition planesValidos : list string := ["trial"; "starter"; "premium"].

(** [planesValidos.includes(plan)] *)
Definition includes (l : list string) (s : string) : bool :=
  existsb (String.eqb s) l.

Definition limite_de_plan (plan : string) : Z :=
  let limiteEmpresas := 1 in
  let limiteEmpresas :=
    if String.eqb plan "starter" then 10 else limiteEmpresas in
  if String.eqb plan "premium" then 30 else limiteEmpresas.

Section Registro.
Context {RT : Runtime} {SRT : ServerRuntime}.

(** [plan = 'trial'] and [diasTrial = 7] of the destructuring. *)
Definition plan_of (body : RegistroBody.t) : string :=
  match RegistroBody.plan body with
  | Some p => p
  | None => "trial"
  end.

Definition diasTrial_of (body : RegistroBody.t) : Z :=
  match RegistroBody.diasTrial body with
  | Some d => d
  | None => 7
  end.

(** The user that the route saves; [fechaActual] and [hoy] are the instants
    of its two [new Date()], [salt] is the salt that bcrypt draws. *)
Definition nuevoUsuario (email password ciudad empresaId : string)
    (plan : string) (diasTrial : Z) (salt : string) (fechaActual hoy : Date)
  : Usuario.t :=
  let hashedPassword := bcrypt_hash password salt in
  let fechaExpiracionTrial := setDate_plus hoy diasTrial in
  let limiteEmpresas := limite_de_plan plan in
  let activo := if String.eqb plan "trial" then true else false in
  Usuario.mk email hashedPassword activo ciudad empresaId
    fechaActual plan true (Fecha fechaExpiracionTrial) FechaNull
    limiteEmpresas None None None.

Definition registro (usuarios : list Usuario.t) (body : RegistroBody.t)
    (salt : string) (fechaActual hoy : Date)
  : RegistroReply * list Usuario.t :=
  let plan := plan_of body in
  let diasTrial := diasTrial_of body in
  match RegistroBody.email body, RegistroBody.password body,
        RegistroBody.ciudad body, RegistroBody.empresaId body with
  | Some email, Some password, Some ciudad, Some empresaId =>
    if negb (truthy_string email) || negb (truthy_string password)
       || negb (truthy_string ciudad) || negb (truthy_string empresaId)
    then (RegistroError 400 "Todos los campos son obligatorios", usuarios)
    else if negb (includes planesValidos plan)
    then (RegistroError 400 "Plan no válido", usuarios)
    else
      match find (fun u => String.eqb (Usuario.email u) email) usuarios with
      | Some _ => (RegistroError 400 "Este email ya está registrado", usuarios)
      | None =>
        if String_length password <? 6
        then (RegistroError 400
                "La contraseña debe tener al menos 6 caracteres", usuarios)
        else
          let nuevo := nuevoUsuario email password ciudad empresaId plan
                         diasTrial salt fechaActual hoy in
          match setDate_plus hoy diasTrial with
          | InvalidDate =>
            (* the Date path of the schema refuses an Invalid Date:
               [save()] rejects *)
            (RegistroError 500 "Error interno del servidor", usuarios)
          | ValidDate _ =>
          (RegistroOk
             (if String.eqb plan "trial"
              then ("¡Registro exitoso! Tienes " ++ Number_toString diasTrial
                    ++ " días de trial gratis.")%string
              else ("¡Registro exitoso! Tienes " ++ Number_toString diasTrial
                    ++ " días de trial. Procede al pago para activar tu licencia completa.")%string)
             empresaId plan (Usuario.activo nuevo) diasTrial
             (setDate_plus hoy diasTrial) (Usuario.limiteEmpresas nuevo),
           usuarios ++ [nuevo])
          end
      end
  | _, _, _, _ => (RegistroError 400 "Todos los campos son obligatorios", usuarios)
  end.
End Registro.

(** *** PATCH /api/usuarios/:email/activar *)

Definition set_activo (u : Usuario.t) : Usuario.t :=
  Usuario.mk (Usuario.email u) (Usuario.password u) true (Usuario.ciudad u)
    (Usuario.empresaId u) (Usuario.fechaRegistro u) (Usuario.plan u)
    (Usuario.licenciaTrial u) (Usuario.fechaExpiracionTrial u)
    (Usuario.fechaExpiracionLicencia u) (Usuario.limiteEmpresas u)
    (Usuario.stripeCustomerId u) (Usuario.stripeSubscriptionId u)
    (Usuario.ultimoPago u).

(** The user of the answer (none: 404) and the users afterwards.  The update
    also names [fechaActivacion], a path the schema does not have. *)
Definition activar (usuarios : list Usuario.t) (email : string)
  : option Usuario.t * list Usuario.t :=
  let es_email := fun u => String.eqb (Usuario.email u) email in
  match find es_email usuarios with
  | Some u => (Some (set_activo u), update_first es_email set_activo usuarios)
  | None => (None, usuarios)
  end.

(** The status of the answers. *)
Definition registro_status (r : RegistroReply) : Z :=
  match r with
  | RegistroError status _ => status
  | RegistroOk _ _ _ _ _ _ _ => 200
  end.

Definition login_status (r : LoginReply) : Z :=
  match r with
  | LoginError status _ _ => status
  | LoginOk _ _ => 200
  end.

(** ** Deleting a tenant: DELETE /api/empresas/:id *)

(** Remove the first element that satisfies [p]. *)
Fixpoint remove_first {A : Type} (p : A -> bool) (l : list A) : list A :=
  match l with
  | [] => []
  | x :: rest => if p x then rest else x :: remove_first p rest
  end.

Section EliminarEmpresa.
(** Which latest-state records the filter [{ empresaId }] selects: the
    routes never write that path, so this is up to the schema. *)
Variable latest_de_empresa : ObjectId -> ImpresoraLatest.t -> bool.

(** The tenant of the answer (none: 404) and the store afterwards. *)
Definition eliminar_empresa (db : DB.t) (id : ObjectId)
  : option Empresa.t * DB.t :=
  let es_id := fun e => Nat.eqb (Empresa._id e) id in
  match find es_id (DB.empresas db) with
  | None => (None, db)
  | Some empresa =>
    (Some empresa,
     DB.mk (remove_first es_id (DB.empresas db))
           (filter (fun i => negb (Nat.eqb (Impresora.empresaId i) id))
                   (DB.impresoras db))
           (filter (fun l => negb (latest_de_empresa id l)) (DB.latests db))
           (filter (fun c => negb (Nat.eqb (CortesMensuales.empresaId c) id))
                   (DB.cortes db))
           (DB.nextId db))
  end.
End EliminarEmpresa.

(** ** Folders and assignments *)

(** The documents hold the paths that the routes read and write; the scope
    of a folder is the owner [empresaId] and the [ciudad]. *)

Module Carpeta.
Record t : Type := mk {
  _id : ObjectId;
  nombre : string;
  parentId : option ObjectId;
  empresaId : string;
  ciudad : string;
  fechaCreacion : Date
}.
End Carpeta.

Module AsignacionCarpeta.
Record t : Type := mk {
  empresaId : string;
  empresaPadreId : string;
  ciudad : string;
  carpetaId : ObjectId
}.
End AsignacionCarpeta.

Module Folders.
Record t : Type := mk {
  carpetas : list Carpeta.t;
  asignaciones : list AsignacionCarpeta.t
}.
End Folders.

(** [carpetaId] of an assignment request: null, or the identifier of a
    folder (requests that carry one of the two). *)
Inductive CarpetaRef : Type :=
| RefNull
| RefId (id : ObjectId).

Module AsignacionBody.
Record t : Type := mk {
  empresaId : option string;
  carpetaId : CarpetaRef;
  empresaPadreId : option string;
  ciudad : option string
}.
End AsignacionBody.

Inductive AsignacionReply : Type :=
| AsignacionError (status : Z) (error : string)
| AsignacionRemovida
| AsignacionOk (data : AsignacionCarpeta.t).

(** The filter [{ empresaId, empresaPadreId, ciudad }]. *)
Definition es_asignacion (empresaId empresaPadreId ciudad : string)
    (a : AsignacionCarpeta.t) : bool :=
  String.eqb (AsignacionCarpeta.empresaId a) empresaId
  && String.eqb (AsignacionCarpeta.empresaPadreId a) empresaPadreId
  && String.eqb (AsignacionCarpeta.ciudad a) ciudad.

(** The filter [{ _id, empresaId, ciudad }] on folders. *)
Definition es_carpeta (id : ObjectId) (empresaId ciudad : string)
    (c : Carpeta.t) : bool :=
  Nat.eqb (Carpeta._id c) id
  && String.eqb (Carpeta.empresaId c) empresaId
  && String.eqb (Carpeta.ciudad c) ciudad.

Definition set_carpetaId (carpetaId : ObjectId) (a : AsignacionCarpeta.t)
  : AsignacionCarpeta.t :=
  AsignacionCarpeta.mk (AsignacionCarpeta.empresaId a)
    (AsignacionCarpeta.empresaPadreId a) (AsignacionCarpeta.ciudad a)
    carpetaId.

(** *** POST /api/asignaciones *)
Definition post_asignaciones (st : Folders.t) (body : AsignacionBody.t)
  : AsignacionReply * Folders.t :=
  match AsignacionBody.empresaId body, AsignacionBody.empresaPadreId body,
        AsignacionBody.ciudad body with
  | Some empresaId, Some empresaPadreId, Some ciudad =>
    if negb (truthy_string empresaId) || negb (truthy_string empresaPadreId)
       || negb (truthy_string ciudad)
    then (AsignacionError 400
            "empresaId, empresaPadreId y ciudad son requeridos", st)
    else
      match AsignacionBody.carpetaId body with
      | RefNull =>
        (AsignacionRemovida,
         Folders.mk (Folders.carpetas st)
           (remove_first (es_asignacion empresaId empresaPadreId ciudad)
                         (Folders.asignaciones st)))
      | RefId carpetaId =>
        match find (es_carpeta carpetaId empresaPadreId ciudad)
                   (Folders.carpetas st) with
        | None => (AsignacionError 404 "Carpeta no encontrada", st)
        | Some _ =>
          let filtro := es_asignacion empresaId empresaPadreId ciudad in
          match find filtro (Folders.asignaciones st) with
          | Some a =>
            (AsignacionOk (set_carpetaId carpetaId a),
             Folders.mk (Folders.carpetas st)
               (update_first filtro (set_carpetaId carpetaId)
                             (Folders.asignaciones st)))
          | None =>
            let a := AsignacionCarpeta.mk empresaId empresaPadreId ciudad
                                          carpetaId in
            (AsignacionOk a,
             Folders.mk (Folders.carpetas st) (Folders.asignaciones st ++ [a]))
          end
        end
      end
  | _, _, _ =>
    (AsignacionError 400 "empresaId, empresaPadreId y ciudad son requeridos", st)
  end.

(** *** GET /api/asignaciones *)

(** [m[k] = v] and [m[k]] on the object that the route builds. *)
Fixpoint obj_set (m : list (string * ObjectId)) (k : string) (v : ObjectId)
  : list (string * ObjectId) :=
  match m with
  | [] => [(k, v)]
  | (k', v') :: rest =>
    if String.eqb k' k then (k, v) :: rest else (k', v') :: obj_set rest k v
  end.

Definition obj_get (m : list (string * ObjectId)) (k : string)
  : option ObjectId :=
  option_map snd (find (fun kv => String.eqb (fst kv) k) m).

(** The [data] of the answer (none: 400): the own properties of the object,
    which are what the JSON answer carries.  An assignment to the key
    [__proto__] sets the prototype and adds no property. *)
Definition get_asignaciones (st : Folders.t)
    (empresaPadreId ciudad : option string)
  : option (list (string * ObjectId)) :=
  match empresaPadreId, ciudad with
  | Some empresaPadreId, Some ciudad =>
    if negb (truthy_string empresaPadreId) || negb (truthy_string ciudad)
    then None
    else
      let asignaciones :=
        filter (fun a =>
                  String.eqb (AsignacionCarpeta.empresaPadreId a) empresaPadreId
                  && String.eqb (AsignacionCarpeta.ciudad a) ciudad)
               (Folders.asignaciones st) in
      Some (fold_left
              (fun asignacionesMap asig =>
                 if String.eqb (AsignacionCarpeta.empresaId asig) "__proto__"
                 then asignacionesMap
                 else obj_set asignacionesMap (AsignacionCarpeta.empresaId asig)
                              (AsignacionCarpeta.carpetaId asig))
              asignaciones [])
  | _, _ => None
  end.

(** At most one assignment per company, owner and city. *)
Definition asignacion_key (a : AsignacionCarpeta.t)
  : string * string * string :=
  (AsignacionCarpeta.empresaId a, AsignacionCarpeta.empresaPadreId a,
   AsignacionCarpeta.ciudad a).

Definition unique_asignaciones (st : Folders.t) : Prop :=
  NoDup (map asignacion_key (Folders.asignaciones st)).

(** *** DELETE /api/carpetas/:id *)

(** The filter [{ parentId, empresaId, ciudad }]. *)
Definition es_subcarpeta (parentId : ObjectId) (empresaId ciudad : string)
    (c : Carpeta.t) : bool :=
  match Carpeta.parentId c with
  | Some p => Nat.eqb p parentId
  | None => false
  end
  && String.eqb (Carpeta.empresaId c) empresaId
  && String.eqb (Carpeta.ciudad c) ciudad.

(** [AsignacionCarpeta.deleteMany({ carpetaId })] *)
Definition deleteMany_asignaciones (carpetaId : ObjectId) (st : Folders.t)
  : Folders.t :=
  Folders.mk (Folders.carpetas st)
    (filter (fun a => negb (Nat.eqb (AsignacionCarpeta.carpetaId a) carpetaId))
            (Folders.asignaciones st)).

(** [Carpeta.findByIdAndDelete(id)] *)
Definition findByIdAndDelete_carpeta (id : ObjectId) (st : Folders.t)
  : Folders.t :=
  Folders.mk (remove_first (fun c => Nat.eqb (Carpeta._id c) id)
                           (Folders.carpetas st))
             (Folders.asignaciones st).

(** The recursion runs on [fuel]: [None] when it is used up. *)
Fixpoint eliminarSubcarpetasRecursivamente (fuel : nat) (parentId : ObjectId)
    (empresaId ciudad : string) (st : Folders.t) : option Folders.t :=
  match fuel with
  | O => None
  | S fuel' =>
    let subcarpetas :=
      filter (es_subcarpeta parentId empresaId ciudad) (Folders.carpetas st) in
    fold_left
      (fun acc subcarpeta =>
         match acc with
         | None => None
         | Some st =>
           let st := deleteMany_asignaciones (Carpeta._id subcarpeta) st in
           match eliminarSubcarpetasRecursivamente fuel'
                   (Carpeta._id subcarpeta) empresaId ciudad st with
           | None => None
           | Some st =>
             Some (findByIdAndDelete_carpeta (Carpeta._id subcarpeta) st)
           end
         end)
      subcarpetas (Some st)
  end.

(** The folder of the answer (none: 404) and the store afterwards, for a
    request that carries the scope [empresaId], [ciudad]; the outer [None]
    when the fuel is used up. *)
Definition delete_carpeta (fuel : nat) (st : Folders.t) (id : ObjectId)
    (empresaId ciudad : string) : option (option Carpeta.t * Folders.t) :=
  match find (es_carpeta id empresaId ciudad) (Folders.carpetas st) with
  | None => Some (None, st)
  | Some carpeta =>
    let st := Folders.mk (remove_first (es_carpeta id empresaId ciudad)
                                       (Folders.carpetas st))
                         (Folders.asignaciones st) in
    let st := deleteMany_asignaciones id st in
    match eliminarSubcarpetasRecursivamente fuel id empresaId ciudad st with
    | None => None
    | Some st => Some (Some carpeta, st)
    end
  end.

(** [x] is below [p]: a chain of folders of the scope, each the child of
    the one before, leads from [p] to [x]. *)
Inductive debajo (carpetas : list Carpeta.t) (empresaId ciudad : string)
    (p : ObjectId) : Carpeta.t -> Prop :=
| debajo_hija : forall x,
    In x carpetas -> es_subcarpeta p empresaId ciudad x = true ->
    debajo carpetas empresaId ciudad p x
| debajo_nieta : forall y x,
    debajo carpetas empresaId ciudad p y ->
    In x carpetas -> es_subcarpeta (Carpeta._id y) empresaId ciudad x = true ->
    debajo carpetas empresaId ciudad p x.

(** A forest: identifiers are unique, and a height decreases from a folder
    to each of its children. *)
Definition bosque (h : ObjectId -> nat) (carpetas : list Carpeta.t) : Prop :=
  NoDup (map Carpeta._id carpetas)
  /\ forall x p, In x carpetas -> Carpeta.parentId x = Some p ->
                 (h (Carpeta._id x) < h p)%nat.

(** The folder that a company is assigned to, for an owner and a city. *)
Definition asignada (st : Folders.t) (empresaId empresaPadreId ciudad : string)
  : option ObjectId :=
  option_map AsignacionCarpeta.carpetaId
    (find (es_asignacion empresaId empresaPadreId ciudad)
          (Folders.asignaciones st)).

Definition asignacion_status (r : AsignacionReply) : Z :=
  match r with
  | AsignacionError status _ => status
  | _ => 200
  end.

(** A folder of [hechas], or below one of them. *)
Definition en_subarboles (carpetas : list Carpeta.t)
    (empresaId ciudad : string) (hechas : list Carpeta.t) (x : Carpeta.t)
  : Prop :=
  In x hechas
  \/ exists y, In y hechas
               /\ debajo carpetas empresaId ciudad (Carpeta._id y) x.

(** [st'] is [st] without the folders that satisfy [R] and without the
    assignments to them, the rest in the order it had. *)
Definition quitadas (R : Carpeta.t -> Prop) (st st' : Folders.t) : Prop :=
  exists keep keepA,
    Folders.carpetas st' = filter keep (Folders.carpetas st)
    /\ Folders.asignaciones st' = filter keepA (Folders.asignaciones st)
    /\ (forall x, In x (Folders.carpetas st) -> (keep x = false <-> R x))
    /\ (forall a, In a (Folders.asignaciones st) ->
          (keepA a = false
           <-> exists x, R x /\ Carpeta._id x = AsignacionCarpeta.carpetaId a)).

(** *** POST /api/carpetas and PUT /api/carpetas/:id *)

Module CarpetaBody.
(** [parentId]: none when the request has none, or a null one. *)
Record t : Type := mk {
  nombre : option string;
  parentId : option ObjectId;
  empresaId : option string;
  ciudad : option string
}.
End CarpetaBody.

Inductive CarpetaReply : Type :=
| CarpetaError (status : Z) (error : string)
| CarpetaCreada (data : Carpeta.t)
| CarpetaRenombrada (data : Carpeta.t).

Definition carpeta_status (r : CarpetaReply) : Z :=
  match r with
  | CarpetaError status _ => status
  | CarpetaCreada _ => 201
  | CarpetaRenombrada _ => 200
  end.

Definition set_nombre (nombre : string) (c : Carpeta.t) : Carpeta.t :=
  Carpeta.mk (Carpeta._id c) nombre (Carpeta.parentId c)
             (Carpeta.empresaId c) (Carpeta.ciudad c)
             (Carpeta.fechaCreacion c).

Section Carpetas.
(** [s.trim()] *)
Variable String_trim : string -> string.

(** [nuevoId] is the identifier that [new Carpeta] draws, [ahora] the
    instant of [new Date()]. *)
Definition post_carpetas (st : Folders.t) (body : CarpetaBody.t)
    (nuevoId : ObjectId) (ahora : Date) : CarpetaReply * Folders.t :=
  match CarpetaBody.nombre body, CarpetaBody.empresaId body,
        CarpetaBody.ciudad body with
  | Some nombre, Some empresaId, Some ciudad =>
    if negb (truthy_string nombre) || negb (truthy_string empresaId)
       || negb (truthy_string ciudad)
    then (CarpetaError 400 "Nombre, empresaId y ciudad son requeridos", st)
    else
      let nuevaCarpeta :=
        Carpeta.mk nuevoId (String_trim nombre) (CarpetaBody.parentId body)
                   empresaId ciudad ahora in
      let creada :=
        (CarpetaCreada nuevaCarpeta,
         Folders.mk (Folders.carpetas st ++ [nuevaCarpeta])
                    (Folders.asignaciones st)) in
      match CarpetaBody.parentId body with
      | Some parentId =>
        match find (es_carpeta parentId empresaId ciudad)
                   (Folders.carpetas st) with
        | None => (CarpetaError 404 "Carpeta padre no encontrada", st)
        | Some _ => creada
        end
      | None => creada
      end
  | _, _, _ =>
    (CarpetaError 400 "Nombre, empresaId y ciudad son requeridos", st)
  end.

(** The request carries the scope [empresaId], [ciudad]. *)
Definition put_carpetas (st : Folders.t) (id : ObjectId)
    (nombre : option string) (empresaId ciudad : string)
  : CarpetaReply * Folders.t :=
  match nombre with
  | Some nombre =>
    if negb (truthy_string nombre) || String.eqb (String_trim nombre) EmptyString
    then (CarpetaError 400 "El nombre no puede estar vacío", st)
    else
      let filtro := es_carpeta id empresaId ciudad in
      match find filtro (Folders.carpetas st) with
      | None => (CarpetaError 404 "Carpeta no encontrada", st)
      | Some carpeta =>
        (CarpetaRenombrada (set_nombre (String_trim nombre) carpeta),
         Folders.mk (update_first filtro (set_nombre (String_trim nombre))
                                  (Folders.carpetas st))
                    (Folders.asignaciones st))
      end
  | None => (CarpetaError 400 "El nombre no puede estar vacío", st)
  end.

End Carpetas.

(** No folder has the identifier, and none names it as its parent. *)
Definition id_nuevo (id : ObjectId) (carpetas : list Carpeta.t) : Prop :=
  forall x, In x carpetas ->
            Carpeta._id x <> id /\ Carpeta.parentId x <> Some id.

(** What the tree of folders is made of: identifier, parent and scope. *)
Definition nodo (c : Carpeta.t) : ObjectId * option ObjectId * string * string :=
  (Carpeta._id c, Carpeta.parentId c, Carpeta.empresaId c, Carpeta.ciudad c).

(** ** Examples for the server module, the folders and the assignments *)

(** A server runtime whose hash is the password itself and whose days have
    24 hours, for evaluating the routes on concrete inputs.  A Date holds
    at most 8.64e15 milliseconds on either side of the epoch. *)
Definition plain_server_runtime : ServerRuntime :=
  {| bcrypt_hash := fun password _ => password;
     bcrypt_compare := String.eqb;
     setDate_plus := fun d n =>
       match d with
       | ValidDate t =>
         let t' := t + n * ms_per_day in
         if Z.abs t' <=? 8640000000000000 then ValidDate t' else InvalidDate
       | InvalidDate => InvalidDate
       end;
     String_length := fun s => Z.of_nat (String.length s) |}.

(** [trim] on strings whose white space is ASCII. *)
Definition is_space (c : Ascii.ascii) : bool :=
  let n := Ascii.nat_of_ascii c in
  (Nat.eqb n 32 || (Nat.leb 9 n && Nat.leb n 13))%bool.

Fixpoint ltrim (s : string) : string :=
  match s with
  | EmptyString => EmptyString
  | String c rest => if is_space c then ltrim rest else s
  end.

Fixpoint rtrim (s : string) : string :=
  match s with
  | EmptyString => EmptyString
  | String c rest =>
    match rtrim rest with
    | EmptyString => if is_space c then EmptyString else String c EmptyString
    | rest' => String c rest'
    end
  end.

Definition trim_ascii (s : string) : string := rtrim (ltrim s).

(** A first user registers for the trial, a second one for a paid plan. *)
Definition registro_ana : RegistroBody.t :=
  RegistroBody.mk (Some "ana@acme.pe") (Some "secreto1") (Some "Lima")
                  (Some "acme") None None.

Definition registro_beto : RegistroBody.t :=
  RegistroBody.mk (Some "beto@obras.pe") (Some "secreto2") (Some "Cusco")
                  (Some "obras") (Some "starter") (Some 3).



Definition usuarios_ana : list Usuario.t :=
  snd (registro (RT := plain_runtime) (SRT := plain_server_runtime)
                [] registro_ana "sal" (ValidDate 1000) (ValidDate 1000)).

Definition usuarios_ana_beto : list Usuario.t :=
  snd (registro (RT := plain_runtime) (SRT := plain_server_runtime)
                usuarios_ana registro_beto "sal" (ValidDate 1500)
                (ValidDate 1500)).

Definition usuario_ana : Usuario.t :=
  nuevoUsuario (SRT := plain_server_runtime)
    "ana@acme.pe" "secreto1" "Lima" "acme" "trial" 7 "sal"
    (ValidDate 1000) (ValidDate 1000).

(** A request of the first user's company, named by the route parameter. *)
Definition licencia_request_ana : LicenciaRequest.t :=
  LicenciaRequest.mk (Some "acme") None None (Some "Lima") None None.

(** The first report of the example tenant's agent. *)
Definition reporte_inicial : MetricsRequest.t :=
  reporte "10.0.0.5" (Some "SN-1") None (JNumber (Num 100)) JUndefined.

(** A folder with a sub-folder, and a company assigned to the sub-folder. *)
Definition carpeta_raiz : Carpeta.t :=
  Carpeta.mk 1 "Clientes" None "acme" "Lima" (ValidDate 100).

Definition carpeta_hija : Carpeta.t :=
  Carpeta.mk 2 "Norte" (Some 1%nat) "acme" "Lima" (ValidDate 200).

Definition carpetas_ejemplo : Folders.t :=
  Folders.mk [carpeta_raiz; carpeta_hija] [].

Definition altura_ejemplo (id : ObjectId) : nat :=
  match id with
  | 1%nat => 1%nat
  | _ => 0%nat
  end.

Definition asignacion_body (carpetaId : CarpetaRef) : AsignacionBody.t :=
  AsignacionBody.mk (Some "clienteA") carpetaId (Some "acme") (Some "Lima").

Definition carpetas_asignada : Folders.t :=
  snd (post_asignaciones carpetas_ejemplo (asignacion_body (RefId 2))).

(** A third folder, under the sub-folder. *)
Definition carpeta_body : CarpetaBody.t :=
  CarpetaBody.mk (Some " Contratos ") (Some 2%nat) (Some "acme") (Some "Lima").

Definition carpeta_nueva : Carpeta.t :=
  Carpeta.mk 3 "Contratos" (Some 2%nat) "acme" "Lima" (ValidDate 300).

Definition carpetas_tres : Folders.t :=
  snd (post_carpetas trim_ascii carpetas_asignada carpeta_body 3
                     (ValidDate 300)).

(** * Properties *)

(** ** Cut calculator *)

Section CalculoFacts.
Context {RT : Runtime}.

Lemma or_Z_zero (x : option Z) :
  or_Z x 0 = match x with Some z => z | None => 0 end.
Proof.
  destruct x as [z|]; simpl; [|reflexivity].
  unfold truthy_Z. destruct (Z.eqb_spec z 0); simpl; congruence.
Qed.

(** C1. With a previous cut whose end counter is [E] and a snapshot whose
    total page count is [C] (missing read as 0), the calculator returns
    start [E], end [C], total [max 0 (C - E)] and [esPrimerCorte = false];
    the total is never negative, and is 0 when the counter went down. *)
Theorem calcularPeriodoCorte_corte_siguiente
    (ultimoCorte : CortesMensuales.t) (latest : ImpresoraLatest.t)
    (hoy : Date) (E : Z) :
  CortesMensuales.contadorFinGeneral ultimoCorte = Some E ->
  let C := totalPageCount latest in
  let r := calcularPeriodoCorte (Some ultimoCorte) latest hoy in
  PeriodoCorte.contadorInicioGeneral r = E
  /\ PeriodoCorte.contadorFinGeneral r = C
  /\ PeriodoCorte.totalPaginasGeneral r = Z.max 0 (C - E)
  /\ PeriodoCorte.esPrimerCorte r = false
  /\ 0 <= PeriodoCorte.totalPaginasGeneral r
  /\ (C < E -> PeriodoCorte.totalPaginasGeneral r = 0).
Proof.
  intros HE C r. subst C r. unfold calcularPeriodoCorte, totalPageCount.
  cbn [PeriodoCorte.contadorInicioGeneral PeriodoCorte.contadorFinGeneral
       PeriodoCorte.totalPaginasGeneral PeriodoCorte.esPrimerCorte].
  rewrite HE, !or_Z_zero.
  repeat split; lia.
Qed.

(** C2. Without a previous cut the calculator returns start 0, end equal to
    the snapshot's total page count (missing read as 0), total equal to the
    end counter, the since-installation label and [esPrimerCorte = true]. *)
Theorem calcularPeriodoCorte_primer_corte
    (latest : ImpresoraLatest.t) (hoy : Date) :
  let r := calcularPeriodoCorte None latest hoy in
  PeriodoCorte.contadorInicioGeneral r = 0
  /\ PeriodoCorte.contadorFinGeneral r = totalPageCount latest
  /\ PeriodoCorte.totalPaginasGeneral r = PeriodoCorte.contadorFinGeneral r
  /\ PeriodoCorte.periodo r = "Desde instalación"
  /\ PeriodoCorte.esPrimerCorte r = true.
Proof.
  cbv zeta. unfold calcularPeriodoCorte, totalPageCount. simpl.
  rewrite or_Z_zero. repeat split; reflexivity.
Qed.
End CalculoFacts.

(** The second-cut and counter-reset examples of the specification. *)
Lemma calcularPeriodoCorte_corte_siguiente_witness :
  let ultimo := corte_of 7 3 (ValidDate 1000) 1500 "Desde instalación" [] in
  let r1 := calcularPeriodoCorte (RT := plain_runtime) (Some ultimo)
              (latest_of 3 (Some 1800) None None (Some 7%nat)) (ValidDate 2000) in
  let r2 := calcularPeriodoCorte (RT := plain_runtime) (Some ultimo)
              (latest_of 3 (Some 200) None None (Some 7%nat)) (ValidDate 2000) in
  (PeriodoCorte.contadorInicioGeneral r1 = 1500
   /\ PeriodoCorte.contadorFinGeneral r1 = 1800
   /\ PeriodoCorte.totalPaginasGeneral r1 = 300)
  /\ (PeriodoCorte.contadorInicioGeneral r2 = 1500
      /\ PeriodoCorte.contadorFinGeneral r2 = 200
      /\ PeriodoCorte.totalPaginasGeneral r2 = 0).
Proof.
  cbv zeta. split.
  - destruct (calcularPeriodoCorte_corte_siguiente (RT := plain_runtime)
                (corte_of 7 3 (ValidDate 1000) 1500 "Desde instalación" [])
                (latest_of 3 (Some 1800) None None (Some 7%nat))
                (ValidDate 2000) 1500 eq_refl)
      as (H1 & H2 & H3 & _).
    exact (conj H1 (conj H2 H3)).
  - destruct (calcularPeriodoCorte_corte_siguiente (RT := plain_runtime)
                (corte_of 7 3 (ValidDate 1000) 1500 "Desde instalación" [])
                (latest_of 3 (Some 200) None None (Some 7%nat))
                (ValidDate 2000) 1500 eq_refl)
      as (H1 & H2 & _ & _ & _ & H6).
    exact (conj H1 (conj H2 (H6 eq_refl))).
Defined.

(** ** Online-state derivation *)

Section OnlineFacts.
Context {RT : Runtime}.
Variable env : option string.

Lemma computeDerivedOnline_valid (l : ImpresoraLatest.t) (t now : Z) :
  ImpresoraLatest.lastSeenAt l = Some (ValidDate t) ->
  ImpresoraLatest.online l <> Some false ->
  computeDerivedOnline env (Some l) now
  = number_le (Num (now - t)) (ONLINE_STALE_MS env).
Proof.
  intros Hseen Hon. unfold computeDerivedOnline. rewrite Hseen.
  destruct (ImpresoraLatest.online l) as [[|]|]; try reflexivity.
  contradiction Hon; reflexivity.
Qed.

(** C3. The derived online state is false for an absent snapshot, a
    snapshot without last-seen timestamp, one whose timestamp is not a
    valid date, and one whose raw online flag is false.  Otherwise it is
    true exactly when [now - lastSeen] is at most the staleness threshold,
    which is 120000 ms unless configured; the bound is inclusive. *)
Theorem computeDerivedOnline_spec (l : ImpresoraLatest.t) (now : Z) :
  computeDerivedOnline env None now = false
  /\ (ImpresoraLatest.lastSeenAt l = None ->
      computeDerivedOnline env (Some l) now = false)
  /\ (ImpresoraLatest.lastSeenAt l = Some InvalidDate ->
      computeDerivedOnline env (Some l) now = false)
  /\ (ImpresoraLatest.online l = Some false ->
      computeDerivedOnline env (Some l) now = false)
  /\ (forall t,
        ImpresoraLatest.lastSeenAt l = Some (ValidDate t) ->
        ImpresoraLatest.online l <> Some false ->
        (computeDerivedOnline env (Some l) now = true
         <-> exists threshold,
               ONLINE_STALE_MS env = Num threshold
               /\ now - t <= threshold)
        /\ (ONLINE_STALE_MS env = Num (now - t) ->
            computeDerivedOnline env (Some l) now = true)
        /\ (ONLINE_STALE_MS env = Num (now - t - 1) ->
            computeDerivedOnline env (Some l) now = false))
  /\ (env = None -> ONLINE_STALE_MS env = Num 120000).
Proof.
  split; [reflexivity|].
  split; [intros H; unfold computeDerivedOnline; rewrite H; reflexivity|].
  split.
  { intros H. unfold computeDerivedOnline. rewrite H.
    destruct (ImpresoraLatest.online l) as [[|]|]; reflexivity. }
  split.
  { intros H. unfold computeDerivedOnline. rewrite H.
    destruct (ImpresoraLatest.lastSeenAt l); reflexivity. }
  split.
  { intros t Hseen Hon.
    rewrite (computeDerivedOnline_valid l t now Hseen Hon).
    split; [|split].
    - destruct (ONLINE_STALE_MS env) as [T|]; simpl.
      + rewrite Z.leb_le. split.
        * intros H. exists T. split; [reflexivity | exact H].
        * intros (T' & Heq & Hle). injection Heq as ->. exact Hle.
      + split; [discriminate|]. intros (T' & Heq & _). discriminate.
    - intros ->. simpl. apply Z.leb_refl.
    - intros ->. simpl. apply Z.leb_gt. lia. }
  intros ->. reflexivity.
Qed.
End OnlineFacts.

(** A device last seen at instant 1000 under the default threshold: online
    at 121000, offline one millisecond later. *)
Lemma computeDerivedOnline_spec_witness :
  let l := latest_of 3 (Some 1500) (Some (ValidDate 1000)) (Some true) None in
  computeDerivedOnline (RT := plain_runtime) None (Some l) 121000 = true
  /\ computeDerivedOnline (RT := plain_runtime) None (Some l) 121001 = false
  /\ ONLINE_STALE_MS (RT := plain_runtime) None = Num 120000.
Proof.
  cbv zeta.
  pose proof (computeDerivedOnline_spec (RT := plain_runtime) None
                (latest_of 3 (Some 1500) (Some (ValidDate 1000)) (Some true) None)
                121000) as (_ & _ & _ & _ & H & Hdef).
  pose proof (computeDerivedOnline_spec (RT := plain_runtime) None
                (latest_of 3 (Some 1500) (Some (ValidDate 1000)) (Some true) None)
                121001) as (_ & _ & _ & _ & H' & _).
  destruct (H 1000 eq_refl ltac:(discriminate)) as (_ & Hin & _).
  destruct (H' 1000 eq_refl ltac:(discriminate)) as (_ & _ & Hout).
  exact (conj (Hin eq_refl) (conj (Hout eq_refl) (Hdef eq_refl))).
Defined.

(** ** Cut ledger: the register-cut route when every operation fulfils *)

Section LedgerFacts.
Context {RT : Runtime}.

(** What the route does once the device and its latest state are found. *)
Lemma registrar_corte_run (db : DB.t) (printerId : ObjectId)
    (ahora hoy : Date) (i : Impresora.t) (l : ImpresoraLatest.t) :
  find_impresora db printerId = Some i ->
  find_latest db printerId = Some l ->
  let previo := corte_previo db l in
  let calculos := calcularPeriodoCorte previo l hoy in
  let nuevo := nuevoCorte printerId i l previo calculos ahora (DB.nextId db) in
  snd (run (registrar_corte printerId ahora hoy) db)
  = DB.mk (DB.empresas db) (DB.impresoras db)
          (update_first (is_printer printerId)
                        (set_ultimoCorte (DB.nextId db) ahora)
                        (DB.latests db))
          (DB.cortes db ++ [nuevo]) (S (DB.nextId db))
  /\ exists body, fst (run (registrar_corte printerId ahora hoy) db)
                  = Json 200 body.
Proof.
  unfold find_impresora, find_latest, corte_previo, find_corte.
  cbn [exec fst]. intros Hi Hl.
  unfold registrar_corte. cbn [run exec]. rewrite Hi. cbn [run exec].
  rewrite Hl.
  destruct (ImpresoraLatest.ultimoCorteId l) as [id|];
    cbn [run exec registrar_corte_guardar CortesMensuales._id nuevoCorte
         DB.empresas DB.impresoras DB.latests DB.cortes DB.nextId fst snd];
    (split; [reflexivity | eexists; reflexivity]).
Qed.

(** C4. The cut that a register-cut operation creates starts from the
    previous cut's end-of-period supplies when there is a previous cut and
    from the empty sequence otherwise, and ends with the latest state's
    current supplies. *)
Theorem registrar_corte_supplies (db : DB.t) (printerId : ObjectId)
    (ahora hoy : Date) (i : Impresora.t) (l : ImpresoraLatest.t) :
  find_impresora db printerId = Some i ->
  find_latest db printerId = Some l ->
  exists nuevo,
    DB.cortes (snd (run (registrar_corte printerId ahora hoy) db))
    = DB.cortes db ++ [nuevo]
    /\ CortesMensuales.suppliesInicio nuevo
       = Some (match corte_previo db l with
               | Some previo => or_array (CortesMensuales.suppliesFin previo)
               | None => []
               end)
    /\ CortesMensuales.suppliesFin nuevo
       = Some (or_array (ImpresoraLatest.lastSupplies l)).
Proof.
  intros Hi Hl.
  destruct (registrar_corte_run db printerId ahora hoy i l Hi Hl) as [Hdb _].
  eexists. rewrite Hdb. cbn [DB.cortes].
  split; [reflexivity|]. split; reflexivity.
Qed.

(** C5. When the device or its latest state is missing, the register-cut
    route answers Not-Found and leaves the store as it was. *)
Theorem registrar_corte_not_found (db : DB.t) (printerId : ObjectId)
    (ahora hoy : Date) :
  find_impresora db printerId = None \/ find_latest db printerId = None ->
  exists msg,
    run (registrar_corte printerId ahora hoy) db = (Json 404 (Error msg), db).
Proof.
  unfold find_impresora, find_latest. cbn [exec fst].
  intros H. unfold registrar_corte. cbn [run exec].
  destruct (find _ (DB.impresoras db)) as [i|] eqn:Hi.
  - destruct H as [H|H]; [discriminate|].
    cbn [run exec]. rewrite H. eexists; reflexivity.
  - eexists; reflexivity.
Qed.
End LedgerFacts.

(** The second cut of the example printer starts from the supplies the first
    cut ended with. *)
Lemma registrar_corte_supplies_witness :
  exists nuevo,
    DB.cortes (snd (run (registrar_corte (RT := plain_runtime) 3
                           (ValidDate 9000) (ValidDate 9001)) db_un_corte))
    = DB.cortes db_un_corte ++ [nuevo]
    /\ CortesMensuales.suppliesInicio nuevo = Some [supply "black" 90 100]
    /\ CortesMensuales.suppliesFin nuevo = Some [supply "black" 40 100].
Proof.
  exact (registrar_corte_supplies (RT := plain_runtime) db_un_corte 3
           (ValidDate 9000) (ValidDate 9001) _ _ eq_refl eq_refl).
Defined.

(** A printer that never reported: Not-Found, and nothing is written. *)
Lemma registrar_corte_not_found_witness :
  exists msg,
    run (registrar_corte (RT := plain_runtime) 3
           (ValidDate 9000) (ValidDate 9001)) db_sin_latest
    = (Json 404 (Error msg), db_sin_latest).
Proof.
  exact (registrar_corte_not_found (RT := plain_runtime) db_sin_latest 3
           (ValidDate 9000) (ValidDate 9001) (or_intror eq_refl)).
Defined.

(** ** Cut ledger: one awaited operation at a time *)

Lemma In_update_first {A : Type} (p : A -> bool) (f : A -> A) (l : list A)
    (y : A) :
  In y (update_first p f l) ->
  In y l \/ exists x, In x l /\ p x = true /\ y = f x.
Proof.
  induction l as [|x rest IH]; simpl; [tauto|].
  destruct (p x) eqn:Hp; simpl.
  - intros [<-|H]; [right; exists x; auto | left; auto].
  - intros [<-|H]; [left; auto|].
    destruct (IH H) as [H'|(x' & Hin & Hpx & ->)]; [left; auto|].
    right; exists x'; auto.
Qed.

Lemma persisted_cortes (db db' : DB.t) (id : ObjectId) :
  incl (DB.cortes db) (DB.cortes db') -> persisted db id -> persisted db' id.
Proof.
  intros Hincl (c & Hin & Hid). exists c. split; [apply Hincl; exact Hin | exact Hid].
Qed.

(** Operations never remove a cut. *)
Lemma exec_cortes_incl {A : Type} (op : DbOp A) (db : DB.t) :
  incl (DB.cortes db) (DB.cortes (snd (exec op db))).
Proof.
  destruct op; cbn; try apply incl_refl.
  - destruct (find _ _); cbn; apply incl_refl.
  - destruct (find _ _); cbn; apply incl_refl.
  - apply incl_appl, incl_refl.
Qed.

(** Only the pointer update brings a latest-state record to point at a cut
    it did not point at before, and that cut is the one the update names. *)
Lemma exec_pointer_written {A : Type} (op : DbOp A) (db : DB.t)
    (id : ObjectId) :
  op_in_order op db ->
  pointer_written db (snd (exec op db)) id ->
  persisted db id.
Proof.
  intros Hok (l & Hin & Hptr & Hnew).
  destruct op; cbn in Hin, Hok; try (contradiction Hnew; exact Hin).
  - destruct (find _ _); cbn in Hin; contradiction Hnew; exact Hin.
  - contradiction.
  - destruct (In_update_first _ _ _ _ Hin) as [H|(x & _ & _ & ->)];
      [contradiction Hnew; exact H|].
    cbn in Hptr. injection Hptr as <-. exact Hok.
Qed.

Lemma exec_no_dangling {A : Type} (op : DbOp A) (db : DB.t) :
  op_in_order op db ->
  no_dangling db -> no_dangling (snd (exec op db)).
Proof.
  intros Hok Hdb l id Hin Hptr.
  apply (persisted_cortes db); [apply exec_cortes_incl|].
  destruct op; cbn in Hin, Hok; try (exact (Hdb l id Hin Hptr)).
  - destruct (find _ _); cbn in Hin; exact (Hdb l id Hin Hptr).
  - contradiction.
  - destruct (In_update_first _ _ _ _ Hin) as [H|(x & _ & _ & ->)];
      [exact (Hdb l id H Hptr)|].
    cbn in Hptr. injection Hptr as <-. exact Hok.
Qed.

Section StepFacts.
Context {R : Type}.
Variable onError : R.

Lemma step_invariant (db0 : DB.t) (c c' : @Config R) :
  run_invariant db0 c -> step onError c c' -> run_invariant db0 c'.
Proof.
  destruct c as [db p]. intros [Hord Hdb] Hstep.
  destruct p as [r|A op k].
  - destruct Hstep as [H|[H|H]]; discriminate H.
  - cbn in Hord. destruct Hord as [Hop Hk].
    destruct Hstep as [H|[H|H]]; cbv [fulfil reject_unapplied reject_applied] in H;
      cbn in H; injection H as <-; split; cbn.
    + exact Hk.
    + intros H0. apply exec_no_dangling; auto.
    + exact I.
    + exact Hdb.
    + exact I.
    + intros H0. apply exec_no_dangling; auto.
Qed.

Lemma steps_invariant (db0 : DB.t) (c c' : @Config R) :
  run_invariant db0 c -> steps onError c c' -> run_invariant db0 c'.
Proof.
  intros Hinv Hsteps. induction Hsteps as [c|c1 c2 c3 Hstep _ IH].
  - exact Hinv.
  - apply IH. exact (step_invariant db0 c1 c2 Hinv Hstep).
Qed.

Lemma step_pointer_written (c c' : @Config R) (id : ObjectId) :
  in_order (snd c) (fst c) ->
  step onError c c' ->
  pointer_written (fst c) (fst c') id ->
  persisted (fst c) id.
Proof.
  destruct c as [db p]. intros Hord Hstep Hw.
  destruct p as [r|A op k].
  - destruct Hstep as [H|[H|H]]; discriminate H.
  - cbn in Hord. destruct Hord as [Hop _].
    destruct Hstep as [H|[H|H]]; cbv [fulfil reject_unapplied reject_applied] in H;
      cbn in H; injection H as <-; cbn in Hw.
    + exact (exec_pointer_written op db id Hop Hw).
    + destruct Hw as (l & Hin & _ & Hnew). contradiction.
    + exact (exec_pointer_written op db id Hop Hw).
Qed.
End StepFacts.

Section RunFacts.
Context {R : Type}.
Variable onError : R.

(** A configuration that has answered takes no further step: after a
    rejection nothing more is issued. *)
Lemma step_Ret (db : DB.t) (r : R) (c : @Config R) :
  ~ step onError (db, Ret r) c.
Proof. intros [H|[H|H]]; discriminate H. Qed.

Lemma advance_steps (n : nat) (c : @Config R) :
  steps onError c (advance n c).
Proof.
  revert c. induction n as [|n IH]; intros c; cbn [advance].
  - apply steps_refl.
  - destruct (fulfil c) as [c'|] eqn:Hc; [|apply steps_refl].
    apply (steps_step onError c c'); [left; exact Hc | apply IH].
Qed.

(** The run in which every operation fulfils is one of the runs of the
    step relation. *)
Lemma run_steps (p : Prog R) (db : DB.t) :
  steps onError (db, p) (snd (run p db), Ret (fst (run p db))).
Proof.
  revert db. induction p as [r|A op k IH]; intros db; cbn [run].
  - apply steps_refl.
  - apply (steps_step onError _ (snd (exec op db), k (fst (exec op db)))).
    + left. reflexivity.
    + destruct (exec op db) as [a db']. apply IH.
Qed.
End RunFacts.

Section LedgerSteps.
Context {RT : Runtime}.

Lemma persisted_after_save (db : DB.t) (nuevo : ObjectId -> CortesMensuales.t) :
  CortesMensuales._id (nuevo (DB.nextId db)) = DB.nextId db ->
  persisted (snd (exec (CortesMensuales_save nuevo) db))
            (CortesMensuales._id (fst (exec (CortesMensuales_save nuevo) db))).
Proof.
  intros Hid. cbn. exists (nuevo (DB.nextId db)). split; [|reflexivity].
  apply in_or_app; right; left; reflexivity.
Qed.

(** The route issues its pointer update only after the save has fulfilled,
    and for the cut that the save returned. *)
Lemma registrar_corte_in_order (db : DB.t) (printerId : ObjectId)
    (ahora hoy : Date) :
  in_order (registrar_corte printerId ahora hoy) db.
Proof.
  assert (Hsave : forall db i l previo,
             in_order (registrar_corte_guardar printerId i l ahora hoy previo) db).
  { intros db' i l previo. unfold registrar_corte_guardar.
    cbn [in_order op_in_order]. split; [exact I|]. split; [|split; exact I].
    apply persisted_after_save. reflexivity. }
  unfold registrar_corte. cbn [in_order op_in_order exec fst snd].
  split; [exact I|].
  destruct (find _ (DB.impresoras db)) as [i|]; [|exact I].
  cbn [in_order op_in_order exec fst snd]. split; [exact I|].
  destruct (find _ (DB.latests db)) as [l|]; [|exact I].
  destruct (ImpresoraLatest.ultimoCorteId l) as [id|].
  - cbn [in_order op_in_order exec fst snd]. split; [exact I|]. apply Hsave.
  - apply Hsave.
Qed.

(** C6. In every run of a register-cut operation, whatever operations
    reject, a step that makes a latest-state record point at a cut starts
    from a store that already holds that cut; so if no pointer dangled at
    the start, none dangles in any state the operation reaches. *)
Theorem registrar_corte_save_before_pointer (db0 : DB.t)
    (printerId : ObjectId) (ahora hoy : Date) (c1 c2 : @Config Response) :
  steps registrar_corte_catch
        (db0, registrar_corte printerId ahora hoy) c1 ->
  step registrar_corte_catch c1 c2 ->
  (forall id, pointer_written (fst c1) (fst c2) id -> persisted (fst c1) id)
  /\ (no_dangling db0 -> no_dangling (fst c1) /\ no_dangling (fst c2)).
Proof.
  intros Hreach Hstep.
  assert (Hinv : run_invariant db0 c1).
  { apply (steps_invariant registrar_corte_catch db0
             (db0, registrar_corte printerId ahora hoy)); [|exact Hreach].
    split; [apply registrar_corte_in_order | intros H; exact H]. }
  split.
  - intros id. apply (step_pointer_written registrar_corte_catch); [|exact Hstep].
    apply Hinv.
  - intros H0. split; [apply Hinv; exact H0|].
    apply (step_invariant registrar_corte_catch db0 c1 c2 Hinv Hstep). exact H0.
Qed.
End LedgerSteps.

(** The second cut of the example printer: after the save has fulfilled the
    store holds cut 8, and the next step points the latest state at it. *)
Lemma registrar_corte_save_before_pointer_witness :
  pointer_written (fst (advance 4 segundo_corte))
                  (fst (advance 5 segundo_corte)) 8
  /\ persisted (fst (advance 4 segundo_corte)) 8.
Proof.
  assert (Hw : pointer_written (fst (advance 4 segundo_corte))
                               (fst (advance 5 segundo_corte)) 8).
  { eexists. split; [left; reflexivity|]. split; [reflexivity|].
    intros [H|[]]. discriminate H. }
  split; [exact Hw|].
  exact (proj1 (registrar_corte_save_before_pointer (RT := plain_runtime)
                  db_un_corte 3 (ValidDate 9000) (ValidDate 9001)
                  (advance 4 segundo_corte) (advance 5 segundo_corte)
                  (advance_steps registrar_corte_catch 4 segundo_corte)
                  (or_introl (eq_refl
                     : fulfil (advance 4 segundo_corte)
                       = Some (advance 5 segundo_corte)))) 8%nat Hw).
Defined.

(** ** Telemetry ingestion *)

Lemma prefix_app (s t : string) : prefix s (s ++ t)%string = true.
Proof.
  induction s as [|a s IH]; simpl; [destruct t; reflexivity|].
  destruct (Ascii.ascii_dec a a) as [_|Hne]; [exact IH | contradiction Hne; reflexivity].
Qed.

Lemma substring_all (s : string) : substring 0 (String.length s) s = s.
Proof. induction s as [|a s IH]; simpl; [reflexivity | rewrite IH; reflexivity]. Qed.

Lemma slice_Bearer (token : string) :
  slice 7 ("Bearer " ++ token)%string = token.
Proof.
  unfold slice. cbn [append String.length Nat.sub substring].
  rewrite Nat.sub_0_r. apply substring_all.
Qed.

Lemma or_string_Bearer (token : string) :
  or_string (Some ("Bearer " ++ token)%string) "" = ("Bearer " ++ token)%string.
Proof. reflexivity. Qed.

Lemma find_update_first {A : Type} (p : A -> bool) (f : A -> A)
    (l : list A) (x : A) :
  find p l = Some x -> p (f x) = true ->
  find p (update_first p f l) = Some (f x).
Proof.
  induction l as [|y rest IH]; simpl; [discriminate|].
  destruct (p y) eqn:Hy.
  - intros [= ->] Hfx. simpl. rewrite Hfx. reflexivity.
  - intros Hfind Hfx. simpl. rewrite Hy. apply IH; assumption.
Qed.

Lemma find_app_new {A : Type} (p : A -> bool) (l : list A) (x : A) :
  find p l = None -> p x = true -> find p (l ++ [x]) = Some x.
Proof.
  induction l as [|y rest IH]; simpl.
  - intros _ ->. reflexivity.
  - destruct (p y); [discriminate|]. exact IH.
Qed.

Lemma map_update_first {A B : Type} (key : A -> B) (p : A -> bool)
    (f : A -> A) (l : list A) :
  (forall x, p x = true -> key (f x) = key x) ->
  map key (update_first p f l) = map key l.
Proof.
  intros Hkey. induction l as [|y rest IH]; simpl; [reflexivity|].
  destruct (p y) eqn:Hy; simpl.
  - rewrite (Hkey y Hy). reflexivity.
  - rewrite IH. reflexivity.
Qed.

Lemma run_Await {R A : Type} (op : DbOp A) (k : A -> Prog R) (db : DB.t) :
  run (Await op k) db = run (k (fst (exec op db))) (snd (exec op db)).
Proof. cbn [run]. destruct (exec op db); reflexivity. Qed.

Section IngestFacts.
Context {RT : Runtime}.

(** An accepted ingestion is the device upsert followed by the latest-state
    upsert. *)
Lemma metrics_impresoras_accepted (db : DB.t) (req : MetricsRequest.t)
    (empresa : Empresa.t) (b : MetricsBody.t) (host : string)
    (ahora ahoraInsert : Date) :
  accepted db req empresa b host ->
  let r1 := exec (Impresora_findOneAndUpdate (Empresa._id empresa)
                    (claveOr (MetricsBody.serial b) host)
                    (setBase empresa b host) ahoraInsert) db in
  let r2 := exec (ImpresoraLatest_findOneAndUpdate
                    (Impresora._id (fst r1)) (setLatest b ahora)) (snd r1) in
  snd (run (metrics_impresoras req ahora ahoraInsert) db) = snd r2
  /\ printerId_of (fst (run (metrics_impresoras req ahora ahoraInsert) db))
     = Some (Impresora._id (fst r1)).
Proof.
  intros (token & Hauth & Htok & Hemp & Hbody & Hhost & Hh).
  cbv zeta. unfold metrics_impresoras.
  rewrite Hauth, or_string_Bearer, prefix_app, slice_Bearer, Htok. cbn [negb].
  rewrite run_Await.
  change (snd (exec (Empresa_findOne token) db)) with db.
  rewrite Hemp, Hbody, Hhost, Hh. cbn [negb].
  rewrite !run_Await. cbn [run fst snd printerId_of].
  split; reflexivity.
Qed.
End IngestFacts.

Lemma In_update_first_found {A : Type} (p : A -> bool) (f : A -> A)
    (l : list A) (x : A) :
  find p l = Some x -> In (f x) (update_first p f l).
Proof.
  induction l as [|y rest IH]; simpl; [discriminate|].
  destruct (p y) eqn:Hy.
  - intros [= ->]. left; reflexivity.
  - intros H. right. apply IH; exact H.
Qed.

Lemma find_some_holds {A : Type} (p : A -> bool) (l : list A) (x : A) :
  find p l = Some x -> p x = true.
Proof. intros H. apply (find_some p l H). Qed.

(** The device filter of the route, read as a proposition. *)
Lemma matches_clave_iff (empresaId : ObjectId) (serial : option string)
    (host : string) (d : Impresora.t) :
  matches_clave empresaId (claveOr serial host) d = true
  <-> Impresora.empresaId d = empresaId
      /\ (Impresora.host d = host
          \/ (present serial = true /\ Impresora.serial d = serial)).
Proof.
  unfold matches_clave. rewrite andb_true_iff, Nat.eqb_eq.
  apply and_iff_compat_l.
  unfold claveOr, present. destruct serial as [s|].
  - destruct (truthy_string s) eqn:Hs.
    + rewrite orb_true_iff, String.eqb_eq. split.
      * intros [H|H]; [|left; exact H].
        destruct (Impresora.serial d) as [s'|]; [|discriminate].
        apply String.eqb_eq in H. subst s'. right; split; reflexivity.
      * intros [H|[_ H]]; [right; exact H|].
        rewrite H. left. apply String.eqb_refl.
    + rewrite String.eqb_eq. split; [intros H; left; exact H|].
      intros [H|[H _]]; [exact H | discriminate].
  - rewrite String.eqb_eq. split; [intros H; left; exact H|].
    intros [H|[H _]]; [exact H | discriminate].
Qed.

Lemma latest_upsert_impresoras (printerId : ObjectId) (set : SetLatest.t)
    (db : DB.t) :
  DB.impresoras (snd (exec (ImpresoraLatest_findOneAndUpdate printerId set) db))
  = DB.impresoras db.
Proof. cbn. destruct (find _ _); reflexivity. Qed.

(** After the latest-state upsert the device's record carries the values of
    the [$set]. *)
Lemma latest_upsert_find (printerId : ObjectId) (set : SetLatest.t)
    (db : DB.t) :
  exists l,
    find_latest
      (snd (exec (ImpresoraLatest_findOneAndUpdate printerId set) db)) printerId
    = Some l
    /\ ImpresoraLatest.online l = Some (SetLatest.online set)
    /\ ImpresoraLatest.lowToner l = Some (SetLatest.lowToner set)
    /\ ImpresoraLatest.lastPageCount l = SetLatest.lastPageCount set
    /\ ImpresoraLatest.lastSupplies l = Some (SetLatest.lastSupplies set)
    /\ ImpresoraLatest.lastSeenAt l = Some (SetLatest.lastSeenAt set).
Proof.
  unfold find_latest. cbn [exec fst snd].
  destruct (find (is_printer printerId) (DB.latests db)) as [x|] eqn:Hx;
    cbn [snd DB.latests].
  - exists (apply_setLatest set x). split; [|repeat split].
    apply find_update_first; [exact Hx|].
    apply find_some_holds in Hx. exact Hx.
  - exists (insert_setLatest set printerId). split; [|repeat split].
    apply find_app_new; [exact Hx|].
    unfold is_printer. cbn. apply Nat.eqb_refl.
Qed.

Section IngestDevice.
Context {RT : Runtime}.

Lemma unique_by_host_upsert (db : DB.t) (empresa : Empresa.t)
    (b : MetricsBody.t) (host : string) (ahoraInsert : Date) :
  present (MetricsBody.serial b) = false ->
  unique_by_host db ->
  unique_by_host
    (snd (exec (Impresora_findOneAndUpdate (Empresa._id empresa)
                  (claveOr (MetricsBody.serial b) host)
                  (setBase empresa b host) ahoraInsert) db)).
Proof.
  intros Hser Huniq. unfold unique_by_host, host_keys in *. cbn [exec].
  destruct (find _ (DB.impresoras db)) as [d|] eqn:Hfind; cbn [snd DB.impresoras].
  - rewrite map_update_first; [exact Huniq|].
    intros x Hx. apply matches_clave_iff in Hx.
    destruct Hx as [He [Hh|[Hp _]]]; [|congruence].
    cbn. rewrite He, Hh. reflexivity.
  - rewrite map_app. apply NoDup_app; [exact Huniq | |].
    + cbn. constructor; [intros []|constructor].
    + intros k Hk [<-|[]].
      apply in_map_iff in Hk. destruct Hk as (x & Hkey & Hin).
      pose proof (find_none _ _ Hfind x Hin) as Hno.
      assert (Hyes : matches_clave (Empresa._id empresa)
                       (claveOr (MetricsBody.serial b) host) x = true).
      { apply matches_clave_iff. cbn in Hkey. injection Hkey as He Hh.
        split; [exact He | left; exact Hh]. }
      congruence.
Qed.

(** C7, as the route does it.  An accepted ingestion resolves the first
    stored device of the tenant whose host equals the reported host or,
    when the report has a serial, whose serial equals the reported serial;
    it creates a device only when there is none.  The resolved device then
    carries the identity fields of the report, and a report without serial
    keeps devices unique by tenant and host. *)
Theorem metrics_impresoras_resolves_device (db : DB.t)
    (req : MetricsRequest.t) (empresa : Empresa.t) (b : MetricsBody.t)
    (host : string) (ahora ahoraInsert : Date) :
  accepted db req empresa b host ->
  let matching :=
    matches_clave (Empresa._id empresa) (claveOr (MetricsBody.serial b) host) in
  let res := run (metrics_impresoras req ahora ahoraInsert) db in
  (forall d,
      matching d = true
      <-> Impresora.empresaId d = Empresa._id empresa
          /\ (Impresora.host d = host
              \/ (present (MetricsBody.serial b) = true
                  /\ Impresora.serial d = MetricsBody.serial b)))
  /\ match find matching (DB.impresoras db) with
     | Some d =>
       printerId_of (fst res) = Some (Impresora._id d)
       /\ DB.impresoras (snd res)
          = update_first matching (apply_setBase (setBase empresa b host))
                         (DB.impresoras db)
     | None =>
       printerId_of (fst res) = Some (DB.nextId db)
       /\ DB.impresoras (snd res)
          = DB.impresoras db
            ++ [insert_setBase (setBase empresa b host) (DB.nextId db)
                               ahoraInsert]
     end
  /\ (exists d',
        printerId_of (fst res) = Some (Impresora._id d')
        /\ In d' (DB.impresoras (snd res))
        /\ Impresora.empresaId d' = Empresa._id empresa
        /\ Impresora.host d' = host
        /\ Impresora.serial d' = MetricsBody.serial b
        /\ Impresora.sysName d' = MetricsBody.sysName b
        /\ Impresora.sysDescr d' = MetricsBody.sysDescr b
        /\ Impresora.printerName d' = MetricsBody.printerName b
        /\ Impresora.model d' = MetricsBody.model b)
  /\ (present (MetricsBody.serial b) = false ->
      unique_by_host db -> unique_by_host (snd res)).
Proof.
  intros Hacc matching res.
  destruct (metrics_impresoras_accepted db req empresa b host ahora ahoraInsert
              Hacc) as [Hdb Hid].
  fold res in Hdb, Hid.
  split; [intros d; apply matches_clave_iff|].
  assert (Himp : DB.impresoras (snd res)
                 = DB.impresoras
                     (snd (exec (Impresora_findOneAndUpdate (Empresa._id empresa)
                                   (claveOr (MetricsBody.serial b) host)
                                   (setBase empresa b host) ahoraInsert) db))).
  { rewrite Hdb. apply latest_upsert_impresoras. }
  split; [|split].
  - rewrite Hid, Himp. cbn [exec]. fold matching.
    destruct (find matching (DB.impresoras db)); cbn; split; reflexivity.
  - rewrite Hid, Himp. cbn [exec]. fold matching.
    destruct (find matching (DB.impresoras db)) as [d|] eqn:Hfind;
      cbn [fst snd DB.impresoras].
    + exists (apply_setBase (setBase empresa b host) d).
      split; [reflexivity|]. split; [|repeat split].
      apply In_update_first_found. exact Hfind.
    + exists (insert_setBase (setBase empresa b host) (DB.nextId db) ahoraInsert).
      split; [reflexivity|]. split; [|repeat split].
      apply in_or_app; right; left; reflexivity.
  - intros Hser Huniq. unfold unique_by_host, host_keys. rewrite Himp.
    apply unique_by_host_upsert; assumption.
Qed.
End IngestDevice.

(** A report from a known address with a serial that no device has.  The
    match by tenant and serial finds nothing, and yet the route creates no
    device: it resolves the device at that address and overwrites its
    serial.  With a second device that already has the reported serial, the
    tenant ends with one serial on two devices. *)
Lemma metrics_impresoras_resolves_device_counterexample :
  (find (spec_matches 1 (Some "SN-2") "10.0.0.5")
        (DB.impresoras db_una_impresora) = None
   /\ printerId_of (fst (ingest reporte_cambio db_una_impresora)) = Some 2%nat
   /\ map Impresora._id (DB.impresoras db_una_impresora) = [2%nat]
   /\ map Impresora._id
        (DB.impresoras (snd (ingest reporte_cambio db_una_impresora)))
      = [2%nat])
  /\ (unique_by_serial db_dos_impresoras
      /\ ~ unique_by_serial (snd (ingest reporte_cambio db_dos_impresoras))).
Proof.
  split; [repeat split; reflexivity|]. split.
  - unfold unique_by_serial.
    change (serial_keys db_dos_impresoras)
      with [(1%nat, "SN-1"); (1%nat, "SN-2")].
    constructor; [intros [H|[]]; discriminate H|].
    constructor; [intros []|constructor].
  - unfold unique_by_serial.
    change (serial_keys (snd (ingest reporte_cambio db_dos_impresoras)))
      with [(1%nat, "SN-2"); (1%nat, "SN-2")].
    intros H. inversion H as [|? ? Hnot _]. apply Hnot. left; reflexivity.
Qed.

Lemma metrics_impresoras_resolves_device_witness :
  exists d',
    printerId_of (fst (ingest reporte_cambio db_dos_impresoras))
    = Some (Impresora._id d')
    /\ In d' (DB.impresoras (snd (ingest reporte_cambio db_dos_impresoras)))
    /\ Impresora.host d' = "10.0.0.5"
    /\ Impresora.serial d' = Some "SN-2".
Proof.
  assert (Hacc : accepted db_dos_impresoras reporte_cambio
                   (Empresa.mk 1 (Some "Acme") "emp_k1")
                   (MetricsBody.mk (Some "10.0.0.5") (JNumber (Num 120))
                      JUndefined JUndefined JUndefined
                      None None None (Some "SN-2") None None None None)
                   "10.0.0.5").
  { exists "emp_k1". repeat split; reflexivity. }
  destruct (metrics_impresoras_resolves_device (RT := plain_runtime)
              _ _ _ _ _ (ValidDate 5000) (ValidDate 5001) Hacc)
    as (_ & _ & (d' & H1 & H2 & _ & H4 & H5 & _) & _).
  exists d'. exact (conj H1 (conj H2 (conj H4 H5))).
Defined.

(** ** Telemetry ingestion: the liveness signal *)

Section IngestFlags.
Context {RT : Runtime}.

Lemma snmpOk_iff (pageCount supplies : json)
    (sysName sysDescr serial model : option string) :
  snmpOk pageCount supplies sysName sysDescr serial model = true
  <-> is_numeric pageCount = true
      \/ (exists x xs, supplies = JArray (x :: xs))
      \/ present sysName = true \/ present sysDescr = true
      \/ present serial = true \/ present model = true.
Proof.
  unfold snmpOk. rewrite !orb_true_iff.
  assert (Hsup : Array_isArray supplies
                 && (0 <? Z.of_nat (List.length (elements supplies))) = true
                 <-> exists x xs, supplies = JArray (x :: xs)).
  { destruct supplies as [| | | | |xs|]; try (split; [discriminate|]);
      try (intros (x & xs' & H); discriminate H).
    destruct xs as [|x xs]; split.
    - discriminate.
    - intros (x & xs' & H); discriminate H.
    - intros _. exists x, xs. reflexivity.
    - intros _. reflexivity. }
  rewrite Hsup. tauto.
Qed.

(** C8, as the route does it.  After an accepted ingestion the raw online
    flag of the device's latest state is true exactly when the page count is
    numeric, or the supplies list is non-empty, or one of [sysName],
    [sysDescr], [serial], [model] is a non-empty string. *)
Theorem metrics_impresoras_snmpOk (db : DB.t) (req : MetricsRequest.t)
    (empresa : Empresa.t) (b : MetricsBody.t) (host : string)
    (ahora ahoraInsert : Date) :
  accepted db req empresa b host ->
  let res := run (metrics_impresoras req ahora ahoraInsert) db in
  exists printerId l flag,
    printerId_of (fst res) = Some printerId
    /\ find_latest (snd res) printerId = Some l
    /\ ImpresoraLatest.online l = Some flag
    /\ (flag = true
        <-> is_numeric (MetricsBody.pageCount b) = true
            \/ (exists x xs, supplies_of b = JArray (x :: xs))
            \/ present (MetricsBody.sysName b) = true
            \/ present (MetricsBody.sysDescr b) = true
            \/ present (MetricsBody.serial b) = true
            \/ present (MetricsBody.model b) = true).
Proof.
  intros Hacc res.
  destruct (metrics_impresoras_accepted db req empresa b host ahora ahoraInsert
              Hacc) as [Hdb Hid].
  fold res in Hdb, Hid. rewrite Hdb, Hid.
  destruct (latest_upsert_find
              (Impresora._id
                 (fst (exec (Impresora_findOneAndUpdate (Empresa._id empresa)
                               (claveOr (MetricsBody.serial b) host)
                               (setBase empresa b host) ahoraInsert) db)))
              (setLatest b ahora)
              (snd (exec (Impresora_findOneAndUpdate (Empresa._id empresa)
                            (claveOr (MetricsBody.serial b) host)
                            (setBase empresa b host) ahoraInsert) db)))
    as (l & Hl & Hon & _).
  eexists _, l, _. split; [reflexivity|]. split; [exact Hl|].
  split; [exact Hon|]. cbn [setLatest SetLatest.online]. apply snmpOk_iff.
Qed.
End IngestFlags.

(** A report with a host and a printer name only: an identity string is
    present, and the stored raw online flag is false. *)
Lemma metrics_impresoras_snmpOk_counterexample :
  option_map spec_snmpOk (MetricsRequest.body reporte_solo_nombre) = Some true
  /\ printerId_of (fst (ingest reporte_solo_nombre db_vacia)) = Some 2%nat
  /\ option_map ImpresoraLatest.online
       (find_latest (snd (ingest reporte_solo_nombre db_vacia)) 2)
     = Some (Some false).
Proof. repeat split; reflexivity. Qed.

Lemma metrics_impresoras_snmpOk_witness :
  exists l,
    find_latest (snd (ingest reporte_cambio db_dos_impresoras)) 2 = Some l
    /\ ImpresoraLatest.online l = Some true.
Proof.
  assert (Hacc : accepted db_dos_impresoras reporte_cambio
                   (Empresa.mk 1 (Some "Acme") "emp_k1")
                   (MetricsBody.mk (Some "10.0.0.5") (JNumber (Num 120))
                      JUndefined JUndefined JUndefined
                      None None None (Some "SN-2") None None None None)
                   "10.0.0.5").
  { exists "emp_k1". repeat split; reflexivity. }
  destruct (metrics_impresoras_snmpOk (RT := plain_runtime)
              _ _ _ _ _ (ValidDate 5000) (ValidDate 5001) Hacc)
    as (printerId & l & flag & Hid & Hl & Hon & Hflag).
  injection Hid as <-.
  exists l. split; [exact Hl|]. rewrite Hon.
  apply f_equal, Hflag. left. reflexivity.
Defined.

(** ** Telemetry ingestion: the low-toner flag *)

Lemma percentage_le_iff (l m : Z) :
  0 < m ->
  Qle_bool (percentage l m) (inject_Z 20) = true
  <-> (inject_Z l / inject_Z m <= 20 # 100)%Q.
Proof.
  intros Hm. rewrite Qle_bool_iff. unfold percentage.
  destruct (inject_Z l / inject_Z m)%Q as [n d].
  unfold Qle, Qmult, inject_Z. cbn [Qnum Qden].
  rewrite Pos.mul_1_r. lia.
Qed.

Section LowToner.
Context {RT : Runtime}.

Lemma supply_is_low_iff (s : json) :
  well_formed_supply s -> (supply_is_low s = true <-> low_supply s).
Proof.
  intros [(l & Hl) Hmax]. unfold supply_is_low, low_supply, reported_level,
    reported_max. rewrite Hl. cbn [ToNumber isFinite andb].
  destruct Hmax as [Hm|[Hm|(m & Hm)]]; rewrite Hm;
    cbn [ToNumber isFinite andb number_gt number_le percentage_le].
  - rewrite Z.leb_le. split.
    + intros H. exists l. split; [reflexivity|]. right. split; [left; reflexivity | exact H].
    + intros (l' & [= <-] & [(m & Hm' & _)|[_ H]]); [discriminate | exact H].
  - rewrite Z.ltb_irrefl, Z.leb_le. split.
    + intros H. exists l. split; [reflexivity|]. right. split; [left; reflexivity | exact H].
    + intros (l' & [= <-] & [(m & Hm' & _)|[_ H]]); [discriminate | exact H].
  - destruct (Z.ltb_spec 0 m) as [Hpos|Hneg].
    + rewrite (percentage_le_iff l m Hpos). split.
      * intros H. exists l. split; [reflexivity|]. left. exists m. auto.
      * intros (l' & [= <-] & [(m' & [= <-] & _ & H)|[[Hno|(m' & [= <-] & Hle)] _]]);
          [exact H | discriminate | lia].
    + rewrite Z.leb_le. split.
      * intros H. exists l. split; [reflexivity|]. right.
        split; [right; exists m; auto | exact H].
      * intros (l' & [= <-] & [(m' & [= <-] & Hlt & _)|[_ H]]); [lia | exact H].
Qed.

Lemma lowToner_iff (xs : list json) :
  Forall well_formed_supply xs ->
  (lowToner (JArray xs) = true <-> exists s, In s xs /\ low_supply s).
Proof.
  intros Hwf. unfold lowToner. cbn [Array_isArray elements andb].
  rewrite existsb_exists.
  rewrite Forall_forall in Hwf.
  split; intros (s & Hin & H); exists s; (split; [exact Hin|]);
    apply (supply_is_low_iff s (Hwf s Hin)); exact H.
Qed.

(** The callback on any value, with the level and the maximum as
    [Number()] makes them. *)
Lemma supply_is_low_counted (s : json) :
  supply_is_low s = true <-> low_supply_counted s.
Proof.
  unfold supply_is_low, low_supply_counted, counted_level, counted_max.
  destruct (ToNumber (optional_get s "level")) as [l|];
    cbn [isFinite andb].
  2: { split; [discriminate | intros (l & H & _); discriminate H]. }
  destruct (ToNumber (optional_get s "max")) as [m|];
    cbn [isFinite andb number_gt number_le percentage_le].
  - destruct (Z.ltb_spec 0 m) as [Hpos|Hneg].
    + rewrite (percentage_le_iff l m Hpos). split.
      * intros H. exists l. split; [reflexivity|]. left. exists m. auto.
      * intros (l' & [= <-]
                & [(m' & [= <-] & _ & H)|[[Hno|(m' & [= <-] & Hle)] _]]);
          [exact H | discriminate | lia].
    + rewrite Z.leb_le. split.
      * intros H. exists l. split; [reflexivity|]. right.
        split; [right; exists m; auto | exact H].
      * intros (l' & [= <-] & [(m' & [= <-] & Hlt & _)|[_ H]]);
          [lia | exact H].
  - rewrite Z.leb_le. split.
    + intros H. exists l. split; [reflexivity|]. right.
      split; [left; reflexivity | exact H].
    + intros (l' & [= <-] & [(m & Hm & _)|[_ H]]); [discriminate | exact H].
Qed.

Lemma lowToner_counted (supplies : json) :
  lowToner supplies = true
  <-> exists xs, supplies = JArray xs
                 /\ exists s, In s xs /\ low_supply_counted s.
Proof.
  unfold lowToner. destruct supplies as [| |b|n|str|xs|fields];
    cbn [Array_isArray elements andb];
    try (split; [discriminate | intros (xs' & H & _); discriminate H]).
  rewrite existsb_exists. split.
  - intros (s & Hin & H). exists xs. split; [reflexivity|].
    exists s. split; [exact Hin | apply supply_is_low_counted; exact H].
  - intros (xs' & [= <-] & s & Hin & H). exists s.
    split; [exact Hin | apply supply_is_low_counted; exact H].
Qed.

(** C9, as the route does it.  After an accepted ingestion the stored
    low-toner flag is true exactly when the supplies are an array with an
    element whose level, read with [Number()], is at most 20% of its
    positive maximum, read with [Number()], or at most 20 when the maximum
    so read is absent or not positive.  For a supply with a numeric level,
    and a maximum that is numeric, null or missing, that is: a level of at
    most 20% of its positive maximum, or of at most 20 when the maximum is
    absent or not positive.  A level of 15 of 100 is low, 25 of 100 is not,
    and a bare level of 18 is; a null level of 100 is low, a missing level
    is not. *)
Theorem metrics_impresoras_lowToner :
  (forall (db : DB.t) (req : MetricsRequest.t) (empresa : Empresa.t)
          (b : MetricsBody.t) (host : string) (ahora ahoraInsert : Date),
      accepted db req empresa b host ->
      let res := run (metrics_impresoras req ahora ahoraInsert) db in
      exists printerId l flag,
        printerId_of (fst res) = Some printerId
        /\ find_latest (snd res) printerId = Some l
        /\ ImpresoraLatest.lowToner l = Some flag
        /\ (flag = true
            <-> exists xs, supplies_of b = JArray xs
                           /\ exists s, In s xs /\ low_supply_counted s)
        /\ (forall xs, supplies_of b = JArray xs ->
                       Forall well_formed_supply xs ->
                       (flag = true <-> exists s, In s xs /\ low_supply s)))
  /\ (forall s, well_formed_supply s ->
                (low_supply_counted s <-> low_supply s))
  /\ lowToner (JArray [supply "black" 15 100]) = true
  /\ lowToner (JArray [supply "black" 25 100]) = false
  /\ lowToner (JArray [supply_bare "black" 18]) = true
  /\ lowToner (JArray [JObject [("level", JNull);
                                ("max", JNumber (Num 100))]]) = true
  /\ lowToner (JArray [JObject [("max", JNumber (Num 100))]]) = false.
Proof.
  split; [|split; [|repeat split; reflexivity]].
  2: { intros s Hwf. rewrite <- supply_is_low_counted.
       apply supply_is_low_iff. exact Hwf. }
  intros db req empresa b host ahora ahoraInsert Hacc res.
  destruct (metrics_impresoras_accepted db req empresa b host ahora ahoraInsert
              Hacc) as [Hdb Hid].
  fold res in Hdb, Hid. rewrite Hdb, Hid.
  destruct (latest_upsert_find
              (Impresora._id
                 (fst (exec (Impresora_findOneAndUpdate (Empresa._id empresa)
                               (claveOr (MetricsBody.serial b) host)
                               (setBase empresa b host) ahoraInsert) db)))
              (setLatest b ahora)
              (snd (exec (Impresora_findOneAndUpdate (Empresa._id empresa)
                            (claveOr (MetricsBody.serial b) host)
                            (setBase empresa b host) ahoraInsert) db)))
    as (l & Hl & _ & Hlow & _).
  eexists _, l, _. split; [reflexivity|]. split; [exact Hl|].
  split; [exact Hlow|]. cbn [setLatest SetLatest.lowToner]. split.
  - apply lowToner_counted.
  - intros xs Hxs Hwf. rewrite Hxs. apply lowToner_iff. exact Hwf.
Qed.

(** Outside the data model: a level of [null] counts as 0, a missing level
    never counts as low. *)
Lemma supply_is_low_level_null :
  supply_is_low (JObject [("level", JNull)]) = true
  /\ supply_is_low (JObject [("name", JString "black")]) = false.
Proof. split; reflexivity. Qed.
End LowToner.

(** A supply whose level is null has no level to compare, and yet the
    report that carries it stores the low-toner flag: [Number(null)] is 0. *)
Lemma metrics_impresoras_lowToner_counterexample :
  exists l,
    find_latest (snd (ingest reporte_nivel_nulo db_vacia)) 2 = Some l
    /\ ImpresoraLatest.lowToner l = Some true
    /\ ~ (exists s,
            In s [JObject [("level", JNull); ("max", JNumber (Num 100))]]
            /\ low_supply s).
Proof.
  eexists. split; [reflexivity|]. split; [reflexivity|].
  intros (s & [<-|[]] & l & Hl & _). discriminate Hl.
Qed.

Lemma metrics_impresoras_lowToner_witness :
  exists l,
    find_latest (snd (ingest reporte_toner_bajo db_vacia)) 2 = Some l
    /\ ImpresoraLatest.lowToner l = Some true.
Proof.
  assert (Hacc : accepted db_vacia reporte_toner_bajo
                   (Empresa.mk 1 (Some "Acme") "emp_k1")
                   (MetricsBody.mk (Some "10.0.0.5") (JNumber (Num 100))
                      JUndefined JUndefined (JArray [supply "black" 15 100])
                      None None None (Some "SN-1") None None None None)
                   "10.0.0.5").
  { exists "emp_k1". repeat split; reflexivity. }
  assert (Hwf : Forall well_formed_supply [supply "black" 15 100]).
  { constructor; [|constructor].
    split; [exists 15; reflexivity | right; right; exists 100; reflexivity]. }
  destruct (proj1 (metrics_impresoras_lowToner (RT := plain_runtime))
              _ _ _ _ _ (ValidDate 5000) (ValidDate 5001) Hacc)
    as (printerId & l & flag & Hid & Hl & Hlow & _ & Hflag).
  injection Hid as <-.
  exists l. split; [exact Hl|]. rewrite Hlow.
  apply f_equal, (Hflag _ eq_refl Hwf). exists (supply "black" 15 100).
  split; [left; reflexivity|].
  exists 15. split; [reflexivity|]. left. exists 100.
  split; [reflexivity|]. split; [reflexivity|]. discriminate.
Defined.

(** ** Report *)

Section ReportFacts.
Context {RT : Runtime}.

(** The statistics and the period line that a rendered report shows. *)
Lemma generarPDFProfesional_texts (corte : CortesMensuales.t)
    (impresora : option (Impresora.t * option Empresa.t)) (pdf : Pdf.t) :
  generarPDFProfesional corte impresora = Resolved pdf ->
  exists fin total,
    CortesMensuales.contadorFinGeneral corte = Some fin
    /\ CortesMensuales.totalPaginasGeneral corte = Some total
    /\ Pdf.stats pdf
       = [ ("INICIO PERÍODO",
            texto_inicio (CortesMensuales.contadorInicioGeneral corte));
           ("FIN PERÍODO", toLocaleString fin);
           ("CONSUMO TOTAL", toLocaleString total) ]
    /\ nth_error (Pdf.info pdf) 5
       = Some ("Período: "
               ++ or_string (CortesMensuales.periodo corte)
                            "No especificado")%string.
Proof.
  unfold generarPDFProfesional. destruct impresora as [[i e]|]; [|discriminate].
  destruct (CortesMensuales.contadorFinGeneral corte) as [fin|]; [|discriminate].
  destruct (CortesMensuales.totalPaginasGeneral corte) as [total|];
    [|discriminate].
  destruct (dibujar_supplies 0 _); [discriminate|].
  intros [= <-]. exists fin, total. repeat split; reflexivity.
Qed.

(** A report is sent only when the promise of the renderer resolved. *)
Lemma generar_pdf_enviar_sent (db : DB.t) (corte : CortesMensuales.t)
    (impresora : option (Impresora.t * option Empresa.t))
    (latest : ImpresoraLatest.t) (hoy : Date)
    (ultimoCorteAnterior : option CortesMensuales.t) (pdf : Pdf.t) :
  fst (run (generar_pdf_enviar corte impresora latest hoy ultimoCorteAnterior)
           db) = SendPdf pdf ->
  generarPDFProfesional (datosPDF corte ultimoCorteAnterior latest hoy)
                        impresora = Resolved pdf.
Proof.
  unfold generar_pdf_enviar.
  destruct (generarPDFProfesional _ _) as [pdf'|err]; [|discriminate].
  destruct impresora as [[i e]|]; [|discriminate].
  destruct (checkInvalidHeaderChar _); [discriminate|].
  cbn. intros [= <-]. reflexivity.
Qed.

(** Sending the report does not touch the store. *)
Lemma generar_pdf_enviar_run (db : DB.t) (corte : CortesMensuales.t)
    (impresora : option (Impresora.t * option Empresa.t))
    (latest : ImpresoraLatest.t) (hoy : Date)
    (ultimoCorteAnterior : option CortesMensuales.t) :
  run (generar_pdf_enviar corte impresora latest hoy ultimoCorteAnterior) db
  = (fst (run (generar_pdf_enviar corte impresora latest hoy
                                  ultimoCorteAnterior) db), db).
Proof.
  unfold generar_pdf_enviar.
  destruct (generarPDFProfesional _ _) as [pdf|err]; [|reflexivity].
  destruct impresora as [[i e]|]; [|reflexivity].
  destruct (checkInvalidHeaderChar _); reflexivity.
Qed.

(** What the route answers once the latest state and its cut are found. *)
Lemma generar_pdf_run (db : DB.t) (printerId : ObjectId) (hoy : Date)
    (l : ImpresoraLatest.t) (corte : CortesMensuales.t) :
  find_latest db printerId = Some l ->
  corte_previo db l = Some corte ->
  exists impresora,
    run (generar_pdf printerId hoy) db
    = (fst (run (generar_pdf_enviar corte impresora l hoy
                                    (corte_anterior db corte)) db), db).
Proof.
  unfold find_latest, corte_previo, corte_anterior, find_corte.
  cbn [exec fst]. intros Hl Hc.
  unfold generar_pdf. rewrite run_Await. cbn [exec fst snd]. rewrite Hl.
  destruct (ImpresoraLatest.ultimoCorteId l) as [id|]; [|discriminate].
  rewrite run_Await. cbn [exec fst snd]. rewrite Hc.
  rewrite run_Await. cbn [exec fst snd].
  destruct (find _ (DB.impresoras db)) as [i|].
  - rewrite run_Await. cbn [exec fst snd].
    exists (Some (i, find (fun e => Nat.eqb (Empresa._id e)
                                            (Impresora.empresaId i))
                          (DB.empresas db))).
    destruct (CortesMensuales.ultimoCorteId corte) as [a|];
      [rewrite run_Await; cbn [exec fst snd]|];
      apply generar_pdf_enviar_run.
  - exists None.
    destruct (CortesMensuales.ultimoCorteId corte) as [a|];
      [rewrite run_Await; cbn [exec fst snd]|];
      apply generar_pdf_enviar_run.
Qed.

(** C10, as the route does it.  A report rendered for a device whose latest
    state references a cut shows the start counter, end counter and total
    pages of that cut; its period line is the label that the cut calculator
    computes at report time from the cut's predecessor, if the cut
    references one, and the latest state. *)
Theorem generar_pdf_shows (db : DB.t) (printerId : ObjectId) (hoy : Date)
    (l : ImpresoraLatest.t) (corte : CortesMensuales.t) (pdf : Pdf.t) :
  find_latest db printerId = Some l ->
  corte_previo db l = Some corte ->
  fst (run (generar_pdf printerId hoy) db) = SendPdf pdf ->
  (exists fin total,
      CortesMensuales.contadorFinGeneral corte = Some fin
      /\ CortesMensuales.totalPaginasGeneral corte = Some total
      /\ Pdf.stats pdf
         = [ ("INICIO PERÍODO",
              texto_inicio (CortesMensuales.contadorInicioGeneral corte));
             ("FIN PERÍODO", toLocaleString fin);
             ("CONSUMO TOTAL", toLocaleString total) ])
  /\ nth_error (Pdf.info pdf) 5
     = Some ("Período: "
             ++ or_string
                  (Some (PeriodoCorte.periodo
                           (calcularPeriodoCorte (corte_anterior db corte)
                                                 l hoy)))
                  "No especificado")%string.
Proof.
  intros Hl Hc Hres.
  destruct (generar_pdf_run db printerId hoy l corte Hl Hc) as [imp Hrun].
  rewrite Hrun in Hres. cbn [fst] in Hres.
  pose proof (generar_pdf_enviar_sent _ _ _ _ _ _ _ Hres) as Hpdf.
  destruct (generarPDFProfesional_texts _ _ _ Hpdf)
    as (fin & total & Hfin & Htotal & Hstats & Hper).
  split; [|exact Hper].
  exists fin, total. repeat split; assumption.
Qed.
End ReportFacts.

(** The second cut of the example printer is stored with the label of its
    own period; the report rendered for it shows the first-cut label. *)
Lemma generar_pdf_shows_counterexample :
  exists l corte pdf,
    find_latest db_dos_cortes 3 = Some l
    /\ corte_previo db_dos_cortes l = Some corte
    /\ CortesMensuales.periodo corte = Some "1000 - 9001"
    /\ fst (run (generar_pdf (RT := plain_runtime) 3 (ValidDate 9500))
                db_dos_cortes) = SendPdf pdf
    /\ nth_error (Pdf.info pdf) 5 = Some "Período: Desde instalación".
Proof.
  do 3 eexists. repeat split; reflexivity.
Qed.

Lemma generar_pdf_shows_witness :
  exists pdf,
    fst (run (generar_pdf (RT := plain_runtime) 3 (ValidDate 9500))
             db_dos_cortes) = SendPdf pdf
    /\ Pdf.stats pdf
       = [ ("INICIO PERÍODO", "1500");
           ("FIN PERÍODO", "1800");
           ("CONSUMO TOTAL", "300") ].
Proof.
  eexists. split; [reflexivity|].
  destruct (generar_pdf_shows (RT := plain_runtime) db_dos_cortes 3
              (ValidDate 9500) _ _ _ eq_refl eq_refl eq_refl)
    as [(fin & total & Hfin & Htotal & Hstats) _].
  injection Hfin as <-. injection Htotal as <-. exact Hstats.
Defined.

(** ** Cut ledger: two cuts in a row *)

Lemma find_all_false {A : Type} (p : A -> bool) (l : list A) :
  (forall x, In x l -> p x = false) -> find p l = None.
Proof.
  induction l as [|y rest IH]; simpl; [reflexivity|].
  intros H. rewrite (H y (or_introl eq_refl)). apply IH.
  intros x Hx. apply H. right; exact Hx.
Qed.

Section RoundTrip.
Context {RT : Runtime}.

(** When identifiers in the store are below the next one to be handed out,
    the cut registered second starts from the supplies the cut registered
    first ended with. *)
Lemma registrar_corte_round_trip (db : DB.t) (printerId : ObjectId)
    (ahora hoy ahora' hoy' : Date) (i : Impresora.t) (l : ImpresoraLatest.t) :
  find_impresora db printerId = Some i ->
  find_latest db printerId = Some l ->
  (forall c, In c (DB.cortes db) -> (CortesMensuales._id c < DB.nextId db)%nat) ->
  let db1 := snd (run (registrar_corte printerId ahora hoy) db) in
  let db2 := snd (run (registrar_corte printerId ahora' hoy') db1) in
  exists primero segundo,
    DB.cortes db2 = (DB.cortes db ++ [primero]) ++ [segundo]
    /\ CortesMensuales.suppliesInicio segundo
       = CortesMensuales.suppliesFin primero.
Proof.
  intros Hi Hl Hfresh db1 db2.
  destruct (registrar_corte_run db printerId ahora hoy i l Hi Hl) as [Hdb1 _].
  fold db1 in Hdb1. cbv zeta in Hdb1.
  set (primero := nuevoCorte printerId i l (corte_previo db l)
                    (calcularPeriodoCorte (corte_previo db l) l hoy) ahora
                    (DB.nextId db)) in Hdb1.
  assert (Hi1 : find_impresora db1 printerId = Some i).
  { rewrite Hdb1. exact Hi. }
  assert (Hl1 : find_latest db1 printerId
                = Some (set_ultimoCorte (DB.nextId db) ahora l)).
  { rewrite Hdb1. unfold find_latest in *. cbn [exec fst DB.latests] in *.
    apply find_update_first; [exact Hl|].
    apply find_some_holds in Hl. exact Hl. }
  assert (Hprev : corte_previo db1 (set_ultimoCorte (DB.nextId db) ahora l)
                  = Some primero).
  { rewrite Hdb1. unfold corte_previo, find_corte.
    cbn [set_ultimoCorte ImpresoraLatest.ultimoCorteId exec fst DB.cortes].
    apply find_app_new.
    - apply find_all_false. intros c Hc. unfold is_corte.
      apply Nat.eqb_neq. specialize (Hfresh c Hc). lia.
    - unfold is_corte, primero. cbn. apply Nat.eqb_refl. }
  destruct (registrar_corte_run db1 printerId ahora' hoy' i _ Hi1 Hl1)
    as [Hdb2 _].
  fold db2 in Hdb2. cbv zeta in Hdb2. rewrite Hprev in Hdb2.
  eexists primero, _. rewrite Hdb2. cbn [DB.cortes]. split.
  - rewrite Hdb1. reflexivity.
  - reflexivity.
Qed.
End RoundTrip.

(** * Further properties of the routes *)

(** ** Online state over time *)

Section OnlineOverTime.
Context {RT : Runtime}.
Variable env : option string.

(** Staleness only grows: a snapshot that is derived online at some instant
    is derived online at every earlier instant, so a device that has gone
    offline stays offline until a new report arrives. *)
Theorem computeDerivedOnline_earlier (latest : option ImpresoraLatest.t)
    (now now' : Z) :
  now <= now' ->
  computeDerivedOnline env latest now' = true ->
  computeDerivedOnline env latest now = true.
Proof.
  intros Hle. unfold computeDerivedOnline.
  destruct latest as [l|]; [|discriminate].
  destruct (ImpresoraLatest.lastSeenAt l) as [[t|]|]; try discriminate.
  2: { destruct (ImpresoraLatest.online l) as [[|]|]; discriminate. }
  destruct (ImpresoraLatest.online l) as [[|]|]; try discriminate;
    cbn [new_Date getTime isFinite negb number_sub];
    destruct (ONLINE_STALE_MS env) as [T|]; cbn [number_le];
    try discriminate; rewrite !Z.leb_le; lia.
Qed.
End OnlineOverTime.

Lemma computeDerivedOnline_earlier_witness :
  computeDerivedOnline (RT := plain_runtime) None
    (Some (latest_of 3 (Some 1500) (Some (ValidDate 1000)) (Some true) None))
    60000 = true.
Proof.
  apply (computeDerivedOnline_earlier (RT := plain_runtime) None _ 60000 121000).
  - lia.
  - reflexivity.
Defined.

(** ** Telemetry ingestion: rejected requests *)

Lemma prefix_split (s t : string) :
  prefix s t = true ->
  t = (s ++ substring (String.length s) (String.length t - String.length s) t)%string.
Proof.
  revert t. induction s as [|a s IH]; intros t H.
  - cbn [append String.length substring]. rewrite Nat.sub_0_r.
    symmetry. apply substring_all.
  - destruct t as [|b t]; [discriminate H|].
    cbn [prefix] in H. destruct (Ascii.ascii_dec a b) as [<-|]; [|discriminate H].
    cbn [append String.length substring Nat.sub]. f_equal. apply IH. exact H.
Qed.

Section IngestRejections.
Context {RT : Runtime}.

(** Either the request is accepted, or it is answered 401, 403 or 400 and
    nothing is written. *)
Lemma metrics_impresoras_outcome (db : DB.t) (req : MetricsRequest.t)
    (ahora ahoraInsert : Date) :
  let res := run (metrics_impresoras req ahora ahoraInsert) db in
  (exists empresa b host, accepted db req empresa b host)
  \/ (snd res = db
      /\ (status_of (fst res) = 401 \/ status_of (fst res) = 403
          \/ status_of (fst res) = 400)).
Proof.
  cbv zeta. unfold metrics_impresoras.
  destruct (prefix "Bearer " (or_string (MetricsRequest.authorization req) ""))
    eqn:Hpre; [|right; split; [reflexivity | left; reflexivity]].
  destruct (truthy_string (slice 7 (or_string (MetricsRequest.authorization req) "")))
    eqn:Htok; cbn [negb]; [|right; split; [reflexivity | left; reflexivity]].
  rewrite run_Await.
  change (snd (exec (Empresa_findOne (slice 7
            (or_string (MetricsRequest.authorization req) ""))) db)) with db.
  destruct (fst (exec (Empresa_findOne _) db)) as [empresa|] eqn:Hemp;
    [|right; split; [reflexivity | right; left; reflexivity]].
  destruct (MetricsRequest.body req) as [b|] eqn:Hbody;
    [|right; split; [reflexivity | right; right; reflexivity]].
  destruct (MetricsBody.host b) as [host|] eqn:Hhost;
    [|right; split; [reflexivity | right; right; reflexivity]].
  destruct (truthy_string host) eqn:Hh; cbn [negb];
    [|right; split; [reflexivity | right; right; reflexivity]].
  left. exists empresa, b, host.
  exists (slice 7 (or_string (MetricsRequest.authorization req) "")).
  split; [|repeat split; assumption].
  destruct (MetricsRequest.authorization req) as [a|];
    [|discriminate Hpre].
  cbn [or_string] in *. destruct (truthy_string a); [|discriminate Hpre].
  f_equal. apply (prefix_split "Bearer " a Hpre).
Qed.

Lemma metrics_impresoras_accepted_200 (db : DB.t) (req : MetricsRequest.t)
    (empresa : Empresa.t) (b : MetricsBody.t) (host : string)
    (ahora ahoraInsert : Date) :
  accepted db req empresa b host ->
  status_of (fst (run (metrics_impresoras req ahora ahoraInsert) db)) = 200.
Proof.
  intros (token & Hauth & Htok & Hemp & Hbody & Hhost & Hh).
  unfold metrics_impresoras.
  rewrite Hauth, or_string_Bearer, prefix_app, slice_Bearer, Htok. cbn [negb].
  rewrite run_Await.
  change (snd (exec (Empresa_findOne token) db)) with db.
  rewrite Hemp, Hbody, Hhost, Hh. cbn [negb].
  rewrite !run_Await. reflexivity.
Qed.

(** The ingestion route answers 200, 400, 401 or 403.  It answers 200
    exactly for a request with the bearer key of a tenant and a non-empty
    host, and with any other answer the store is left as it was. *)
Theorem metrics_impresoras_rejections (db : DB.t) (req : MetricsRequest.t)
    (ahora ahoraInsert : Date) :
  let res := run (metrics_impresoras req ahora ahoraInsert) db in
  (status_of (fst res) = 200
   <-> exists empresa b host, accepted db req empresa b host)
  /\ (status_of (fst res) <> 200 ->
      snd res = db
      /\ (status_of (fst res) = 401 \/ status_of (fst res) = 403
          \/ status_of (fst res) = 400))
  /\ (MetricsRequest.authorization req = None -> status_of (fst res) = 401).
Proof.
  cbv zeta.
  pose proof (metrics_impresoras_outcome db req ahora ahoraInsert) as Hcases.
  cbv zeta in Hcases.
  split; [|split].
  - split.
    + intros H200. destruct Hcases as [H|[_ [H|[H|H]]]]; [exact H| | |];
        rewrite H in H200; discriminate H200.
    + intros (empresa & b & host & H).
      exact (metrics_impresoras_accepted_200 db req empresa b host _ _ H).
  - intros Hnot. destruct Hcases as [(empresa & b & host & H)|H]; [|exact H].
    contradiction Hnot.
    exact (metrics_impresoras_accepted_200 db req empresa b host _ _ H).
  - intros Hnone. unfold metrics_impresoras. rewrite Hnone. reflexivity.
Qed.
End IngestRejections.

(** ** Telemetry ingestion: what it leaves alone *)

Lemma find_update_first_other {A : Type} (p q : A -> bool) (f : A -> A)
    (l : list A) (y : A) :
  (forall x, q (f x) = q x) ->
  find q l = Some y ->
  exists y', find q (update_first p f l) = Some y' /\ (y' = y \/ y' = f y).
Proof.
  intros Hq. induction l as [|x rest IH]; simpl; [discriminate|].
  destruct (p x) eqn:Hp; simpl.
  - rewrite Hq. destruct (q x).
    + intros [= <-]. exists (f x). auto.
    + intros H. exists y. auto.
  - destruct (q x).
    + intros [= <-]. exists x. auto.
    + exact IH.
Qed.

Lemma find_app_old {A : Type} (q : A -> bool) (l l' : list A) (y : A) :
  find q l = Some y -> find q (l ++ l') = Some y.
Proof.
  induction l as [|x rest IH]; simpl; [discriminate|].
  destruct (q x); [intros H; exact H | exact IH].
Qed.

(** The latest-state upsert keeps every device's pointer to its latest cut,
    and adds no pointer. *)
Lemma latest_upsert_pointer (printerId : ObjectId) (set : SetLatest.t)
    (db : DB.t) :
  let db' := snd (exec (ImpresoraLatest_findOneAndUpdate printerId set) db) in
  DB.cortes db' = DB.cortes db
  /\ (forall pid l,
        find_latest db pid = Some l ->
        exists l',
          find_latest db' pid = Some l'
          /\ ImpresoraLatest.ultimoCorteId l' = ImpresoraLatest.ultimoCorteId l
          /\ ImpresoraLatest.lastCutDate l' = ImpresoraLatest.lastCutDate l)
  /\ (forall l' id,
        In l' (DB.latests db') ->
        ImpresoraLatest.ultimoCorteId l' = Some id ->
        exists l, In l (DB.latests db)
                  /\ ImpresoraLatest.ultimoCorteId l = Some id)
  /\ map ImpresoraLatest.printerId (DB.latests db')
     = match find_latest db printerId with
       | Some _ => map ImpresoraLatest.printerId (DB.latests db)
       | None => map ImpresoraLatest.printerId (DB.latests db) ++ [printerId]
       end.
Proof.
  cbv zeta. unfold find_latest. cbn [exec fst snd].
  destruct (find (is_printer printerId) (DB.latests db)) as [x|] eqn:Hx;
    cbn [snd DB.cortes DB.latests].
  - split; [reflexivity|]. split; [|split].
    + intros pid l Hl.
      destruct (find_update_first_other (is_printer printerId) (is_printer pid)
                  (apply_setLatest set) (DB.latests db) l
                  (fun x => eq_refl) Hl) as (l' & Hl' & Heq).
      exists l'. split; [exact Hl'|].
      destruct Heq as [->| ->]; split; reflexivity.
    + intros l' id Hin Hptr.
      destruct (In_update_first _ _ _ _ Hin) as [H|(y & Hy & _ & ->)].
      * exists l'. auto.
      * exists y. auto.
    + apply map_update_first. intros y _. reflexivity.
  - split; [reflexivity|]. split; [|split].
    + intros pid l Hl. exists l. split; [|split; reflexivity].
      apply find_app_old. exact Hl.
    + intros l' id Hin Hptr. apply in_app_or in Hin.
      destruct Hin as [H|[<-|[]]]; [exists l'; auto | discriminate Hptr].
    + rewrite map_app. reflexivity.
Qed.

Lemma find_latest_none_notin (db : DB.t) (printerId : ObjectId) :
  find_latest db printerId = None ->
  ~ In printerId (map ImpresoraLatest.printerId (DB.latests db)).
Proof.
  unfold find_latest. cbn [exec fst]. intros Hnone Hin.
  apply in_map_iff in Hin. destruct Hin as (l & Hid & Hl).
  pose proof (find_none _ _ Hnone l Hl) as H.
  unfold is_printer in H. rewrite Hid, Nat.eqb_refl in H. discriminate H.
Qed.

Section IngestKeeps.
Context {RT : Runtime}.

Lemma metrics_impresoras_unique_latests (db : DB.t) (req : MetricsRequest.t)
    (ahora ahoraInsert : Date) :
  unique_latests db ->
  unique_latests (snd (run (metrics_impresoras req ahora ahoraInsert) db)).
Proof.
  destruct (metrics_impresoras_outcome db req ahora ahoraInsert)
    as [(empresa & b & host & Hacc)|[Hdb _]]; cbv zeta in *.
  2: { rewrite Hdb. auto. }
  destruct (metrics_impresoras_accepted db req empresa b host ahora ahoraInsert
              Hacc) as [Hdb _].
  rewrite Hdb.
  set (r1 := exec (Impresora_findOneAndUpdate (Empresa._id empresa)
                     (claveOr (MetricsBody.serial b) host)
                     (setBase empresa b host) ahoraInsert) db).
  assert (Hl1 : DB.latests (snd r1) = DB.latests db).
  { unfold r1. cbn [exec]. destruct (find _ _); reflexivity. }
  destruct (latest_upsert_pointer (Impresora._id (fst r1)) (setLatest b ahora)
              (snd r1)) as (_ & _ & _ & Hids).
  cbv zeta in Hids. unfold unique_latests. intros Huniq. rewrite Hids.
  assert (Hf1 : forall pid, find_latest (snd r1) pid = find_latest db pid).
  { intros pid. unfold find_latest. cbn [exec fst]. rewrite Hl1. reflexivity. }
  rewrite Hf1, Hl1.
  destruct (find_latest db (Impresora._id (fst r1))) eqn:Hfind;
    [exact Huniq|].
  apply NoDup_app; [exact Huniq | constructor; [intros []|constructor] |].
  intros k Hk [<-|[]].
  exact (find_latest_none_notin db _ Hfind Hk).
Qed.

(** Whatever the request, telemetry ingestion leaves the cuts as they are
    and keeps every device's pointer to its latest cut and the date of that
    cut; it keeps the store free of dangling pointers and of duplicate
    latest-state records. *)
Theorem metrics_impresoras_keeps_cuts (db : DB.t) (req : MetricsRequest.t)
    (ahora ahoraInsert : Date) :
  let db' := snd (run (metrics_impresoras req ahora ahoraInsert) db) in
  DB.cortes db' = DB.cortes db
  /\ (forall pid l,
        find_latest db pid = Some l ->
        exists l',
          find_latest db' pid = Some l'
          /\ ImpresoraLatest.ultimoCorteId l' = ImpresoraLatest.ultimoCorteId l
          /\ ImpresoraLatest.lastCutDate l' = ImpresoraLatest.lastCutDate l)
  /\ (no_dangling db -> no_dangling db')
  /\ (unique_latests db -> unique_latests db').
Proof.
  cbv zeta.
  destruct (metrics_impresoras_outcome db req ahora ahoraInsert)
    as [(empresa & b & host & Hacc)|[Hdb _]]; cbv zeta in *.
  2: { rewrite Hdb. split; [reflexivity|]. split; [|split; auto].
       intros pid l Hl. exists l. auto. }
  destruct (metrics_impresoras_accepted db req empresa b host ahora ahoraInsert
              Hacc) as [Hdb _].
  pose proof (metrics_impresoras_unique_latests db req ahora ahoraInsert) as Hu.
  rewrite Hdb in Hu. rewrite Hdb.
  set (r1 := exec (Impresora_findOneAndUpdate (Empresa._id empresa)
                     (claveOr (MetricsBody.serial b) host)
                     (setBase empresa b host) ahoraInsert) db).
  assert (Hl1 : DB.latests (snd r1) = DB.latests db).
  { unfold r1. cbn [exec]. destruct (find _ _); reflexivity. }
  assert (Hc1 : DB.cortes (snd r1) = DB.cortes db).
  { unfold r1. cbn [exec]. destruct (find _ _); reflexivity. }
  assert (Hf1 : forall pid, find_latest (snd r1) pid = find_latest db pid).
  { intros pid. unfold find_latest. cbn [exec fst]. rewrite Hl1. reflexivity. }
  destruct (latest_upsert_pointer (Impresora._id (fst r1)) (setLatest b ahora)
              (snd r1)) as (Hc & Hptr & Hnew & Hids).
  cbv zeta in *. rewrite Hc1 in Hc. split; [exact Hc|]. split; [|split].
  - intros pid l Hl. apply Hptr. rewrite Hf1. exact Hl.
  - intros Hnd l' id Hin Hid.
    destruct (Hnew l' id Hin Hid) as (l & Hl & Hlid).
    rewrite Hl1 in Hl. destruct (Hnd l id Hl Hlid) as (c & Hcin & Hcid).
    exists c. rewrite Hc. auto.
  - exact Hu.
Qed.
End IngestKeeps.

(** ** Telemetry ingestion: the same report twice *)

Lemma update_first_idem {A : Type} (p : A -> bool) (f : A -> A) (l : list A) :
  (forall x, p x = true -> p (f x) = true) ->
  (forall x, f (f x) = f x) ->
  update_first p f (update_first p f l) = update_first p f l.
Proof.
  intros Hp Hf. induction l as [|x rest IH]; simpl; [reflexivity|].
  destruct (p x) eqn:Hx; simpl.
  - rewrite (Hp x Hx), Hf. reflexivity.
  - rewrite Hx, IH. reflexivity.
Qed.

Lemma update_first_app_new {A : Type} (p : A -> bool) (f : A -> A)
    (l : list A) (z : A) :
  find p l = None -> p z = true ->
  update_first p f (l ++ [z]) = l ++ [f z].
Proof.
  induction l as [|x rest IH]; simpl.
  - intros _ ->. reflexivity.
  - destruct (p x); [discriminate|]. intros H Hz. rewrite IH; auto.
Qed.

Lemma matches_clave_setBase (empresa : Empresa.t) (b : MetricsBody.t)
    (host : string) (d : Impresora.t) :
  Impresora.empresaId d = Empresa._id empresa ->
  Impresora.host d = host ->
  matches_clave (Empresa._id empresa) (claveOr (MetricsBody.serial b) host) d
  = true.
Proof.
  intros He Hh. apply matches_clave_iff. split; [exact He | left; exact Hh].
Qed.

(** The device upsert, run again with the same filter and values on a store
    that holds the devices the first run left, resolves the same device and
    changes no device. *)
Lemma impresora_upsert_twice (db db1 : DB.t) (empresa : Empresa.t)
    (b : MetricsBody.t) (host : string) (t t' : Date) :
  let op t := Impresora_findOneAndUpdate (Empresa._id empresa)
                (claveOr (MetricsBody.serial b) host)
                (setBase empresa b host) t in
  DB.impresoras db1 = DB.impresoras (snd (exec (op t) db)) ->
  fst (exec (op t') db1) = fst (exec (op t) db)
  /\ DB.impresoras (snd (exec (op t') db1)) = DB.impresoras db1
  /\ DB.latests (snd (exec (op t') db1)) = DB.latests db1.
Proof.
  cbv zeta. cbn [exec].
  set (p := matches_clave (Empresa._id empresa)
              (claveOr (MetricsBody.serial b) host)).
  set (f := apply_setBase (setBase empresa b host)).
  assert (Hpf : forall x, p (f x) = true).
  { intros x. apply matches_clave_setBase; reflexivity. }
  destruct (find p (DB.impresoras db)) as [d|] eqn:Hfind;
    cbn [fst snd DB.impresoras]; intros Himp; rewrite Himp.
  - rewrite (find_update_first p f _ d Hfind (Hpf d)).
    cbn [fst snd DB.impresoras DB.latests].
    repeat split. apply update_first_idem; [intros; apply Hpf | reflexivity].
  - assert (Hnew : p (insert_setBase (setBase empresa b host) (DB.nextId db) t)
                   = true).
    { apply matches_clave_setBase; reflexivity. }
    rewrite (find_app_new p _ _ Hfind Hnew).
    cbn [fst snd DB.impresoras DB.latests].
    repeat split. rewrite (update_first_app_new p f _ _ Hfind Hnew).
    reflexivity.
Qed.

Section IngestTwice.
Context {RT : Runtime}.

(** An accepted report that arrives a second time resolves the same device:
    no device is created or changed by the second call, and no latest-state
    record is added. *)
Theorem metrics_impresoras_twice (db : DB.t) (req : MetricsRequest.t)
    (empresa : Empresa.t) (b : MetricsBody.t) (host : string)
    (ahora ahoraInsert ahora' ahoraInsert' : Date) :
  accepted db req empresa b host ->
  let r1 := run (metrics_impresoras req ahora ahoraInsert) db in
  let r2 := run (metrics_impresoras req ahora' ahoraInsert') (snd r1) in
  printerId_of (fst r2) = printerId_of (fst r1)
  /\ DB.impresoras (snd r2) = DB.impresoras (snd r1)
  /\ map ImpresoraLatest.printerId (DB.latests (snd r2))
     = map ImpresoraLatest.printerId (DB.latests (snd r1)).
Proof.
  intros Hacc r1 r2.
  destruct (metrics_impresoras_accepted db req empresa b host ahora ahoraInsert
              Hacc) as [Hdb1 Hid1].
  fold r1 in Hdb1, Hid1.
  set (i1 := exec (Impresora_findOneAndUpdate (Empresa._id empresa)
                     (claveOr (MetricsBody.serial b) host)
                     (setBase empresa b host) ahoraInsert) db) in *.
  assert (Hemp1 : DB.empresas (snd r1) = DB.empresas db).
  { rewrite Hdb1. unfold i1. cbn [exec].
    destruct (find _ (DB.impresoras db)); cbn [exec fst snd DB.latests];
      destruct (find _ _); reflexivity. }
  assert (Himp1 : DB.impresoras (snd r1) = DB.impresoras (snd i1)).
  { rewrite Hdb1. apply latest_upsert_impresoras. }
  assert (Hacc1 : accepted (snd r1) req empresa b host).
  { destruct Hacc as (token & Hauth & Htok & Hemp & Hrest).
    exists token. split; [exact Hauth|]. split; [exact Htok|].
    split; [|exact Hrest]. cbn [exec fst] in *. rewrite Hemp1. exact Hemp. }
  destruct (metrics_impresoras_accepted (snd r1) req empresa b host
              ahora' ahoraInsert' Hacc1) as [Hdb2 Hid2].
  fold r2 in Hdb2, Hid2.
  destruct (impresora_upsert_twice db (snd r1) empresa b host
              ahoraInsert ahoraInsert' Himp1) as (Hfst & Himp & Hlat).
  fold i1 in Hfst.
  set (i2 := exec (Impresora_findOneAndUpdate (Empresa._id empresa)
                     (claveOr (MetricsBody.serial b) host)
                     (setBase empresa b host) ahoraInsert') (snd r1)) in *.
  rewrite Hid2, Hid1, Hdb2, Hfst.
  split; [reflexivity|]. split.
  - rewrite latest_upsert_impresoras. exact Himp.
  - destruct (latest_upsert_find (Impresora._id (fst i1)) (setLatest b ahora)
                (snd i1)) as (l1 & Hl1 & _).
    rewrite <- Hdb1 in Hl1.
    destruct (latest_upsert_pointer (Impresora._id (fst i1))
                (setLatest b ahora') (snd i2)) as (_ & _ & _ & Hids).
    cbv zeta in Hids. rewrite Hids.
    unfold find_latest in *. cbn [exec fst] in *.
    rewrite Hlat, Hl1. reflexivity.
Qed.
End IngestTwice.

(** ** Device listing after an ingestion *)

Lemma find_unique {A : Type} (key : A -> ObjectId) (l : list A) (x : A) :
  NoDup (map key l) -> In x l ->
  find (fun y => Nat.eqb (key y) (key x)) l = Some x.
Proof.
  induction l as [|y rest IH]; simpl; [intros _ []|].
  intros Hnd [<-|Hin].
  - rewrite Nat.eqb_refl. reflexivity.
  - inversion Hnd as [|? ? Hnot Hrest]; subst.
    destruct (Nat.eqb_spec (key y) (key x)) as [Heq|_].
    + contradiction Hnot. rewrite Heq. apply in_map. exact Hin.
    + apply IH; assumption.
Qed.

Lemma NoDup_map_filter {A K : Type} (key : A -> K) (g : A -> bool)
    (l : list A) :
  NoDup (map key l) -> NoDup (map key (filter g l)).
Proof.
  induction l as [|y rest IH]; simpl; [auto|].
  intros Hnd. inversion Hnd as [|? ? Hnot Hrest]; subst.
  destruct (g y); simpl; [|auto].
  constructor; [|auto].
  intros Hin. apply Hnot. apply in_map_iff in Hin.
  destruct Hin as (z & Hz & Hzin). apply filter_In in Hzin.
  rewrite <- Hz. apply in_map. tauto.
Qed.



Section ListAfterIngest.
Context {RT : Runtime}.
Variable env : option string.

End ListAfterIngest.

Section ListItems.
Context {RT : Runtime}.
Variable env : option string.

Lemma matches_q_iff (empresaId : ObjectId) (ciudad : option string)
    (i : Impresora.t) :
  matches_q empresaId ciudad i = true
  <-> Impresora.empresaId i = empresaId
      /\ (forall c, ciudad = Some c -> c <> EmptyString ->
                    Impresora.ciudad i = Some c).
Proof.
  unfold matches_q, present, truthy_string.
  rewrite andb_true_iff, Nat.eqb_eq.
  destruct ciudad as [c|].
  - destruct (String.eqb_spec c EmptyString) as [->|Hne]; cbn [negb].
    + split; intros [He _]; (split; [exact He|]); [|reflexivity].
      intros c [= <-] H. contradiction H. reflexivity.
    + destruct (Impresora.ciudad i) as [c'|].
      * rewrite String.eqb_eq. split; intros [He Hc]; (split; [exact He|]).
        -- intros c0 [= <-] _. rewrite Hc. reflexivity.
        -- specialize (Hc c eq_refl Hne). injection Hc as ->. reflexivity.
      * split; intros [He Hc]; [discriminate Hc|].
        specialize (Hc c eq_refl Hne). discriminate Hc.
  - split; intros [He _]; (split; [exact He|]); [|reflexivity].
    intros c H. discriminate H.
Qed.

(** The listing has the devices of the tenant (of the city, when the query
    names a non-empty one), each once and in store order, and no other.  A
    device that has a stored latest state is shown with one; the latest
    state shown with a device is a stored one of that very device, and a
    device is shown online only on the strength of such a state: one with a
    valid last-seen date whose raw flag is not false. *)
Theorem listar_impresoras_items (db : DB.t) (empresaId : ObjectId)
    (ciudad : option string) (now : Z) :
  (exists keep,
      map ImpresoraItem.impresora
          (listar_impresoras env db empresaId ciudad now)
      = filter keep (DB.impresoras db)
      /\ forall i,
           keep i = true
           <-> Impresora.empresaId i = empresaId
               /\ (forall c, ciudad = Some c -> c <> EmptyString ->
                             Impresora.ciudad i = Some c))
  /\ forall item,
       In item (listar_impresoras env db empresaId ciudad now) ->
       (forall l d,
           ImpresoraItem.latest item = Some (l, d) ->
           ImpresoraLatest.printerId l
           = Impresora._id (ImpresoraItem.impresora item)
           /\ In l (DB.latests db)
           /\ d = ImpresoraItem.online item)
       /\ (forall l,
             In l (DB.latests db) ->
             ImpresoraLatest.printerId l
             = Impresora._id (ImpresoraItem.impresora item) ->
             ImpresoraItem.latest item <> None)
       /\ (ImpresoraItem.online item = true ->
           exists l t,
             ImpresoraItem.latest item = Some (l, true)
             /\ ImpresoraLatest.lastSeenAt l = Some (ValidDate t)
             /\ ImpresoraLatest.online l <> Some false)
       /\ (ImpresoraItem.latest item = None ->
           ImpresoraItem.online item = false).
Proof.
  unfold listar_impresoras. split.
  - exists (matches_q empresaId ciudad). split; [|apply matches_q_iff].
    rewrite map_map. cbn [ImpresoraItem.impresora]. apply map_id.
  - intros item Hin. apply in_map_iff in Hin.
    destruct Hin as (i & <- & Hi).
    cbn [ImpresoraItem.impresora ImpresoraItem.online ImpresoraItem.latest].
    set (latest := filter _ (DB.latests db)).
    assert (Hshown : forall l,
               In l (DB.latests db) ->
               ImpresoraLatest.printerId l = Impresora._id i ->
               Map_get latest (Impresora._id i) <> None).
    { intros l Hl Hpid Hnone. unfold Map_get in Hnone.
      assert (Hlat : In l (rev latest)).
      { apply -> in_rev. unfold latest. apply filter_In. split; [exact Hl|].
        apply existsb_exists. exists (Impresora._id i).
        split; [apply in_map; exact Hi | apply Nat.eqb_eq; exact Hpid]. }
      pose proof (find_none _ _ Hnone l Hlat) as Hno.
      unfold is_printer in Hno. rewrite Hpid, Nat.eqb_refl in Hno.
      discriminate Hno. }
    destruct (Map_get latest (Impresora._id i)) as [l|] eqn:Hget;
      cbn [option_map].
    + unfold Map_get in Hget. apply find_some in Hget.
      destruct Hget as [Hl Hpid]. apply in_rev in Hl.
      unfold latest in Hl. apply filter_In in Hl. destruct Hl as [Hl _].
      unfold is_printer in Hpid. apply Nat.eqb_eq in Hpid.
      split; [|split; [|split]].
      * intros l' d [= <- <-]. auto.
      * intros l' _ _. discriminate.
      * intros Hon. unfold computeDerivedOnline in Hon.
        destruct (ImpresoraLatest.lastSeenAt l) as [[t|]|] eqn:Hseen;
          try discriminate Hon.
        2: { destruct (ImpresoraLatest.online l) as [[|]|]; discriminate Hon. }
        exists l, t. rewrite Hseen.
        assert (Hflag : ImpresoraLatest.online l <> Some false).
        { intros Hf. rewrite Hf in Hon. discriminate Hon. }
        unfold computeDerivedOnline. rewrite Hseen.
        destruct (ImpresoraLatest.online l) as [[|]|]; try contradiction (Hflag eq_refl);
          cbn [new_Date getTime isFinite negb] in *; rewrite Hon; auto.
      * discriminate.
    + split; [discriminate|]. split; [|split; [discriminate | reflexivity]].
      intros l Hl Hpid _. exact (Hshown l Hl Hpid eq_refl).
Qed.
End ListItems.

(** ** Cut ledger: a second cut, and the report of a new cut *)

Section LedgerCompose.
Context {RT : Runtime}.

(** The store after a successful register-cut, as the next request finds
    it: the device is there, its latest state points at the new cut. *)
Lemma registrar_corte_then (db : DB.t) (printerId : ObjectId)
    (ahora hoy : Date) (i : Impresora.t) (l : ImpresoraLatest.t) :
  find_impresora db printerId = Some i ->
  find_latest db printerId = Some l ->
  (forall c, In c (DB.cortes db) -> (CortesMensuales._id c < DB.nextId db)%nat) ->
  let db1 := snd (run (registrar_corte printerId ahora hoy) db) in
  let nuevo := nuevoCorte printerId i l (corte_previo db l)
                 (calcularPeriodoCorte (corte_previo db l) l hoy) ahora
                 (DB.nextId db) in
  let l1 := set_ultimoCorte (DB.nextId db) ahora l in
  DB.cortes db1 = DB.cortes db ++ [nuevo]
  /\ find_impresora db1 printerId = Some i
  /\ find_latest db1 printerId = Some l1
  /\ corte_previo db1 l1 = Some nuevo
  /\ DB.empresas db1 = DB.empresas db
  /\ (forall c, In c (DB.cortes db1) ->
                (CortesMensuales._id c < DB.nextId db1)%nat).
Proof.
  intros Hi Hl Hfresh db1 nuevo l1.
  destruct (registrar_corte_run db printerId ahora hoy i l Hi Hl) as [Hdb1 _].
  fold db1 in Hdb1. cbv zeta in Hdb1. fold nuevo in Hdb1.
  rewrite Hdb1. cbn [DB.cortes DB.empresas DB.nextId].
  split; [reflexivity|]. split; [exact Hi|]. split; [|split; [|split]].
  - unfold find_latest in *. cbn [exec fst DB.latests] in *.
    apply find_update_first; [exact Hl|].
    apply find_some_holds in Hl. exact Hl.
  - unfold corte_previo, find_corte.
    cbn [l1 set_ultimoCorte ImpresoraLatest.ultimoCorteId exec fst DB.cortes].
    apply find_app_new.
    + apply find_all_false. intros c Hc. unfold is_corte.
      apply Nat.eqb_neq. specialize (Hfresh c Hc). lia.
    + unfold is_corte, nuevo. cbn. apply Nat.eqb_refl.
  - reflexivity.
  - intros c Hc. apply in_app_or in Hc. destruct Hc as [Hc|[<-|[]]].
    + specialize (Hfresh c Hc). lia.
    + unfold nuevo. cbn. lia.
Qed.

(** Register-cut is not idempotent: called twice with no report in between
    it stores two cuts, and the second one starts and ends at the counter
    at which the first one ended, with no pages in its period. *)
Theorem registrar_corte_twice (db : DB.t) (printerId : ObjectId)
    (ahora hoy ahora' hoy' : Date) (i : Impresora.t) (l : ImpresoraLatest.t) :
  find_impresora db printerId = Some i ->
  find_latest db printerId = Some l ->
  (forall c, In c (DB.cortes db) -> (CortesMensuales._id c < DB.nextId db)%nat) ->
  let db1 := snd (run (registrar_corte printerId ahora hoy) db) in
  let db2 := snd (run (registrar_corte printerId ahora' hoy') db1) in
  exists primero segundo,
    DB.cortes db2 = (DB.cortes db ++ [primero]) ++ [segundo]
    /\ CortesMensuales._id primero <> CortesMensuales._id segundo
    /\ CortesMensuales.contadorFinGeneral primero = Some (totalPageCount l)
    /\ CortesMensuales.contadorInicioGeneral segundo = Some (totalPageCount l)
    /\ CortesMensuales.contadorFinGeneral segundo = Some (totalPageCount l)
    /\ CortesMensuales.totalPaginasGeneral segundo = Some 0.
Proof.
  intros Hi Hl Hfresh db1 db2.
  destruct (registrar_corte_then db printerId ahora hoy i l Hi Hl Hfresh)
    as (Hc1 & Hi1 & Hl1 & Hprev & _ & _).
  fold db1 in Hc1, Hi1, Hl1, Hprev.
  destruct (registrar_corte_run db1 printerId ahora' hoy' i _ Hi1 Hl1)
    as [Hdb2 _].
  fold db2 in Hdb2. cbv zeta in Hdb2. rewrite Hprev in Hdb2.
  eexists _, _. rewrite Hdb2. cbn [DB.cortes]. rewrite Hc1.
  split; [reflexivity|].
  assert (Hfin : forall prev,
             PeriodoCorte.contadorFinGeneral (calcularPeriodoCorte prev l hoy)
             = totalPageCount l).
  { intros prev. unfold calcularPeriodoCorte, totalPageCount.
    rewrite or_Z_zero. destruct prev; reflexivity. }
  split; [|split; [|split; [|split]]].
  - cbn. assert (Hn : DB.nextId db1 = S (DB.nextId db)).
    { destruct (registrar_corte_run db printerId ahora hoy i l Hi Hl) as [H _].
      fold db1 in H. rewrite H. reflexivity. }
    rewrite Hn. lia.
  - cbn [nuevoCorte CortesMensuales.contadorFinGeneral]. rewrite Hfin.
    reflexivity.
  - cbn [nuevoCorte CortesMensuales.contadorInicioGeneral
         CortesMensuales.contadorFinGeneral calcularPeriodoCorte
         PeriodoCorte.contadorInicioGeneral].
    rewrite Hfin, or_Z_zero. reflexivity.
  - cbn [nuevoCorte CortesMensuales.contadorFinGeneral calcularPeriodoCorte
         PeriodoCorte.contadorFinGeneral set_ultimoCorte
         ImpresoraLatest.lastPageCount].
    unfold totalPageCount. rewrite or_Z_zero. reflexivity.
  - cbn [nuevoCorte CortesMensuales.contadorFinGeneral
         CortesMensuales.totalPaginasGeneral calcularPeriodoCorte
         PeriodoCorte.totalPaginasGeneral set_ultimoCorte
         ImpresoraLatest.lastPageCount].
    rewrite Hfin, !or_Z_zero. fold (totalPageCount l).
    f_equal. lia.
Qed.
End LedgerCompose.

Section ReportCompose.
Context {RT : Runtime}.

(** What the report route answers when the latest state, its cut and the
    device are found. *)
Lemma generar_pdf_run_found (db : DB.t) (printerId : ObjectId) (hoy : Date)
    (l : ImpresoraLatest.t) (corte : CortesMensuales.t) (i : Impresora.t) :
  find_latest db printerId = Some l ->
  corte_previo db l = Some corte ->
  find_impresora db printerId = Some i ->
  run (generar_pdf printerId hoy) db
  = (fst (run (generar_pdf_enviar corte
                 (Some (i, fst (exec (Empresa_findById (Impresora.empresaId i))
                                     db)))
                 l hoy (corte_anterior db corte)) db), db).
Proof.
  unfold find_latest, corte_previo, corte_anterior, find_corte, find_impresora.
  cbn [exec fst]. intros Hl Hc Hi.
  unfold generar_pdf. rewrite run_Await. cbn [exec fst snd]. rewrite Hl.
  destruct (ImpresoraLatest.ultimoCorteId l) as [id|]; [|discriminate].
  rewrite run_Await. cbn [exec fst snd]. rewrite Hc.
  rewrite run_Await. cbn [exec fst snd]. rewrite Hi.
  rewrite run_Await. cbn [exec fst snd].
  destruct (CortesMensuales.ultimoCorteId corte) as [a|];
    [rewrite run_Await; cbn [exec fst snd]|];
    apply generar_pdf_enviar_run.
Qed.

Lemma name_ok_iff (name : json) :
  truthy_json name
  && negb (match name with JString _ => true | _ => false end) = false
  <-> (truthy_json name = true -> exists n, name = JString n).
Proof.
  destruct name as [| |b|n|str|xs|fields]; cbn [negb].
  - cbn. split; [discriminate | reflexivity].
  - cbn. split; [discriminate | reflexivity].
  - rewrite andb_true_r. cbn [truthy_json]. split.
    + intros -> H. discriminate H.
    + intros H. destruct b; [|reflexivity].
      destruct (H eq_refl) as (n & Hn). discriminate Hn.
  - rewrite andb_true_r. split.
    + intros -> H. discriminate H.
    + intros H. destruct (truthy_json (JNumber n)); [|reflexivity].
      destruct (H eq_refl) as (n' & Hn). discriminate Hn.
  - rewrite andb_false_r. split; [|reflexivity].
    intros _ _. exists str. reflexivity.
  - cbn. split; [discriminate|].
    intros H. destruct (H eq_refl) as (n & Hn). discriminate Hn.
  - cbn. split; [discriminate|].
    intros H. destruct (H eq_refl) as (n & Hn). discriminate Hn.
Qed.

Lemma dibujar_supply_dibujable (index : nat) (supply : json) :
  dibujar_supply index supply = None <-> supply_dibujable supply.
Proof.
  unfold supply_dibujable. rewrite <- name_ok_iff.
  assert (H : (if truthy_json (optional_get supply "name")
                  && negb (match optional_get supply "name" with
                           | JString _ => true
                           | _ => false
                           end)
               then Some (SupplyNameNotString index)
               else if negb (PDFKit_draws supply)
                    then Some (PDFKitRejects index)
                    else None) = None
              <-> truthy_json (optional_get supply "name")
                  && negb (match optional_get supply "name" with
                           | JString _ => true
                           | _ => false
                           end) = false
                  /\ PDFKit_draws supply = true).
  { destruct (truthy_json _ && _); [split; [discriminate|intros [H _]; discriminate H]|].
    destruct (PDFKit_draws supply); cbn [negb]; split; auto;
      try discriminate. intros [_ H]; discriminate H. }
  destruct supply as [| |b|n|str|xs|fields];
    try (cbn [dibujar_supply]; split;
         [discriminate | intros (H1 & H2 & _); congruence]).
  all: unfold dibujar_supply; rewrite H; split;
    [ intros [H1 H2]; (split; [discriminate|]); (split; [discriminate|]);
      split; assumption
    | intros (_ & _ & H1 & H2); split; assumption ].
Qed.

Lemma dibujar_supplies_dibujable (index : nat) (supplies : list json) :
  dibujar_supplies index supplies = None
  <-> Forall supply_dibujable (firstn (4 - index) supplies).
Proof.
  revert index. induction supplies as [|supply rest IH]; intros index.
  - rewrite firstn_nil. split; [constructor | reflexivity].
  - cbn [dibujar_supplies].
    destruct (Nat.leb_spec 4 index) as [Hge|Hlt].
    + replace (4 - index)%nat with 0%nat by lia.
      split; [constructor | reflexivity].
    + replace (4 - index)%nat with (S (4 - S index)) by lia.
      cbn [firstn]. rewrite Forall_cons_iff, <- IH,
        <- (dibujar_supply_dibujable index).
      destruct (dibujar_supply index supply); split.
      * discriminate.
      * intros [H _]. discriminate H.
      * auto.
      * intros [_ H]. exact H.
Qed.

(** The report asked for right after a successful register-cut leaves the
    store as it is.  It is sent exactly when the first four supplies of the
    latest state can be drawn and the name of the device (its printer name,
    or else its host) has only characters that a header may hold, and is
    answered 500 otherwise.  A report that is sent shows the counters of
    the cut just stored and labels the period as the first one. *)
Theorem generar_pdf_after_registrar_corte (db : DB.t) (printerId : ObjectId)
    (ahora hoy hoy' : Date) (i : Impresora.t) (l : ImpresoraLatest.t) :
  find_impresora db printerId = Some i ->
  find_latest db printerId = Some l ->
  (forall c, In c (DB.cortes db) -> (CortesMensuales._id c < DB.nextId db)%nat) ->
  let db1 := snd (run (registrar_corte printerId ahora hoy) db) in
  let calculos := calcularPeriodoCorte (corte_previo db l) l hoy in
  let res := run (generar_pdf printerId hoy') db1 in
  let sendable :=
    Forall supply_dibujable
           (firstn 4 (or_array (ImpresoraLatest.lastSupplies l)))
    /\ checkInvalidHeaderChar
         (or_string (Impresora.printerName i) (Impresora.host i)) = false in
  snd res = db1
  /\ (sendable ->
      exists pdf,
        fst res = SendPdf pdf
        /\ Pdf.stats pdf
           = [ ("INICIO PERÍODO",
                texto_inicio
                  (Some (PeriodoCorte.contadorInicioGeneral calculos)));
               ("FIN PERÍODO",
                toLocaleString (PeriodoCorte.contadorFinGeneral calculos));
               ("CONSUMO TOTAL",
                toLocaleString (PeriodoCorte.totalPaginasGeneral calculos)) ]
        /\ nth_error (Pdf.info pdf) 5 = Some "Período: Desde instalación")
  /\ (~ sendable -> exists err, fst res = generar_pdf_catch err).
Proof.
  intros Hi Hl Hfresh db1 calculos res sendable.
  destruct (registrar_corte_then db printerId ahora hoy i l Hi Hl Hfresh)
    as (_ & Hi1 & Hl1 & Hprev & _ & _).
  fold db1 in Hi1, Hl1, Hprev.
  unfold res.
  rewrite (generar_pdf_run_found db1 printerId hoy' _ _ i Hl1 Hprev Hi1).
  cbn [fst snd]. split; [reflexivity|].
  unfold generar_pdf_enviar, generarPDFProfesional, datosPDF, with_periodo,
    nuevoCorte.
  cbn [CortesMensuales.contadorFinGeneral CortesMensuales.totalPaginasGeneral
       CortesMensuales.suppliesFin CortesMensuales.contadorInicioGeneral
       CortesMensuales.periodo].
  pose proof (dibujar_supplies_dibujable 0
                (or_array (ImpresoraLatest.lastSupplies l))) as Hdib.
  change (4 - 0)%nat with 4%nat in Hdib.
  unfold sendable.
  remember (or_array (ImpresoraLatest.lastSupplies l)) as xs eqn:Hxs.
  cbn [or_array].
  destruct (dibujar_supplies 0 xs) as [err|] eqn:Hdraw.
  - split.
    + intros [Hall _]. apply Hdib in Hall. discriminate Hall.
    + intros _. exists err. reflexivity.
  - destruct (checkInvalidHeaderChar
                (or_string (Impresora.printerName i) (Impresora.host i)))
      eqn:Hhead.
    + split.
      * intros [_ H]. discriminate H.
      * intros _. exists InvalidHeaderChar. reflexivity.
    + split.
      * intros _. eexists. split; [reflexivity|]. split; reflexivity.
      * intros Hno. exfalso. apply Hno. split; [|reflexivity].
        apply Hdib. reflexivity.
Qed.

(** The report route never writes, and without a stored cut to report on
    (no latest state, no pointer on it, or a pointer to a cut that is not
    stored) it answers 400. *)
Theorem generar_pdf_without_cut (db : DB.t) (printerId : ObjectId)
    (hoy : Date) :
  snd (run (generar_pdf printerId hoy) db) = db
  /\ (match find_latest db printerId with
      | Some l => corte_previo db l = None
      | None => True
      end ->
      fst (run (generar_pdf printerId hoy) db) = generar_pdf_falta_corte)
  /\ (fst (run (generar_pdf printerId hoy) db) = generar_pdf_falta_corte ->
      match find_latest db printerId with
      | Some l => corte_previo db l = None
      | None => True
      end).
Proof.
  unfold find_latest, corte_previo, find_corte. cbn [exec fst].
  unfold generar_pdf. rewrite run_Await. cbn [exec fst snd].
  destruct (find (is_printer printerId) (DB.latests db)) as [l|];
    [|repeat split; reflexivity].
  destruct (ImpresoraLatest.ultimoCorteId l) as [id|];
    [|repeat split; reflexivity].
  rewrite run_Await. cbn [exec fst snd].
  destruct (find (is_corte id) (DB.cortes db)) as [corte|];
    [|repeat split; reflexivity].
  rewrite run_Await. cbn [exec fst snd].
  assert (Hsend : forall imp ant,
             run (generar_pdf_enviar corte imp l hoy ant) db
             = (fst (run (generar_pdf_enviar corte imp l hoy ant) db), db)
             /\ fst (run (generar_pdf_enviar corte imp l hoy ant) db)
                <> generar_pdf_falta_corte).
  { intros imp ant. split; [apply generar_pdf_enviar_run|].
    unfold generar_pdf_enviar.
    destruct (generarPDFProfesional _ _); [|discriminate].
    destruct imp as [[i e]|]; [|discriminate].
    destruct (checkInvalidHeaderChar _); discriminate. }
  assert (Hcont : forall imp,
             let p := match CortesMensuales.ultimoCorteId corte with
                      | Some anterior =>
                        Await (CortesMensuales_findById anterior)
                              (fun a => generar_pdf_enviar corte imp l hoy a)
                      | None => generar_pdf_enviar corte imp l hoy None
                      end in
             snd (run p db) = db /\ fst (run p db) <> generar_pdf_falta_corte).
  { intros imp. cbv zeta.
    destruct (CortesMensuales.ultimoCorteId corte) as [a|].
    - rewrite run_Await. cbn [exec fst snd].
      destruct (Hsend imp (find (is_corte a) (DB.cortes db))) as [H1 H2].
      rewrite H1. cbn [fst snd]. split; [reflexivity|]. rewrite H1 in H2. exact H2.
    - destruct (Hsend imp None) as [H1 H2].
      rewrite H1. cbn [fst snd]. split; [reflexivity|]. rewrite H1 in H2. exact H2. }
  destruct (find _ (DB.impresoras db)) as [i|].
  - rewrite run_Await. cbn [exec fst snd].
    destruct (Hcont (Some (i, find (fun e => Nat.eqb (Empresa._id e)
                                            (Impresora.empresaId i))
                                   (DB.empresas db)))) as [H1 H2].
    split; [exact H1|]. split; [discriminate | intros H; contradiction].
  - destruct (Hcont None) as [H1 H2].
    split; [exact H1|]. split; [discriminate | intros H; contradiction].
Qed.
End ReportCompose.

(** The error paths of the report on examples: a header takes the
    characters up to U+00FF and no other; a null supply and a supply whose
    name is a number make the renderer throw. *)
Lemma generar_pdf_errores :
  checkInvalidHeaderChar "Recepción 2" = false
  /\ checkInvalidHeaderChar "Sala – 1" = true
  /\ dibujar_supplies (RT := plain_runtime) 0
                      [supply "black" 40 100; JNull]
     = Some (SupplyNullish 1)
  /\ dibujar_supplies (RT := plain_runtime) 0
                      [JObject [("name", JNumber (Num 7))]]
     = Some (SupplyNameNotString 0)
  /\ dibujar_supplies (RT := plain_runtime) 0
                      [supply "c" 1 2; supply "m" 1 2; supply "y" 1 2;
                       supply "k" 1 2; JNull]
     = None.
Proof. repeat split; reflexivity. Qed.

(** ** Cut ledger: what a cut leaves alone *)

Lemma find_update_first_view {A B : Type} (p q : A -> bool) (f : A -> A)
    (v : A -> B) (l : list A) :
  (forall x, q (f x) = q x) ->
  (forall x, v (f x) = v x) ->
  option_map v (find q (update_first p f l)) = option_map v (find q l).
Proof.
  intros Hq Hv. induction l as [|x rest IH]; simpl; [reflexivity|].
  destruct (p x); simpl.
  - rewrite Hq. destruct (q x); simpl; [rewrite Hv|]; reflexivity.
  - destruct (q x); [reflexivity | exact IH].
Qed.

Lemma computeDerivedOnline_telemetry {RT : Runtime} (env : option string)
    (a b : option ImpresoraLatest.t) (now : Z) :
  option_map telemetry_of a = option_map telemetry_of b ->
  computeDerivedOnline env a now = computeDerivedOnline env b now.
Proof.
  destruct a as [la|], b as [lb|]; cbn; try discriminate; [|reflexivity].
  unfold telemetry_of. intros [= _ _ _ _ Hseen _ Hon].
  rewrite Hseen, Hon. reflexivity.
Qed.

Section LedgerKeeps.
Context {RT : Runtime}.

Lemma registrar_corte_not_found_db (db : DB.t) (printerId : ObjectId)
    (ahora hoy : Date) :
  find_impresora db printerId = None \/ find_latest db printerId = None ->
  snd (run (registrar_corte printerId ahora hoy) db) = db.
Proof.
  unfold find_impresora, find_latest. cbn [exec fst].
  intros H. unfold registrar_corte. cbn [run exec].
  destruct (find _ (DB.impresoras db)) as [i|] eqn:Hi.
  - destruct H as [H|H]; [discriminate|].
    cbn [run exec]. rewrite H. reflexivity.
  - reflexivity.
Qed.

(** Whatever it answers, register-cut changes no device and no tenant, and
    nothing of what the latest states hold of the last reports; so the
    derived online state of every device is what it was. *)
Theorem registrar_corte_keeps_telemetry (db : DB.t) (printerId : ObjectId)
    (ahora hoy : Date) :
  let db' := snd (run (registrar_corte printerId ahora hoy) db) in
  DB.impresoras db' = DB.impresoras db
  /\ DB.empresas db' = DB.empresas db
  /\ map ImpresoraLatest.printerId (DB.latests db')
     = map ImpresoraLatest.printerId (DB.latests db)
  /\ (forall pid,
        option_map telemetry_of (find_latest db' pid)
        = option_map telemetry_of (find_latest db pid))
  /\ (forall env pid now,
        computeDerivedOnline env (find_latest db' pid) now
        = computeDerivedOnline env (find_latest db pid) now).
Proof.
  cbv zeta.
  assert (Hmain :
            let db' := snd (run (registrar_corte printerId ahora hoy) db) in
            DB.impresoras db' = DB.impresoras db
            /\ DB.empresas db' = DB.empresas db
            /\ map ImpresoraLatest.printerId (DB.latests db')
               = map ImpresoraLatest.printerId (DB.latests db)
            /\ (forall pid,
                  option_map telemetry_of (find_latest db' pid)
                  = option_map telemetry_of (find_latest db pid))).
  { cbv zeta.
    destruct (find_impresora db printerId) as [i|] eqn:Hi.
    2: { rewrite (registrar_corte_not_found_db db printerId ahora hoy
                    (or_introl Hi)). repeat split; reflexivity. }
    destruct (find_latest db printerId) as [l|] eqn:Hl.
    2: { rewrite (registrar_corte_not_found_db db printerId ahora hoy
                    (or_intror Hl)). repeat split; reflexivity. }
    destruct (registrar_corte_run db printerId ahora hoy i l Hi Hl) as [Hdb _].
    cbv zeta in Hdb. rewrite Hdb. cbn [DB.impresoras DB.empresas DB.latests].
    split; [reflexivity|]. split; [reflexivity|]. split.
    - apply map_update_first. intros x _. reflexivity.
    - intros pid. unfold find_latest. cbn [exec fst DB.latests].
      apply find_update_first_view; intros x; reflexivity. }
  cbv zeta in Hmain. destruct Hmain as (H1 & H2 & H3 & H4).
  repeat split; try assumption.
  intros env pid now. apply computeDerivedOnline_telemetry. apply H4.
Qed.
End LedgerKeeps.

(** * Licences (the server module) *)

(** ** The three licence checks *)

Section LicenceChecks.
Context {RT : Runtime} {SRT : ServerRuntime}.

Lemma login_licencia_vigente (u : Usuario.t) (ahora : Z) :
  login_licencia u ahora = Concedido <-> licencia_vigente u ahora = true.
Proof.
  unfold login_licencia, licencia_vigente.
  destruct (Usuario.activo u && fecha_gt (Usuario.fechaExpiracionLicencia u) ahora);
    [cbn; tauto|].
  destruct (Usuario.licenciaTrial u && fecha_gt (Usuario.fechaExpiracionTrial u) ahora);
    [cbn; tauto|].
  cbn [orb].
  destruct (Usuario.licenciaTrial u && fecha_le (Usuario.fechaExpiracionTrial u) ahora).
  { destruct (Usuario.fechaExpiracionTrial u); split; discriminate. }
  destruct (negb (Usuario.plan u =? "trial")%string && negb (Usuario.activo u));
    [split; discriminate|].
  destruct (Usuario.activo u && fecha_le (Usuario.fechaExpiracionLicencia u) ahora);
    split; discriminate.
Qed.

(** The login route, the licence query and the licence middleware let a
    user in under one and the same condition: the account is active with a
    licence expiry in the future, or the trial flag is set with a trial
    expiry in the future. *)
Theorem licence_checks_agree (u : Usuario.t) (ahora : Z) :
  (login_licencia u ahora = Concedido <-> licencia_vigente u ahora = true)
  /\ Verificacion.puedeAcceder (verificar_licencia_usuario u ahora)
     = licencia_vigente u ahora
  /\ (middleware_licencia u ahora = Next u <-> licencia_vigente u ahora = true)
  /\ (forall status codigo,
        middleware_licencia u ahora = Rechazo status codigo -> status = 403).
Proof.
  split; [apply login_licencia_vigente|]. split; [|split].
  - unfold verificar_licencia_usuario, licencia_vigente.
    destruct (Usuario.activo u && fecha_gt (Usuario.fechaExpiracionLicencia u) ahora);
      [reflexivity|].
    destruct (Usuario.licenciaTrial u && fecha_gt (Usuario.fechaExpiracionTrial u) ahora);
      [reflexivity|].
    destruct (Usuario.licenciaTrial u && fecha_le (Usuario.fechaExpiracionTrial u) ahora);
      reflexivity.
  - unfold middleware_licencia, licencia_vigente.
    destruct (Usuario.activo u && fecha_gt (Usuario.fechaExpiracionLicencia u) ahora);
      [cbn; tauto|].
    destruct (Usuario.licenciaTrial u && fecha_gt (Usuario.fechaExpiracionTrial u) ahora);
      [cbn; tauto|].
    cbn [orb].
    destruct (Usuario.licenciaTrial u && fecha_le (Usuario.fechaExpiracionTrial u) ahora);
      [split; discriminate|].
    destruct (negb (Usuario.plan u =? "trial")%string && negb (Usuario.activo u));
      split; discriminate.
  - intros status codigo. unfold middleware_licencia.
    repeat match goal with
           | |- context [if ?c then _ else _] => destruct c
           end; intros [= <- _] || discriminate; reflexivity.
Qed.

(** For a user as registration creates them (trial flag set, a valid trial
    expiry date), each check that denies access names the expired trial:
    pending payment, an expired licence or an invalid licence are never the
    reason given. *)
Theorem licence_denial_is_trial_expired (u : Usuario.t) (ahora t : Z) :
  Usuario.licenciaTrial u = true ->
  Usuario.fechaExpiracionTrial u = Fecha (ValidDate t) ->
  licencia_vigente u ahora = false ->
  t <= ahora
  /\ (exists mensaje, login_licencia u ahora = Denegado mensaje "TRIAL_EXPIRADO")
  /\ middleware_licencia u ahora = Rechazo 403 "TRIAL_EXPIRADO"
  /\ Verificacion.tipo (verificar_licencia_usuario u ahora) = "trial_expirado".
Proof.
  intros Htrial Hexp Hno.
  unfold licencia_vigente in Hno. apply orb_false_elim in Hno.
  destruct Hno as [Hlic Htr].
  rewrite Htrial, Hexp in Htr. cbn in Htr. apply Z.ltb_ge in Htr.
  assert (Hle : fecha_le (Fecha (ValidDate t)) ahora = true).
  { cbn. apply Z.leb_le. exact Htr. }
  assert (Hgt : fecha_gt (Fecha (ValidDate t)) ahora = false).
  { cbn. apply Z.ltb_ge. exact Htr. }
  split; [exact Htr|].
  unfold login_licencia, middleware_licencia, verificar_licencia_usuario.
  rewrite Hlic, Htrial, Hexp, Hgt, Hle. cbn.
  split; [eexists; reflexivity|]. split; reflexivity.
Qed.
End LicenceChecks.

(** ** Registration *)

Section RegistroFacts.
Context {RT : Runtime} {SRT : ServerRuntime}.

Lemma registro_cases (usuarios : list Usuario.t) (body : RegistroBody.t)
    (salt : string) (fechaActual hoy : Date) :
  let res := registro usuarios body salt fechaActual hoy in
  (exists email password ciudad empresaId,
      RegistroBody.email body = Some email
      /\ RegistroBody.password body = Some password
      /\ RegistroBody.ciudad body = Some ciudad
      /\ RegistroBody.empresaId body = Some empresaId
      /\ truthy_string email = true /\ truthy_string password = true
      /\ truthy_string ciudad = true /\ truthy_string empresaId = true
      /\ includes planesValidos
           (plan_of body)
         = true
      /\ find (fun u => String.eqb (Usuario.email u) email) usuarios = None
      /\ 6 <= String_length password
      /\ ((exists expira,
             setDate_plus hoy (diasTrial_of body) = ValidDate expira
             /\ registro_status (fst res) = 200
             /\ snd res
                = usuarios
                  ++ [nuevoUsuario email password ciudad empresaId
                        (plan_of body) (diasTrial_of body) salt
                        fechaActual hoy])
          \/ (setDate_plus hoy (diasTrial_of body) = InvalidDate
              /\ registro_status (fst res) = 500
              /\ snd res = usuarios)))
  \/ (registro_status (fst res) = 400 /\ snd res = usuarios
      /\ ~ (exists email password,
              RegistroBody.email body = Some email
              /\ RegistroBody.password body = Some password
              /\ present (RegistroBody.email body) = true
              /\ present (RegistroBody.password body) = true
              /\ present (RegistroBody.ciudad body) = true
              /\ present (RegistroBody.empresaId body) = true
              /\ includes planesValidos
                   (plan_of body) = true
              /\ find (fun u => String.eqb (Usuario.email u) email) usuarios
                 = None
              /\ 6 <= String_length password)).
Proof.
  cbv zeta. unfold registro.
  destruct (RegistroBody.email body) as [email|];
    [|right; split; [reflexivity|split; [reflexivity|]];
      intros (e & p & H & _); discriminate H].
  destruct (RegistroBody.password body) as [password|];
    [|right; split; [reflexivity|split; [reflexivity|]];
      intros (e & p & _ & H & _); discriminate H].
  destruct (RegistroBody.ciudad body) as [ciudad|];
    [|right; split; [reflexivity|split; [reflexivity|]];
      intros (e & p & _ & _ & _ & _ & H & _); discriminate H].
  destruct (RegistroBody.empresaId body) as [empresaId|];
    [|right; split; [reflexivity|split; [reflexivity|]];
      intros (e & p & _ & _ & _ & _ & _ & H & _); discriminate H].
  cbn [present].
  destruct (truthy_string email) eqn:He; cbn [negb orb];
    [|right; split; [reflexivity|split; [reflexivity|]];
      intros (e & p & _ & _ & H & _); discriminate H].
  destruct (truthy_string password) eqn:Hp; cbn [negb orb];
    [|right; split; [reflexivity|split; [reflexivity|]];
      intros (e & p & _ & _ & _ & H & _); discriminate H].
  destruct (truthy_string ciudad) eqn:Hc; cbn [negb orb];
    [|right; split; [reflexivity|split; [reflexivity|]];
      intros (e & p & _ & _ & _ & _ & H & _); discriminate H].
  destruct (truthy_string empresaId) eqn:Hi; cbn [negb orb];
    [|right; split; [reflexivity|split; [reflexivity|]];
      intros (e & p & _ & _ & _ & _ & _ & H & _); discriminate H].
  destruct (includes planesValidos _) eqn:Hplan; cbn [negb];
    [|right; split; [reflexivity|split; [reflexivity|]];
      intros (e & p & _ & _ & _ & _ & _ & _ & H & _); discriminate H].
  destruct (find _ usuarios) as [u|] eqn:Hfind.
  { right. split; [reflexivity|split; [reflexivity|]].
    intros (e & p & [= <-] & _ & _ & _ & _ & _ & _ & H & _).
    rewrite Hfind in H. discriminate H. }
  destruct (Z.ltb_spec (String_length password) 6) as [Hlt|Hge].
  { right. split; [reflexivity|split; [reflexivity|]].
    intros (e & p & _ & [= <-] & _ & _ & _ & _ & _ & _ & H). lia. }
  left. exists email, password, ciudad, empresaId.
  repeat (split; [first [reflexivity | assumption]|]).
  destruct (setDate_plus hoy (diasTrial_of body)) as [expira|].
  - left. exists expira. repeat split; reflexivity.
  - right. repeat split; reflexivity.
Qed.



(** A second registration with an email that a successful registration has
    just taken is answered 400 and adds no user, whatever else it says. *)
Theorem registro_twice (usuarios : list Usuario.t)
    (body body' : RegistroBody.t) (salt salt' : string)
    (fechaActual hoy fechaActual' hoy' : Date) :
  let res := registro usuarios body salt fechaActual hoy in
  let res' := registro (snd res) body' salt' fechaActual' hoy' in
  registro_status (fst res) = 200 ->
  RegistroBody.email body' = RegistroBody.email body ->
  registro_status (fst res') = 400 /\ snd res' = snd res.
Proof.
  cbv zeta. intros Hok Hemail.
  destruct (registro_cases usuarios body salt fechaActual hoy)
    as [(email & password & ciudad & empresaId & H1 & _ & _ & _ & _ & _
         & _ & _ & _ & Hfind & _
         & [(expira & _ & _ & Hdb)|(_ & Hst & _)])
       |(Hst & _)]; cbv zeta in *;
    [|rewrite Hst in Hok; discriminate Hok
     |rewrite Hst in Hok; discriminate Hok].
  destruct (registro_cases (snd (registro usuarios body salt fechaActual hoy))
              body' salt' fechaActual' hoy')
    as [(email' & password' & ciudad' & empresaId' & H1' & _ & _ & _ & _ & _
         & _ & _ & _ & Hfind' & _)
       |(Hst' & Hdb' & _)]; cbv zeta in *; [|split; assumption].
  exfalso. rewrite Hemail, H1 in H1'. injection H1' as <-.
  rewrite Hdb in Hfind'.
  assert (Hin : In (nuevoUsuario email password ciudad empresaId
                      (plan_of body) (diasTrial_of body) salt fechaActual hoy)
                   (usuarios
                    ++ [nuevoUsuario email password ciudad empresaId
                          (plan_of body) (diasTrial_of body) salt
                          fechaActual hoy])).
  { apply in_or_app; right; left; reflexivity. }
  pose proof (find_none _ _ Hfind' _ Hin) as Hno.
  cbn in Hno. rewrite String.eqb_refl in Hno. discriminate Hno.
Qed.
End RegistroFacts.

(** ** Login *)

Lemma Math_ceil_div_bounds (x d : Z) :
  0 < d ->
  (Math_ceil_div x d - 1) * d < x <= Math_ceil_div x d * d.
Proof.
  intros Hd. unfold Math_ceil_div.
  pose proof (Z.mul_div_le (- x) d Hd).
  pose proof (Z.mul_succ_div_gt (- x) d Hd).
  nia.
Qed.

Lemma find_update_first_cases {A : Type} (p q : A -> bool) (f : A -> A)
    (l : list A) :
  (forall x, q (f x) = q x) ->
  match find q l, find q (update_first p f l) with
  | Some y, Some y' => In y l /\ (y' = y \/ y' = f y)
  | None, None => True
  | _, _ => False
  end.
Proof.
  intros Hq. induction l as [|x rest IH]; simpl; [exact I|].
  destruct (p x) eqn:Hp; simpl.
  - rewrite Hq. destruct (q x); [split; [left|right]; reflexivity|].
    destruct (find q rest) as [y|] eqn:Hy; [|exact I].
    split; [right; apply (find_some _ _ Hy) | left; reflexivity].
  - destruct (q x); [split; [left|left]; reflexivity|].
    destruct (find q rest), (find q (update_first p f rest)); try tauto.
Qed.

Section LoginFacts.
Context {RT : Runtime} {SRT : ServerRuntime}.


(** The days of trial that a successful login reports are the remaining
    time rounded up to whole days: at least one, and less than one day more
    than what remains. *)
Theorem login_dias_restantes (usuarios : list Usuario.t)
    (email password ciudad : string) (ahora : Z) (u : Usuario.t)
    (dias : number) :
  login usuarios email password ciudad ahora = LoginOk u (Some dias) ->
  exists expira d,
    fecha_number (Usuario.fechaExpiracionTrial u) = Num expira
    /\ dias = Num d
    /\ 1 <= d
    /\ (d - 1) * ms_per_day < expira - ahora <= d * ms_per_day.
Proof.
  unfold login.
  destruct (find _ usuarios) as [u'|]; [|discriminate].
  destruct (bcrypt_compare _ _); cbn [negb]; [|discriminate].
  destruct (login_licencia u' ahora); try discriminate.
  destruct (Usuario.licenciaTrial u' && fecha_gt (Usuario.fechaExpiracionTrial u') ahora)
    eqn:Htrial; [|discriminate].
  intros [= <- <-].
  apply andb_true_iff in Htrial. destruct Htrial as [_ Hgt].
  unfold fecha_gt in Hgt. unfold dias_restantes.
  destruct (fecha_number (Usuario.fechaExpiracionTrial u')) as [expira|];
    [|discriminate Hgt].
  cbn in Hgt. apply Z.ltb_lt in Hgt. cbn [number_sub].
  exists expira, (Math_ceil_div (expira - ahora) ms_per_day).
  split; [reflexivity|]. split; [reflexivity|].
  pose proof (Math_ceil_div_bounds (expira - ahora) ms_per_day) as Hb.
  unfold ms_per_day in *. lia.
Qed.

Lemma login_licencia_set_activo (u : Usuario.t) (ahora : Z) :
  0 <= ahora ->
  Usuario.fechaExpiracionLicencia u = FechaNull
  \/ Usuario.fechaExpiracionLicencia u = FechaUndefined ->
  match login_licencia (set_activo u) ahora, login_licencia u ahora with
  | Concedido, Concedido => True
  | Denegado _ _, Denegado _ _ => True
  | Lanza, Lanza => True
  | _, _ => False
  end.
Proof.
  intros Hpos Hlic. unfold login_licencia, set_activo.
  cbn [Usuario.activo Usuario.fechaExpiracionLicencia Usuario.licenciaTrial
       Usuario.fechaExpiracionTrial Usuario.plan].
  assert (Hgt : fecha_gt (Usuario.fechaExpiracionLicencia u) ahora = false).
  { destruct Hlic as [-> | ->]; cbn; [apply Z.ltb_ge; exact Hpos | reflexivity]. }
  rewrite Hgt, !andb_false_r. cbn [andb].
  destruct (Usuario.licenciaTrial u && fecha_gt (Usuario.fechaExpiracionTrial u) ahora);
    [exact I|].
  destruct (Usuario.licenciaTrial u && fecha_le (Usuario.fechaExpiracionTrial u) ahora).
  { destruct (Usuario.fechaExpiracionTrial u); exact I. }
  repeat match goal with
         | |- context [if ?c then _ else _] => destruct c
         end; exact I.
Qed.

(** Activation alone restores no access.  While no user has a licence
    expiry date, which no route sets, every login is answered with the same
    status after an activation as before it. *)
Theorem activar_then_login (usuarios : list Usuario.t) (activado : string)
    (email password ciudad : string) (ahora : Z) :
  0 <= ahora ->
  (forall u, In u usuarios ->
             Usuario.fechaExpiracionLicencia u = FechaNull
             \/ Usuario.fechaExpiracionLicencia u = FechaUndefined) ->
  login_status (login (snd (activar usuarios activado))
                      email password ciudad ahora)
  = login_status (login usuarios email password ciudad ahora).
Proof.
  intros Hpos Hnull. unfold activar.
  destruct (find (fun u => String.eqb (Usuario.email u) activado) usuarios)
    as [a|]; [|reflexivity].
  cbn [snd]. unfold login.
  pose proof (find_update_first_cases
                (fun u => String.eqb (Usuario.email u) activado)
                (es_usuario email ciudad) set_activo usuarios
                (fun x => eq_refl)) as Hcases.
  destruct (find (es_usuario email ciudad) usuarios) as [y|];
    destruct (find (es_usuario email ciudad) (update_first _ set_activo usuarios))
      as [y'|]; try contradiction; [|reflexivity].
  destruct Hcases as [Hin [-> | ->]]; [reflexivity|].
  cbn [set_activo Usuario.password].
  destruct (bcrypt_compare password (Usuario.password y)); cbn [negb];
    [|reflexivity].
  pose proof (login_licencia_set_activo y ahora Hpos (Hnull y Hin)) as H.
  destruct (login_licencia (set_activo y) ahora), (login_licencia y ahora);
    try contradiction; reflexivity.
Qed.
End LoginFacts.

(** * Tenants, folders and assignments *)

(** ** Deleting a tenant *)

Lemma remove_first_key_gone {A K : Type} (key : A -> K) (p : A -> bool)
    (l : list A) (x : A) :
  NoDup (map key l) -> find p l = Some x ->
  ~ In (key x) (map key (remove_first p l)).
Proof.
  induction l as [|z rest IH]; simpl; [discriminate|].
  intros Hnd. inversion Hnd as [|? ? Hnot Hrest]; subst.
  destruct (p z) eqn:Hz.
  - intros [= <-]. exact Hnot.
  - intros Hfind [Heq|Hin].
    + apply Hnot. rewrite Heq. apply in_map.
      apply (find_some _ _ Hfind).
    + exact (IH Hrest Hfind Hin).
Qed.

Lemma filter_filter_none {A : Type} (p q : A -> bool) (l : list A) :
  (forall x, p x = true -> q x = true) ->
  filter p (filter (fun x => negb (q x)) l) = [].
Proof.
  intros Hpq. induction l as [|x rest IH]; simpl; [reflexivity|].
  destruct (q x) eqn:Hq; simpl; [exact IH|].
  destruct (p x) eqn:Hp; [|exact IH].
  rewrite (Hpq x Hp) in Hq. discriminate Hq.
Qed.

Section EliminarEmpresaFacts.
Context {RT : Runtime}.
Variable latest_de_empresa : ObjectId -> ImpresoraLatest.t -> bool.

(** Deleting a tenant that is not stored changes nothing.  Deleting a
    stored one leaves no device and no cut of it, and every device and cut
    of the other tenants; the tenant's listing is empty from then on, and
    while no two tenants share an API key, a report with the deleted
    tenant's key is rejected and writes nothing. *)
Theorem eliminar_empresa_cascade (db : DB.t) (id : ObjectId) :
  let res := eliminar_empresa latest_de_empresa db id in
  (fst res = None -> snd res = db)
  /\ (forall empresa,
        fst res = Some empresa ->
        (forall i, In i (DB.impresoras (snd res))
                   <-> In i (DB.impresoras db) /\ Impresora.empresaId i <> id)
        /\ (forall c, In c (DB.cortes (snd res))
                      <-> In c (DB.cortes db)
                          /\ CortesMensuales.empresaId c <> id)
        /\ (forall env ciudad now,
              listar_impresoras env (snd res) id ciudad now = [])
        /\ (NoDup (map Empresa.apiKey (DB.empresas db)) ->
            forall req ahora ahoraInsert,
              MetricsRequest.authorization req
              = Some ("Bearer " ++ Empresa.apiKey empresa)%string ->
              let r := run (metrics_impresoras req ahora ahoraInsert)
                           (snd res) in
              snd r = snd res /\ status_of (fst r) <> 200)).
Proof.
  cbv zeta. unfold eliminar_empresa.
  destruct (find (fun e => Nat.eqb (Empresa._id e) id) (DB.empresas db))
    as [e|] eqn:Hfind; cbn [fst snd]; split; try reflexivity;
    try (intros H; discriminate H); try (intros empresa H; discriminate H).
  intros empresa [= <-]. cbn [DB.impresoras DB.cortes].
  split; [|split; [|split]].
  - intros i. rewrite filter_In, negb_true_iff, Nat.eqb_neq. reflexivity.
  - intros c. rewrite filter_In, negb_true_iff, Nat.eqb_neq. reflexivity.
  - intros env ciudad now. unfold listar_impresoras. cbn [DB.impresoras].
    rewrite (filter_filter_none (matches_q id ciudad)
               (fun i => Nat.eqb (Impresora.empresaId i) id)); [reflexivity|].
    intros x Hx. unfold matches_q in Hx. apply andb_true_iff in Hx. tauto.
  - intros Hkeys req ahora ahoraInsert Hauth.
    set (db' := DB.mk _ _ _ _ _).
    destruct (metrics_impresoras_outcome db' req ahora ahoraInsert)
      as [(e' & b & host & token & Hauth' & _ & Hemp & _)|[Hdb Hst]];
      cbv zeta in *.
    + exfalso. rewrite Hauth in Hauth'. injection Hauth' as Htok.
      subst token.
      cbn [exec fst db' DB.empresas] in Hemp.
      pose proof (remove_first_key_gone Empresa.apiKey _ _ _ Hkeys Hfind)
        as Hgone.
      apply find_some in Hemp. destruct Hemp as [Hin Hkey].
      apply String.eqb_eq in Hkey. apply Hgone. rewrite <- Hkey.
      apply in_map. exact Hin.
    + split; [exact Hdb|]. destruct Hst as [H|[H|H]]; rewrite H; discriminate.
Qed.
End EliminarEmpresaFacts.

(** ** Assignments of companies to folders *)

Lemma es_asignacion_iff (e p c : string) (a : AsignacionCarpeta.t) :
  es_asignacion e p c a = true <-> asignacion_key a = (e, p, c).
Proof.
  unfold es_asignacion, asignacion_key.
  rewrite !andb_true_iff, !String.eqb_eq. split.
  - intros [[-> ->] ->]. reflexivity.
  - intros [= -> -> ->]. auto.
Qed.

Lemma es_asignacion_other (e p c e' p' c' : string)
    (a : AsignacionCarpeta.t) :
  (e', p', c') <> (e, p, c) ->
  es_asignacion e p c a = true -> es_asignacion e' p' c' a = false.
Proof.
  intros Hne Ha. destruct (es_asignacion e' p' c' a) eqn:Ha'; [|reflexivity].
  apply es_asignacion_iff in Ha. apply es_asignacion_iff in Ha'.
  congruence.
Qed.

Lemma find_update_first_disjoint {A : Type} (p q : A -> bool) (f : A -> A)
    (l : list A) :
  (forall x, p x = true -> q x = false /\ q (f x) = false) ->
  find q (update_first p f l) = find q l.
Proof.
  intros H. induction l as [|x rest IH]; simpl; [reflexivity|].
  destruct (p x) eqn:Hp; simpl.
  - destruct (H x Hp) as [-> ->]. reflexivity.
  - destruct (q x); [reflexivity | exact IH].
Qed.

Lemma find_remove_first_disjoint {A : Type} (p q : A -> bool) (l : list A) :
  (forall x, p x = true -> q x = false) ->
  find q (remove_first p l) = find q l.
Proof.
  intros H. induction l as [|x rest IH]; simpl; [reflexivity|].
  destruct (p x) eqn:Hp; simpl.
  - rewrite (H x Hp). reflexivity.
  - destruct (q x); [reflexivity | exact IH].
Qed.

Lemma find_app_last_false {A : Type} (q : A -> bool) (l : list A) (a : A) :
  q a = false -> find q (l ++ [a]) = find q l.
Proof.
  intros Ha. induction l as [|x rest IH]; simpl; [rewrite Ha; reflexivity|].
  destruct (q x); [reflexivity | exact IH].
Qed.

Lemma In_remove_first {A : Type} (p : A -> bool) (l : list A) (x : A) :
  In x (remove_first p l) -> In x l.
Proof.
  induction l as [|z rest IH]; simpl; [auto|].
  destruct (p z); [auto|]. intros [H|H]; auto.
Qed.

Lemma NoDup_map_remove_first {A K : Type} (key : A -> K) (p : A -> bool)
    (l : list A) :
  NoDup (map key l) -> NoDup (map key (remove_first p l)).
Proof.
  induction l as [|z rest IH]; simpl; [auto|].
  intros Hnd. inversion Hnd as [|? ? Hnot Hrest]; subst.
  destruct (p z); [exact Hrest|]. simpl. constructor; [|auto].
  intros Hin. apply Hnot. apply in_map_iff in Hin.
  destruct Hin as (y & Hy & Hyin). rewrite <- Hy. apply in_map.
  apply (In_remove_first p). exact Hyin.
Qed.

Lemma remove_first_none {A : Type} (p : A -> bool) (l : list A) :
  (forall x, In x l -> p x = false) -> remove_first p l = l.
Proof.
  induction l as [|z rest IH]; simpl; [reflexivity|]. intros Hall.
  rewrite (Hall z (or_introl eq_refl)). f_equal. apply IH.
  intros x Hx. apply Hall. right; exact Hx.
Qed.

(** Assigning stores the folder for the company, owner and city of the
    request and leaves every other assignment, and the folders, as they
    were; it keeps assignments unique. *)
Theorem post_asignaciones_assign (st : Folders.t) (body : AsignacionBody.t)
    (e p c : string) (carpetaId : ObjectId) (carpeta : Carpeta.t) :
  AsignacionBody.empresaId body = Some e ->
  AsignacionBody.empresaPadreId body = Some p ->
  AsignacionBody.ciudad body = Some c ->
  truthy_string e = true -> truthy_string p = true -> truthy_string c = true ->
  AsignacionBody.carpetaId body = RefId carpetaId ->
  find (es_carpeta carpetaId p c) (Folders.carpetas st) = Some carpeta ->
  let res := post_asignaciones st body in
  (exists a, fst res = AsignacionOk a
             /\ AsignacionCarpeta.carpetaId a = carpetaId
             /\ asignacion_key a = (e, p, c))
  /\ asignada (snd res) e p c = Some carpetaId
  /\ (forall e' p' c', (e', p', c') <> (e, p, c) ->
                       asignada (snd res) e' p' c' = asignada st e' p' c')
  /\ Folders.carpetas (snd res) = Folders.carpetas st
  /\ (unique_asignaciones st -> unique_asignaciones (snd res)).
Proof.
  intros He Hp Hc Te Tp Tc Hid Hcar. cbv zeta. unfold post_asignaciones.
  rewrite He, Hp, Hc, Te, Tp, Tc, Hid, Hcar. cbn [negb orb].
  unfold asignada, unique_asignaciones.
  destruct (find (es_asignacion e p c) (Folders.asignaciones st)) as [a|]
    eqn:Hfind; cbn [fst snd Folders.asignaciones Folders.carpetas].
  - pose proof (find_some _ _ Hfind) as [_ Ha].
    assert (Ha' : es_asignacion e p c (set_carpetaId carpetaId a) = true)
      by exact Ha.
    split; [|split; [|split; [|split]]].
    + eexists. split; [reflexivity|]. split; [reflexivity|].
      apply es_asignacion_iff. exact Ha'.
    + rewrite (find_update_first _ _ _ a Hfind Ha'). reflexivity.
    + intros e' p' c' Hne. f_equal. apply find_update_first_disjoint.
      intros x Hx. split; apply (es_asignacion_other e p c); assumption.
    + reflexivity.
    + intros Hu. rewrite map_update_first; [exact Hu|]. reflexivity.
  - assert (Ha : es_asignacion e p c (AsignacionCarpeta.mk e p c carpetaId)
                 = true).
    { apply es_asignacion_iff. reflexivity. }
    split; [|split; [|split; [|split]]].
    + eexists. split; [reflexivity|]. split; reflexivity.
    + rewrite (find_app_new _ _ _ Hfind Ha). reflexivity.
    + intros e' p' c' Hne. f_equal. apply find_app_last_false.
      apply (es_asignacion_other e p c); assumption.
    + reflexivity.
    + intros Hu. rewrite map_app. apply NoDup_app; [exact Hu | |].
      * constructor; [intros []|constructor].
      * intros k Hk [<-|[]]. apply in_map_iff in Hk.
        destruct Hk as (x & Hx & Hin).
        pose proof (find_none _ _ Hfind x Hin) as Hno.
        change (asignacion_key x = (e, p, c)) in Hx.
        apply es_asignacion_iff in Hx. congruence.
Qed.

(** With unique assignments, a request with a null folder leaves the
    company without folder for that owner and city, and every other
    assignment as it was. *)
Theorem post_asignaciones_remove (st : Folders.t) (body : AsignacionBody.t)
    (e p c : string) :
  AsignacionBody.empresaId body = Some e ->
  AsignacionBody.empresaPadreId body = Some p ->
  AsignacionBody.ciudad body = Some c ->
  truthy_string e = true -> truthy_string p = true -> truthy_string c = true ->
  AsignacionBody.carpetaId body = RefNull ->
  unique_asignaciones st ->
  let res := post_asignaciones st body in
  fst res = AsignacionRemovida
  /\ asignada (snd res) e p c = None
  /\ (forall e' p' c', (e', p', c') <> (e, p, c) ->
                       asignada (snd res) e' p' c' = asignada st e' p' c')
  /\ Folders.carpetas (snd res) = Folders.carpetas st
  /\ unique_asignaciones (snd res).
Proof.
  intros He Hp Hc Te Tp Tc Hid Hu. cbv zeta. unfold post_asignaciones.
  rewrite He, Hp, Hc, Te, Tp, Tc, Hid. cbn [negb orb fst snd].
  unfold asignada, unique_asignaciones in *.
  cbn [Folders.asignaciones Folders.carpetas].
  split; [reflexivity|]. split; [|split; [|split]].
  - destruct (find (es_asignacion e p c) (Folders.asignaciones st)) as [a|]
      eqn:Hfind.
    + assert (Hnone : find (es_asignacion e p c)
                        (remove_first (es_asignacion e p c)
                                      (Folders.asignaciones st)) = None).
      { apply find_all_false. intros y Hy.
        destruct (es_asignacion e p c y) eqn:Hq; [|reflexivity]. exfalso.
        apply (remove_first_key_gone asignacion_key _ _ _ Hu Hfind).
        pose proof (find_some _ _ Hfind) as [_ Ha].
        apply es_asignacion_iff in Ha. apply es_asignacion_iff in Hq.
        rewrite Ha, <- Hq. apply in_map. exact Hy. }
      rewrite Hnone. reflexivity.
    + assert (Hsame : remove_first (es_asignacion e p c)
                        (Folders.asignaciones st) = Folders.asignaciones st).
      { apply remove_first_none. apply (find_none _ _ Hfind). }
      rewrite Hsame, Hfind. reflexivity.
  - intros e' p' c' Hne. f_equal. apply find_remove_first_disjoint.
    intros x Hx. apply (es_asignacion_other e p c); assumption.
  - reflexivity.
  - apply NoDup_map_remove_first. exact Hu.
Qed.

(** A request that lacks a company, an owner or a city is answered 400, one
    that names a folder that the owner does not have in that city 404; both
    leave the store as it was. *)
Theorem post_asignaciones_errors (st : Folders.t) (body : AsignacionBody.t) :
  let res := post_asignaciones st body in
  (asignacion_status (fst res) <> 200 -> snd res = st)
  /\ (present (AsignacionBody.empresaId body) = false
      \/ present (AsignacionBody.empresaPadreId body) = false
      \/ present (AsignacionBody.ciudad body) = false ->
      asignacion_status (fst res) = 400)
  /\ (forall e p c id,
        AsignacionBody.empresaId body = Some e ->
        AsignacionBody.empresaPadreId body = Some p ->
        AsignacionBody.ciudad body = Some c ->
        truthy_string e = true -> truthy_string p = true ->
        truthy_string c = true ->
        AsignacionBody.carpetaId body = RefId id ->
        (asignacion_status (fst res) = 404
         <-> find (es_carpeta id p c) (Folders.carpetas st) = None)).
Proof.
  cbv zeta. unfold post_asignaciones.
  destruct (AsignacionBody.empresaId body) as [e|];
    [|split; [reflexivity|split; [reflexivity|]]; intros; discriminate].
  destruct (AsignacionBody.empresaPadreId body) as [p|];
    [|split; [reflexivity|split; [reflexivity|]]; intros; discriminate].
  destruct (AsignacionBody.ciudad body) as [c|];
    [|split; [reflexivity|split; [reflexivity|]]; intros; discriminate].
  cbn [present].
  destruct (truthy_string e) eqn:Te; cbn [negb orb];
    [|split; [reflexivity|split; [reflexivity|]];
      intros; congruence].
  destruct (truthy_string p) eqn:Tp; cbn [negb orb];
    [|split; [reflexivity|split; [reflexivity|]];
      intros; congruence].
  destruct (truthy_string c) eqn:Tc; cbn [negb orb];
    [|split; [reflexivity|split; [reflexivity|]];
      intros; congruence].
  destruct (AsignacionBody.carpetaId body) as [|id].
  { split; [intros H; contradiction H; reflexivity|].
    split; [intros [H|[H|H]]; discriminate H|]. intros; discriminate. }
  destruct (find (es_carpeta id p c) (Folders.carpetas st)) as [carpeta|]
    eqn:Hcar.
  - destruct (find (es_asignacion e p c) (Folders.asignaciones st));
      cbn [fst snd asignacion_status];
      (split; [intros H; contradiction H; reflexivity|]);
      (split; [intros [H|[H|H]]; discriminate H|]);
      intros e' p' c' id' _ [= <-] [= <-] _ _ _ [= <-];
      rewrite Hcar; split; discriminate.
  - cbn [fst snd asignacion_status]. split; [reflexivity|].
    split; [intros [H|[H|H]]; discriminate H|].
    intros e' p' c' id' _ [= <-] [= <-] _ _ _ [= <-].
    rewrite Hcar. split; reflexivity.
Qed.

Lemma obj_get_set (m : list (string * ObjectId)) (k k' : string)
    (v : ObjectId) :
  obj_get (obj_set m k v) k'
  = if String.eqb k k' then Some v else obj_get m k'.
Proof.
  unfold obj_get. induction m as [|[k1 v1] rest IH]; simpl.
  - destruct (String.eqb k k'); reflexivity.
  - destruct (String.eqb_spec k1 k) as [->|Hne]; simpl.
    + destruct (String.eqb k k'); reflexivity.
    + destruct (String.eqb_spec k1 k') as [->|Hne'].
      * simpl. destruct (String.eqb_spec k k') as [->|_];
          [contradiction Hne|]; reflexivity.
      * exact IH.
Qed.

Lemma find_app_last {A : Type} (q : A -> bool) (l : list A) (a : A) :
  find q (l ++ [a])
  = match find q l with Some x => Some x | None => if q a then Some a else None end.
Proof.
  induction l as [|x rest IH]; simpl; [reflexivity|].
  destruct (q x); [reflexivity | exact IH].
Qed.

(** With at most one element for a key, the last one and the first one are
    the same. *)
Lemma find_rev_unique {A K : Type} (key : A -> K) (q : A -> bool)
    (l : list A) :
  NoDup (map key l) ->
  (forall x y, q x = true -> q y = true -> key x = key y) ->
  find q (rev l) = find q l.
Proof.
  intros Hnd Hq. induction l as [|x rest IH]; simpl; [reflexivity|].
  inversion Hnd as [|? ? Hnot Hrest]; subst.
  rewrite find_app_last, (IH Hrest).
  destruct (q x) eqn:Hx.
  - destruct (find q rest) as [y|] eqn:Hy; [|reflexivity].
    exfalso. apply find_some in Hy. destruct Hy as [Hin Hqy].
    apply Hnot. rewrite (Hq x y Hx Hqy). apply in_map. exact Hin.
  - destruct (find q rest); reflexivity.
Qed.

Lemma find_filter {A : Type} (g q : A -> bool) (l : list A) :
  find q (filter g l) = find (fun x => g x && q x) l.
Proof.
  induction l as [|x rest IH]; simpl; [reflexivity|].
  destruct (g x); simpl; [|exact IH].
  destruct (q x); [reflexivity | exact IH].
Qed.

Lemma find_ext_eq {A : Type} (p q : A -> bool) (l : list A) :
  (forall x, p x = q x) -> find p l = find q l.
Proof.
  intros H. induction l as [|x rest IH]; simpl; [reflexivity|].
  rewrite (H x), IH. reflexivity.
Qed.

Lemma obj_get_fold (l : list AsignacionCarpeta.t)
    (m0 : list (string * ObjectId)) (k : string) :
  k <> "__proto__" ->
  obj_get
    (fold_left
       (fun asignacionesMap asig =>
          if String.eqb (AsignacionCarpeta.empresaId asig) "__proto__"
          then asignacionesMap
          else obj_set asignacionesMap (AsignacionCarpeta.empresaId asig)
                       (AsignacionCarpeta.carpetaId asig))
       l m0) k
  = match find (fun a => String.eqb (AsignacionCarpeta.empresaId a) k)
               (rev l) with
    | Some a => Some (AsignacionCarpeta.carpetaId a)
    | None => obj_get m0 k
    end.
Proof.
  intros Hk. induction l as [|a rest IH] using rev_ind; simpl; [reflexivity|].
  rewrite fold_left_app, rev_app_distr. simpl.
  destruct (String.eqb_spec (AsignacionCarpeta.empresaId a) "__proto__")
    as [Hp|Hp].
  - rewrite Hp. destruct (String.eqb_spec "__proto__" k) as [<-|_];
      [contradiction Hk; reflexivity | exact IH].
  - rewrite obj_get_set.
    destruct (String.eqb (AsignacionCarpeta.empresaId a) k);
      [reflexivity | exact IH].
Qed.

Lemma obj_get_fold_proto (l : list AsignacionCarpeta.t)
    (m0 : list (string * ObjectId)) :
  obj_get
    (fold_left
       (fun asignacionesMap asig =>
          if String.eqb (AsignacionCarpeta.empresaId asig) "__proto__"
          then asignacionesMap
          else obj_set asignacionesMap (AsignacionCarpeta.empresaId asig)
                       (AsignacionCarpeta.carpetaId asig))
       l m0) "__proto__"
  = obj_get m0 "__proto__".
Proof.
  revert m0. induction l as [|a rest IH]; intros m0; simpl; [reflexivity|].
  rewrite IH.
  destruct (String.eqb_spec (AsignacionCarpeta.empresaId a) "__proto__")
    as [Hp|Hp]; [reflexivity|].
  rewrite obj_get_set.
  destruct (String.eqb_spec (AsignacionCarpeta.empresaId a) "__proto__");
    [contradiction | reflexivity].
Qed.

(** With unique assignments, the object that the listing answers for an
    owner and a city gives each company the folder that it is assigned to,
    and nothing for a company without assignment; the key [__proto__] is
    never a property of it. *)
Theorem get_asignaciones_asignada (st : Folders.t) (p c : string) :
  truthy_string p = true -> truthy_string c = true ->
  unique_asignaciones st ->
  exists data,
    get_asignaciones st (Some p) (Some c) = Some data
    /\ (forall e, e <> "__proto__" -> obj_get data e = asignada st e p c)
    /\ obj_get data "__proto__" = None.
Proof.
  intros Tp Tc Hu. unfold get_asignaciones. rewrite Tp, Tc. cbn [negb orb].
  eexists. split; [reflexivity|]. split.
  - intros e He. rewrite (obj_get_fold _ _ e He).
    rewrite <- filter_rev, find_filter.
    rewrite (find_ext_eq _ (es_asignacion e p c)).
    + rewrite (find_rev_unique asignacion_key _ _ Hu).
      * unfold asignada.
        destruct (find (es_asignacion e p c) (Folders.asignaciones st));
          reflexivity.
      * intros x y Hx Hy. apply es_asignacion_iff in Hx.
        apply es_asignacion_iff in Hy. congruence.
    + intros x. unfold es_asignacion.
      destruct (String.eqb (AsignacionCarpeta.empresaId x) e),
               (String.eqb (AsignacionCarpeta.empresaPadreId x) p),
               (String.eqb (AsignacionCarpeta.ciudad x) c); reflexivity.
  - apply obj_get_fold_proto.
Qed.


(** ** Deleting a folder and what is below it *)

Lemma es_subcarpeta_parent (p : ObjectId) (e c : string) (x : Carpeta.t) :
  es_subcarpeta p e c x = true -> Carpeta.parentId x = Some p.
Proof.
  unfold es_subcarpeta. destruct (Carpeta.parentId x) as [q|]; simpl;
    [|discriminate].
  destruct (Nat.eqb_spec q p) as [->|_]; [reflexivity | discriminate].
Qed.

Lemma debajo_In (cs : list Carpeta.t) (e c : string) (q : ObjectId)
    (x : Carpeta.t) :
  debajo cs e c q x -> In x cs.
Proof. intros H. destruct H; assumption. Qed.

Lemma debajo_mono (cs1 cs0 : list Carpeta.t) (e c : string) (q : ObjectId)
    (x : Carpeta.t) :
  (forall z, In z cs1 -> In z cs0) ->
  debajo cs1 e c q x -> debajo cs0 e c q x.
Proof.
  intros Hsub H. induction H as [x Hin Hx | y x _ IH Hin Hx].
  - apply debajo_hija; auto.
  - apply (debajo_nieta _ _ _ _ y); auto.
Qed.

Lemma debajo_trans (cs : list Carpeta.t) (e c : string) (q : ObjectId)
    (y x : Carpeta.t) :
  debajo cs e c q y -> debajo cs e c (Carpeta._id y) x -> debajo cs e c q x.
Proof.
  intros Hy H. induction H as [x Hin Hx | z x _ IH Hin Hx].
  - apply (debajo_nieta _ _ _ _ y); assumption.
  - apply (debajo_nieta _ _ _ _ z); assumption.
Qed.

Lemma debajo_altura (h : ObjectId -> nat) (cs : list Carpeta.t)
    (e c : string) (q : ObjectId) (x : Carpeta.t) :
  bosque h cs -> debajo cs e c q x -> (h (Carpeta._id x) < h q)%nat.
Proof.
  intros [_ Hh] H. induction H as [x Hin Hx | y x _ IH Hin Hx].
  - apply Hh; [exact Hin|]. apply (es_subcarpeta_parent _ e c). exact Hx.
  - apply Nat.lt_trans with (h (Carpeta._id y)); [|exact IH].
    apply Hh; [exact Hin|]. apply (es_subcarpeta_parent _ e c). exact Hx.
Qed.

Lemma bosque_filter (h : ObjectId -> nat) (cs : list Carpeta.t)
    (keep : Carpeta.t -> bool) :
  bosque h cs -> bosque h (filter keep cs).
Proof.
  intros [Hnd Hh]. split.
  - apply NoDup_map_filter. exact Hnd.
  - intros x p Hin. apply filter_In in Hin. apply Hh. apply Hin.
Qed.

(** What is below [q] either is still below [q] after removing folders, or
    belongs to what was removed, when that is closed under children. *)
Lemma debajo_filter (cs : list Carpeta.t) (e c : string)
    (keep : Carpeta.t -> bool) (R : Carpeta.t -> Prop) (q : ObjectId)
    (x : Carpeta.t) :
  (forall z, In z cs -> keep z = false -> R z) ->
  (forall y z, R y -> In z cs -> es_subcarpeta (Carpeta._id y) e c z = true ->
               R z) ->
  debajo cs e c q x -> debajo (filter keep cs) e c q x \/ R x.
Proof.
  intros Hkeep Hclosed H. induction H as [x Hin Hx | y x _ IH Hin Hx].
  - destruct (keep x) eqn:Hk; [left | right; auto].
    apply debajo_hija; [|exact Hx]. apply filter_In. auto.
  - destruct IH as [IH|IH]; [|right; apply (Hclosed y); assumption].
    destruct (keep x) eqn:Hk; [left | right; auto].
    apply (debajo_nieta _ _ _ _ y); [exact IH| |exact Hx].
    apply filter_In. auto.
Qed.

Lemma en_subarboles_hijas (cs : list Carpeta.t) (e c : string)
    (hechas : list Carpeta.t) (y z : Carpeta.t) :
  en_subarboles cs e c hechas y -> In z cs ->
  es_subcarpeta (Carpeta._id y) e c z = true ->
  en_subarboles cs e c hechas z.
Proof.
  intros [Hy|(d & Hd & Hy)] Hin Hz; right.
  - exists y. split; [exact Hy|]. apply debajo_hija; assumption.
  - exists d. split; [exact Hd|]. apply (debajo_nieta _ _ _ _ y); assumption.
Qed.

Lemma en_subarboles_app (cs : list Carpeta.t) (e c : string)
    (hechas : list Carpeta.t) (s x : Carpeta.t) :
  en_subarboles cs e c (hechas ++ [s]) x
  <-> en_subarboles cs e c hechas x \/ x = s
      \/ debajo cs e c (Carpeta._id s) x.
Proof.
  unfold en_subarboles. split.
  - intros [Hin|(y & Hy & Hd)].
    + apply in_app_or in Hin. destruct Hin as [Hin|[<-|[]]]; auto.
    + apply in_app_or in Hy. destruct Hy as [Hy|[<-|[]]]; eauto.
  - intros [[Hin|(y & Hy & Hd)]|[->|Hd]].
    + left. apply in_or_app. auto.
    + right. exists y. split; [apply in_or_app; auto | exact Hd].
    + left. apply in_or_app. right. left. reflexivity.
    + right. exists s. split; [|exact Hd].
      apply in_or_app. right. left. reflexivity.
Qed.

(** The children of [p] and what is below them: what is below [p]. *)
Lemma en_subarboles_hijas_iff (cs : list Carpeta.t) (e c : string)
    (p : ObjectId) (x : Carpeta.t) :
  en_subarboles cs e c (filter (es_subcarpeta p e c) cs) x
  <-> debajo cs e c p x.
Proof.
  split.
  - intros [Hin|(y & Hy & Hd)].
    + apply filter_In in Hin. apply debajo_hija; apply Hin.
    + apply filter_In in Hy. apply (debajo_trans _ _ _ _ y); [|exact Hd].
      apply debajo_hija; apply Hy.
  - intros H. induction H as [x Hin Hx | y x _ IH Hin Hx].
    + left. apply filter_In. auto.
    + apply (en_subarboles_hijas _ _ _ _ y); assumption.
Qed.

Lemma quitadas_iff (R R' : Carpeta.t -> Prop) (st st' : Folders.t) :
  (forall x, R x <-> R' x) -> quitadas R st st' -> quitadas R' st st'.
Proof.
  intros HR (keep & keepA & Hc & Ha & Hk & HkA).
  exists keep, keepA. split; [exact Hc|]. split; [exact Ha|]. split.
  - intros x Hx. rewrite (Hk x Hx). apply HR.
  - intros a Hin. rewrite (HkA a Hin). split; intros (x & Hx & Hid);
      exists x; (split; [apply HR; exact Hx | exact Hid]).
Qed.

Lemma filter_andb {A : Type} (f g : A -> bool) (l : list A) :
  filter g (filter f l) = filter (fun x => f x && g x) l.
Proof.
  induction l as [|x rest IH]; simpl; [reflexivity|].
  destruct (f x); simpl; [|exact IH].
  destruct (g x); [f_equal|]; exact IH.
Qed.

Lemma filter_all_true {A : Type} (f : A -> bool) (l : list A) :
  (forall x, In x l -> f x = true) -> filter f l = l.
Proof.
  induction l as [|x rest IH]; simpl; [reflexivity|]. intros H.
  rewrite (H x (or_introl eq_refl)). f_equal. apply IH.
  intros y Hy. apply H. right; exact Hy.
Qed.

(** With unique identifiers, deleting the one folder that a filter on the
    identifier selects removes every folder with that identifier. *)
Lemma remove_first_id (p : Carpeta.t -> bool) (i : ObjectId)
    (l : list Carpeta.t) :
  NoDup (map Carpeta._id l) ->
  (forall x, In x l -> (p x = true <-> Carpeta._id x = i)) ->
  remove_first p l = filter (fun x => negb (Nat.eqb (Carpeta._id x) i)) l.
Proof.
  induction l as [|x rest IH]; simpl; [reflexivity|].
  intros Hnd Hp. inversion Hnd as [|? ? Hnot Hrest]; subst.
  destruct (p x) eqn:Hx.
  - apply (Hp x (or_introl eq_refl)) in Hx.
    rewrite <- Hx, Nat.eqb_refl. simpl. symmetry. apply filter_all_true.
    intros y Hy. destruct (Nat.eqb_spec (Carpeta._id y) (Carpeta._id x))
      as [Heq|_]; [|reflexivity].
    exfalso. apply Hnot. rewrite <- Heq. apply in_map. exact Hy.
  - destruct (Nat.eqb_spec (Carpeta._id x) i) as [Heq|_]; simpl.
    + apply (Hp x (or_introl eq_refl)) in Heq. congruence.
    + f_equal. apply IH; [exact Hrest|].
      intros y Hy. apply Hp. right; exact Hy.
Qed.

Lemma NoDup_map_inj {A : Type} (key : A -> ObjectId) (l : list A) (x y : A) :
  NoDup (map key l) -> In x l -> In y l -> key x = key y -> x = y.
Proof.
  intros Hnd Hx Hy Heq.
  pose proof (find_unique key l x Hnd Hx) as Fx.
  pose proof (find_unique key l y Hnd Hy) as Fy.
  rewrite Heq in Fx. congruence.
Qed.

Lemma eliminarSubcarpetasRecursivamente_S (fuel : nat) (parentId : ObjectId)
    (e c : string) (st : Folders.t) :
  eliminarSubcarpetasRecursivamente (S fuel) parentId e c st
  = fold_left
      (fun acc subcarpeta =>
         match acc with
         | None => None
         | Some st =>
           match eliminarSubcarpetasRecursivamente fuel
                   (Carpeta._id subcarpeta) e c
                   (deleteMany_asignaciones (Carpeta._id subcarpeta) st) with
           | None => None
           | Some st =>
             Some (findByIdAndDelete_carpeta (Carpeta._id subcarpeta) st)
           end
         end)
      (filter (es_subcarpeta parentId e c) (Folders.carpetas st)) (Some st).
Proof. reflexivity. Qed.

(** One turn of the loop: the sub-folder, what is below it and the
    assignments to them go. *)
Lemma subcarpeta_quitada (h : ObjectId -> nat) (e c : string)
    (st0 st st2 : Folders.t) (hechas : list Carpeta.t) (s : Carpeta.t) :
  bosque h (Folders.carpetas st0) ->
  In s (Folders.carpetas st0) ->
  quitadas (en_subarboles (Folders.carpetas st0) e c hechas) st0 st ->
  quitadas (debajo (Folders.carpetas st) e c (Carpeta._id s))
           (deleteMany_asignaciones (Carpeta._id s) st) st2 ->
  quitadas (en_subarboles (Folders.carpetas st0) e c (hechas ++ [s])) st0
           (findByIdAndDelete_carpeta (Carpeta._id s) st2).
Proof.
  intros Hb Hs (keep & keepA & Hc & Ha & Hk & HkA)
         (keep2 & keepA2 & Hc2 & Ha2 & Hk2 & HkA2).
  cbn [deleteMany_asignaciones Folders.carpetas Folders.asignaciones]
    in Hc2, Ha2, Hk2, HkA2.
  set (cs0 := Folders.carpetas st0) in *.
  assert (Hsub : forall z, In z (Folders.carpetas st) -> In z cs0).
  { intros z Hz. rewrite Hc in Hz. apply filter_In in Hz. apply Hz. }
  assert (Hfil : forall x, debajo cs0 e c (Carpeta._id s) x ->
                 debajo (Folders.carpetas st) e c (Carpeta._id s) x
                 \/ en_subarboles cs0 e c hechas x).
  { intros x Hx. rewrite Hc. apply debajo_filter; [| |exact Hx].
    - intros z Hz Hkz. apply Hk; assumption.
    - intros y z. apply en_subarboles_hijas. }
  exists (fun x => keep x && keep2 x
                   && negb (Nat.eqb (Carpeta._id x) (Carpeta._id s))),
         (fun a => keepA a
                   && negb (Nat.eqb (AsignacionCarpeta.carpetaId a)
                                    (Carpeta._id s))
                   && keepA2 a).
  split; [|split; [|split]].
  - unfold findByIdAndDelete_carpeta. cbn [Folders.carpetas].
    rewrite (remove_first_id _ (Carpeta._id s)).
    + rewrite Hc2, Hc, !filter_andb. apply filter_ext.
      intros x. rewrite ?andb_assoc. reflexivity.
    + rewrite Hc2, Hc. apply NoDup_map_filter, NoDup_map_filter, Hb.
    + intros x _. apply Nat.eqb_eq.
  - unfold findByIdAndDelete_carpeta. cbn [Folders.asignaciones].
    rewrite Ha2, Ha, !filter_andb. apply filter_ext.
    intros x. rewrite ?andb_assoc. reflexivity.
  - intros x Hx. rewrite en_subarboles_app. split.
    + intros Hfalse. destruct (keep x) eqn:Hkx;
        [|left; apply Hk; assumption].
      destruct (Nat.eqb_spec (Carpeta._id x) (Carpeta._id s)) as [Heq|_].
      * right; left. apply (NoDup_map_inj Carpeta._id cs0); try assumption.
        apply Hb.
      * right; right. apply (debajo_mono (Folders.carpetas st));
          [exact Hsub|].
        assert (Hx1 : In x (Folders.carpetas st)).
        { rewrite Hc. apply filter_In. auto. }
        apply (Hk2 x Hx1). destruct (keep2 x); [discriminate|reflexivity].
    + intros [Hold|[->|Hd]].
      * apply (Hk x Hx) in Hold. rewrite Hold. reflexivity.
      * rewrite Nat.eqb_refl. apply andb_false_r.
      * destruct (Hfil x Hd) as [Hd1|Hold].
        -- pose proof (debajo_In _ _ _ _ _ Hd1) as Hx1.
           apply (Hk2 x Hx1) in Hd1. rewrite Hd1.
           rewrite andb_false_r. reflexivity.
        -- apply (Hk x Hx) in Hold. rewrite Hold. reflexivity.
  - intros a Hin. split.
    + intros Hfalse. destruct (keepA a) eqn:Hka.
      * destruct (Nat.eqb_spec (AsignacionCarpeta.carpetaId a)
                               (Carpeta._id s)) as [Heq|Hne].
        -- exists s. split; [|symmetry; exact Heq].
           apply en_subarboles_app. right; left. reflexivity.
        -- assert (Hin1 : In a (filter
                                 (fun a => negb (Nat.eqb
                                    (AsignacionCarpeta.carpetaId a)
                                    (Carpeta._id s)))
                                 (Folders.asignaciones st))).
           { apply filter_In. split.
             - rewrite Ha. apply filter_In. auto.
             - apply negb_true_iff, Nat.eqb_neq. exact Hne. }
           simpl in Hfalse.
           destruct (proj1 (HkA2 a Hin1) Hfalse) as (x & Hx & Hid).
           exists x. split; [|exact Hid].
           apply en_subarboles_app. right; right.
           apply (debajo_mono (Folders.carpetas st)); assumption.
      * destruct (proj1 (HkA a Hin) Hka) as (x & Hx & Hid).
        exists x. split; [|exact Hid]. apply en_subarboles_app. auto.
    + intros (x & Hx & Hid). apply en_subarboles_app in Hx.
      assert (Hold : en_subarboles cs0 e c hechas x -> keepA a = false).
      { intros H. apply (HkA a Hin). exists x. auto. }
      destruct Hx as [Hx|[->|Hd]].
      * rewrite (Hold Hx). reflexivity.
      * rewrite <- Hid, Nat.eqb_refl. simpl. rewrite andb_false_r.
        reflexivity.
      * destruct (Hfil x Hd) as [Hd1|Hx]; [|rewrite (Hold Hx); reflexivity].
        destruct (keepA a) eqn:Hka; [|reflexivity].
        destruct (Nat.eqb_spec (AsignacionCarpeta.carpetaId a)
                               (Carpeta._id s)) as [Heq|Hne];
          [reflexivity|]. simpl.
        apply HkA2; [|exists x; auto].
        apply filter_In. split.
        -- rewrite Ha. apply filter_In. auto.
        -- apply negb_true_iff, Nat.eqb_neq. exact Hne.
Qed.

(** With fuel above the height of [parentId] in a forest, the recursion
    returns, and has removed exactly the folders below [parentId] and the
    assignments to them. *)
Lemma eliminarSubcarpetasRecursivamente_quitadas (h : ObjectId -> nat)
    (e c : string) (fuel : nat) :
  forall (parentId : ObjectId) (st : Folders.t),
    bosque h (Folders.carpetas st) -> (h parentId < fuel)%nat ->
    exists st',
      eliminarSubcarpetasRecursivamente fuel parentId e c st = Some st'
      /\ quitadas (debajo (Folders.carpetas st) e c parentId) st st'.
Proof.
  induction fuel as [|fuel IH]; intros p st0 Hb Hfuel; [lia|].
  rewrite eliminarSubcarpetasRecursivamente_S.
  set (cs0 := Folders.carpetas st0).
  set (paso := fun (acc : option Folders.t) (subcarpeta : Carpeta.t) => _).
  assert (Hfold : forall todo hechas st,
             (forall s, In s todo ->
                        In s cs0 /\ es_subcarpeta p e c s = true) ->
             quitadas (en_subarboles cs0 e c hechas) st0 st ->
             exists st',
               fold_left paso todo (Some st) = Some st'
               /\ quitadas (en_subarboles cs0 e c (hechas ++ todo)) st0 st').
  { induction todo as [|s todo IHtodo]; intros hechas st Htodo Hinv.
    - exists st. rewrite app_nil_r. split; [reflexivity | exact Hinv].
    - destruct (Htodo s (or_introl eq_refl)) as [Hs Hsub].
      assert (Hb1 : bosque h (Folders.carpetas st)).
      { destruct Hinv as (keep & _ & Hc & _). rewrite Hc.
        apply bosque_filter. exact Hb. }
      assert (Hh : (h (Carpeta._id s) < fuel)%nat).
      { destruct Hb as [_ Hh].
        pose proof (Hh s p Hs (es_subcarpeta_parent _ _ _ _ Hsub)). lia. }
      destruct (IH (Carpeta._id s)
                   (deleteMany_asignaciones (Carpeta._id s) st) Hb1 Hh)
        as (st2 & Hrun & Hq).
      cbn [fold_left]. unfold paso at 2. rewrite Hrun.
      replace (hechas ++ s :: todo) with ((hechas ++ [s]) ++ todo)
        by (rewrite <- app_assoc; reflexivity).
      apply IHtodo.
      + intros s' Hs'. apply Htodo. right; exact Hs'.
      + apply (subcarpeta_quitada h e c st0 st); assumption. }
  destruct (Hfold (filter (es_subcarpeta p e c) cs0) [] st0) as (st' & Hrun & Hq).
  - intros s Hs. apply filter_In in Hs. exact Hs.
  - exists (fun _ => true), (fun _ => true). split; [|split; [|split]].
    + symmetry. apply filter_all_true. reflexivity.
    + symmetry. apply filter_all_true. reflexivity.
    + intros x _. split; [discriminate|].
      intros [[]|(y & [] & _)].
    + intros a _. split; [discriminate|].
      intros (x & [[]|(y & [] & _)] & _).
  - exists st'. split; [exact Hrun|].
    apply (quitadas_iff (en_subarboles cs0 e c
                           (filter (es_subcarpeta p e c) cs0))); [|exact Hq].
    intros x. apply en_subarboles_hijas_iff.
Qed.

Lemma debajo_sin_raiz (h : ObjectId -> nat) (cs : list Carpeta.t)
    (e c : string) (q : ObjectId) (x : Carpeta.t) :
  bosque h cs ->
  debajo cs e c q x
  <-> debajo (filter (fun z => negb (Nat.eqb (Carpeta._id z) q)) cs) e c q x.
Proof.
  intros Hb. split.
  - intros H.
    assert (Hin : forall z, debajo cs e c q z ->
              In z (filter (fun z => negb (Nat.eqb (Carpeta._id z) q)) cs)).
    { intros z Hz. apply filter_In. split; [apply (debajo_In _ _ _ _ _ Hz)|].
      pose proof (debajo_altura h _ _ _ _ _ Hb Hz) as Hlt.
      apply negb_true_iff, Nat.eqb_neq. intros Heq. rewrite Heq in Hlt. lia. }
    induction H as [x Hx Hsub | y x Hy IH Hx Hsub].
    + apply debajo_hija; [|exact Hsub]. apply Hin.
      apply debajo_hija; assumption.
    + apply (debajo_nieta _ _ _ _ y); [exact IH| |exact Hsub]. apply Hin.
      apply (debajo_nieta _ _ _ _ y); assumption.
  - apply debajo_mono. intros z Hz. apply filter_In in Hz. apply Hz.
Qed.

Lemma delete_carpeta_found (h : ObjectId -> nat) (st : Folders.t)
    (id : ObjectId) (e c : string) (fuel : nat) (carpeta : Carpeta.t) :
  find (es_carpeta id e c) (Folders.carpetas st) = Some carpeta ->
  bosque h (Folders.carpetas st) -> (h id < fuel)%nat ->
  exists st',
    delete_carpeta fuel st id e c = Some (Some carpeta, st')
    /\ (forall x, In x (Folders.carpetas st')
                  <-> In x (Folders.carpetas st)
                      /\ Carpeta._id x <> id
                      /\ ~ debajo (Folders.carpetas st) e c id x)
    /\ (forall a, In a (Folders.asignaciones st')
                  <-> In a (Folders.asignaciones st)
                      /\ AsignacionCarpeta.carpetaId a <> id
                      /\ ~ (exists x,
                              debajo (Folders.carpetas st) e c id x
                              /\ Carpeta._id x
                                 = AsignacionCarpeta.carpetaId a))
    /\ bosque h (Folders.carpetas st')
    /\ (unique_asignaciones st -> unique_asignaciones st').
Proof.
  unfold delete_carpeta.
  intros Hfind Hb Hfuel. rewrite Hfind. cbv zeta.
  pose proof (find_some _ _ Hfind) as [Hin Hcar].
  assert (Hid : Carpeta._id carpeta = id).
  { unfold es_carpeta in Hcar. apply andb_true_iff in Hcar.
    destruct Hcar as [Hcar _]. apply andb_true_iff in Hcar.
    apply Nat.eqb_eq, Hcar. }
  assert (Hrm : remove_first (es_carpeta id e c) (Folders.carpetas st)
                = filter (fun z => negb (Nat.eqb (Carpeta._id z) id))
                         (Folders.carpetas st)).
  { apply remove_first_id; [apply Hb|]. intros x Hx. split.
    - unfold es_carpeta. intros H. apply andb_true_iff in H.
      destruct H as [H _]. apply andb_true_iff in H. apply Nat.eqb_eq, H.
    - intros Hx'. rewrite <- Hid in Hx'.
      rewrite (NoDup_map_inj Carpeta._id _ x carpeta (proj1 Hb) Hx Hin Hx').
      exact Hcar. }
  rewrite Hrm.
  set (cs1 := filter (fun z => negb (Nat.eqb (Carpeta._id z) id))
                     (Folders.carpetas st)).
  set (st1 := deleteMany_asignaciones id
                (Folders.mk cs1 (Folders.asignaciones st))).
  assert (Hb1 : bosque h (Folders.carpetas st1)) by (apply bosque_filter, Hb).
  destruct (eliminarSubcarpetasRecursivamente_quitadas h e c fuel id st1
              Hb1 Hfuel) as (st' & Hrun & keep & keepA & Hc & Ha & Hk & HkA).
  rewrite Hrun. exists st'. split; [reflexivity|].
  cbn [st1 deleteMany_asignaciones Folders.carpetas Folders.asignaciones]
    in Hc, Ha, Hk, HkA.
  assert (Hdeb : forall x, debajo cs1 e c id x
                           <-> debajo (Folders.carpetas st) e c id x).
  { intros x. symmetry. apply (debajo_sin_raiz h). exact Hb. }
  split; [|split; [|split]].
  - intros x. rewrite Hc, filter_In. unfold cs1 at 1. rewrite filter_In.
    rewrite negb_true_iff, Nat.eqb_neq, <- Hdeb. split.
    + intros [[Hx Hne] Hkx]. split; [exact Hx|]. split; [exact Hne|].
      intros Hd. apply (Hk x) in Hd; [congruence|].
      apply filter_In. split; [exact Hx|].
      apply negb_true_iff, Nat.eqb_neq. exact Hne.
    + intros (Hx & Hne & Hnd). split; [auto|].
      destruct (keep x) eqn:Hkx; [reflexivity|]. exfalso. apply Hnd.
      apply (Hk x); [|exact Hkx]. apply filter_In. split; [exact Hx|].
      apply negb_true_iff, Nat.eqb_neq. exact Hne.
  - intros a. rewrite Ha, !filter_In, negb_true_iff, Nat.eqb_neq.
    assert (Hin1 : In a (Folders.asignaciones st) ->
                   AsignacionCarpeta.carpetaId a <> id ->
                   In a (filter
                           (fun a => negb (Nat.eqb
                              (AsignacionCarpeta.carpetaId a) id))
                           (Folders.asignaciones st))).
    { intros Hx Hne. apply filter_In. split; [exact Hx|].
      apply negb_true_iff, Nat.eqb_neq. exact Hne. }
    split.
    + intros [[Hx Hne] Hkx]. split; [exact Hx|]. split; [exact Hne|].
      intros (x & Hd & Hidx).
      assert (keepA a = false); [|congruence].
      apply (HkA a (Hin1 Hx Hne)). exists x. split; [|exact Hidx].
      apply Hdeb. exact Hd.
    + intros (Hx & Hne & Hnd). split; [auto|].
      destruct (keepA a) eqn:Hkx; [reflexivity|]. exfalso. apply Hnd.
      destruct (proj1 (HkA a (Hin1 Hx Hne)) Hkx) as (x & Hd & Hidx).
      exists x. split; [|exact Hidx]. apply Hdeb. exact Hd.
  - rewrite Hc. apply bosque_filter. exact Hb1.
  - unfold unique_asignaciones. intros Hu. rewrite Ha.
    apply NoDup_map_filter, NoDup_map_filter, Hu.
Qed.

(** Deleting a folder of a forest, with fuel above its height: the answer
    carries the folder; the folder, the folders below it and the
    assignments to any of them are gone, and everything else stays; the
    store is still a forest and assignments are still unique.  When no
    folder has the identifier in the scope, nothing changes. *)
Theorem delete_carpeta_subarbol (h : ObjectId -> nat) (st : Folders.t)
    (id : ObjectId) (e c : string) (fuel : nat) :
  (find (es_carpeta id e c) (Folders.carpetas st) = None ->
   delete_carpeta fuel st id e c = Some (None, st))
  /\ (forall carpeta,
        find (es_carpeta id e c) (Folders.carpetas st) = Some carpeta ->
        bosque h (Folders.carpetas st) -> (h id < fuel)%nat ->
        exists st',
          delete_carpeta fuel st id e c = Some (Some carpeta, st')
          /\ (forall x, In x (Folders.carpetas st')
                        <-> In x (Folders.carpetas st)
                            /\ Carpeta._id x <> id
                            /\ ~ debajo (Folders.carpetas st) e c id x)
          /\ (forall a, In a (Folders.asignaciones st')
                        <-> In a (Folders.asignaciones st)
                            /\ AsignacionCarpeta.carpetaId a <> id
                            /\ ~ (exists x,
                                    debajo (Folders.carpetas st) e c id x
                                    /\ Carpeta._id x
                                       = AsignacionCarpeta.carpetaId a))
          /\ bosque h (Folders.carpetas st')
          /\ (unique_asignaciones st -> unique_asignaciones st')).
Proof.
  split.
  - unfold delete_carpeta. intros ->. reflexivity.
  - intros carpeta. apply delete_carpeta_found.
Qed.

(** ** Creating and renaming folders *)

Section CarpetasProps.
Variable String_trim : string -> string.

(** What a creation that is answered 201 did. *)
Lemma post_carpetas_creada (st : Folders.t) (body : CarpetaBody.t)
    (nuevoId : ObjectId) (ahora : Date) (nueva : Carpeta.t) :
  fst (post_carpetas String_trim st body nuevoId ahora) = CarpetaCreada nueva ->
  snd (post_carpetas String_trim st body nuevoId ahora)
  = Folders.mk (Folders.carpetas st ++ [nueva]) (Folders.asignaciones st)
  /\ Carpeta._id nueva = nuevoId
  /\ Carpeta.parentId nueva = CarpetaBody.parentId body
  /\ CarpetaBody.empresaId body = Some (Carpeta.empresaId nueva)
  /\ CarpetaBody.ciudad body = Some (Carpeta.ciudad nueva)
  /\ (exists nombre, CarpetaBody.nombre body = Some nombre
                     /\ Carpeta.nombre nueva = String_trim nombre)
  /\ (forall p, Carpeta.parentId nueva = Some p ->
        exists padre,
          find (es_carpeta p (Carpeta.empresaId nueva) (Carpeta.ciudad nueva))
               (Folders.carpetas st) = Some padre).
Proof.
  unfold post_carpetas.
  destruct (CarpetaBody.nombre body) as [nombre|]; [|discriminate].
  destruct (CarpetaBody.empresaId body) as [e|]; [|discriminate].
  destruct (CarpetaBody.ciudad body) as [c|]; [|discriminate].
  destruct (negb (truthy_string nombre) || negb (truthy_string e)
            || negb (truthy_string c)); [discriminate|]. cbv zeta.
  destruct (CarpetaBody.parentId body) as [p|] eqn:Hp.
  - destruct (find (es_carpeta p e c) (Folders.carpetas st)) as [padre|]
      eqn:Hfind; [|discriminate].
    cbn [fst snd]. intros [= <-]. cbn [Carpeta._id Carpeta.parentId
      Carpeta.empresaId Carpeta.ciudad Carpeta.nombre].
    repeat (split; [reflexivity|]). split; [exists nombre; auto|].
    intros p' [= <-]. exists padre. exact Hfind.
  - cbn [fst snd]. intros [= <-]. cbn [Carpeta._id Carpeta.parentId
      Carpeta.empresaId Carpeta.ciudad Carpeta.nombre].
    repeat (split; [reflexivity|]). split; [exists nombre; auto|].
    intros p' H. discriminate H.
Qed.

Lemma post_carpetas_rechazada (st : Folders.t) (body : CarpetaBody.t)
    (nuevoId : ObjectId) (ahora : Date) :
  carpeta_status (fst (post_carpetas String_trim st body nuevoId ahora)) <> 201 ->
  snd (post_carpetas String_trim st body nuevoId ahora) = st.
Proof.
  unfold post_carpetas.
  destruct (CarpetaBody.nombre body) as [nombre|]; [|reflexivity].
  destruct (CarpetaBody.empresaId body) as [e|]; [|reflexivity].
  destruct (CarpetaBody.ciudad body) as [c|]; [|reflexivity].
  destruct (negb (truthy_string nombre) || negb (truthy_string e)
            || negb (truthy_string c)); [reflexivity|]. cbv zeta.
  destruct (CarpetaBody.parentId body) as [p|].
  - destruct (find (es_carpeta p e c) (Folders.carpetas st));
      [|reflexivity]. intros H. contradiction H. reflexivity.
  - intros H. contradiction H. reflexivity.
Qed.

(** A new folder keeps the forest, one level higher. *)
Lemma bosque_nueva (h : ObjectId -> nat) (cs : list Carpeta.t)
    (nueva : Carpeta.t) :
  bosque h cs -> id_nuevo (Carpeta._id nueva) cs ->
  Carpeta.parentId nueva <> Some (Carpeta._id nueva) ->
  bosque (fun i => if Nat.eqb i (Carpeta._id nueva) then O else S (h i))
         (cs ++ [nueva]).
Proof.
  intros [Hnd Hh] Hnuevo Hself. split.
  - rewrite map_app. apply NoDup_app; [exact Hnd | |].
    + constructor; [intros []|constructor].
    + intros i Hi [<-|[]]. apply in_map_iff in Hi.
      destruct Hi as (x & Hx & Hin). apply (proj1 (Hnuevo x Hin)). exact Hx.
  - intros x p Hin Hp. apply in_app_or in Hin. destruct Hin as [Hin|[<-|[]]].
    + destruct (Hnuevo x Hin) as [Hid Hpar].
      destruct (Nat.eqb_spec (Carpeta._id x) (Carpeta._id nueva));
        [contradiction|].
      destruct (Nat.eqb_spec p (Carpeta._id nueva)) as [->|_];
        [contradiction|].
      apply -> Nat.succ_lt_mono. apply Hh; assumption.
    + rewrite Nat.eqb_refl.
      destruct (Nat.eqb_spec p (Carpeta._id nueva)) as [->|_];
        [contradiction | lia].
Qed.

Lemma es_carpeta_id (id : ObjectId) (e c : string) (x : Carpeta.t) :
  es_carpeta id e c x = true -> Carpeta._id x = id.
Proof.
  unfold es_carpeta. intros H. apply andb_true_iff in H.
  destruct H as [H _]. apply andb_true_iff in H. apply Nat.eqb_eq, H.
Qed.

Lemma post_carpetas_padre_distinto (st : Folders.t) (body : CarpetaBody.t)
    (nuevoId : ObjectId) (ahora : Date) (nueva : Carpeta.t) :
  fst (post_carpetas String_trim st body nuevoId ahora) = CarpetaCreada nueva ->
  id_nuevo nuevoId (Folders.carpetas st) ->
  Carpeta.parentId nueva <> Some (Carpeta._id nueva).
Proof.
  intros Hres Hnuevo Hp.
  destruct (post_carpetas_creada _ _ _ _ _ Hres)
    as (_ & Hid & _ & _ & _ & _ & Hpadre).
  destruct (Hpadre _ Hp) as (padre & Hfind).
  apply find_some in Hfind. destruct Hfind as [Hin Hpad].
  apply es_carpeta_id in Hpad. rewrite Hid in Hpad.
  apply (proj1 (Hnuevo padre Hin)). exact Hpad.
Qed.

(** A creation that is not answered 201 leaves the store as it was.  One
    that is adds one folder, with the trimmed name, in the scope of the
    request, under a folder of that scope when the request names a parent;
    with a fresh identifier the folders are still a forest. *)
Theorem post_carpetas_bosque (st : Folders.t) (body : CarpetaBody.t)
    (nuevoId : ObjectId) (ahora : Date) :
  let res := post_carpetas String_trim st body nuevoId ahora in
  (carpeta_status (fst res) <> 201 -> snd res = st)
  /\ (forall nueva, fst res = CarpetaCreada nueva ->
        snd res = Folders.mk (Folders.carpetas st ++ [nueva])
                             (Folders.asignaciones st)
        /\ Carpeta._id nueva = nuevoId
        /\ Carpeta.parentId nueva = CarpetaBody.parentId body
        /\ CarpetaBody.empresaId body = Some (Carpeta.empresaId nueva)
        /\ CarpetaBody.ciudad body = Some (Carpeta.ciudad nueva)
        /\ (exists nombre, CarpetaBody.nombre body = Some nombre
                           /\ Carpeta.nombre nueva = String_trim nombre)
        /\ (forall p, Carpeta.parentId nueva = Some p ->
              exists padre,
                In padre (Folders.carpetas st)
                /\ es_subcarpeta (Carpeta._id padre)
                     (Carpeta.empresaId padre) (Carpeta.ciudad padre) nueva
                   = true)
        /\ (forall h, bosque h (Folders.carpetas st) ->
                      id_nuevo nuevoId (Folders.carpetas st) ->
                      bosque (fun i => if Nat.eqb i nuevoId then O
                                       else S (h i))
                             (Folders.carpetas (snd res)))).
Proof.
  cbv zeta. split; [apply post_carpetas_rechazada|].
  intros nueva Hres.
  destruct (post_carpetas_creada _ _ _ _ _ Hres)
    as (Hst & Hid & Hpar & He & Hc & Hnom & Hpadre).
  repeat (split; [assumption|]). split.
  - intros p Hp. destruct (Hpadre p Hp) as (padre & Hfind).
    apply find_some in Hfind. destruct Hfind as [Hin Hpad].
    exists padre. split; [exact Hin|].
    unfold es_carpeta in Hpad. apply andb_true_iff in Hpad.
    destruct Hpad as [Hpad Hc']. apply andb_true_iff in Hpad.
    destruct Hpad as [Hi He']. apply Nat.eqb_eq in Hi.
    apply String.eqb_eq in He'. apply String.eqb_eq in Hc'.
    unfold es_subcarpeta. rewrite Hp, Hi, He', Hc', Nat.eqb_refl,
      !String.eqb_refl. reflexivity.
  - intros h Hb Hnuevo. rewrite Hst. cbn [Folders.carpetas].
    rewrite <- Hid. apply bosque_nueva; [exact Hb | rewrite Hid; exact Hnuevo|].
    apply (post_carpetas_padre_distinto st body nuevoId ahora);
      assumption.
Qed.

(** A folder that was created under a parent goes when the parent is
    deleted, and the deletion brings back no folder. *)
Theorem post_carpetas_then_delete (h : ObjectId -> nat) (st : Folders.t)
    (body : CarpetaBody.t) (nuevoId : ObjectId) (ahora : Date)
    (nueva : Carpeta.t) (p : ObjectId) (fuel : nat) :
  bosque h (Folders.carpetas st) ->
  id_nuevo nuevoId (Folders.carpetas st) ->
  fst (post_carpetas String_trim st body nuevoId ahora) = CarpetaCreada nueva ->
  Carpeta.parentId nueva = Some p ->
  (S (h p) < fuel)%nat ->
  exists padre st2,
    delete_carpeta fuel (snd (post_carpetas String_trim st body nuevoId ahora))
                   p (Carpeta.empresaId nueva) (Carpeta.ciudad nueva)
    = Some (Some padre, st2)
    /\ In padre (Folders.carpetas st)
    /\ ~ In nueva (Folders.carpetas st2)
    /\ (forall x, In x (Folders.carpetas st2) ->
                  In x (Folders.carpetas st) /\ Carpeta._id x <> p).
Proof.
  intros Hb Hnuevo Hres Hp Hfuel.
  destruct (post_carpetas_creada _ _ _ _ _ Hres)
    as (Hst & Hid & Hpar & He & Hc & Hnom & Hpadre).
  destruct (Hpadre p Hp) as (padre & Hfind).
  pose proof (find_some _ _ Hfind) as [Hin Hpad].
  pose proof (es_carpeta_id _ _ _ _ Hpad) as Hpid.
  rewrite Hst.
  set (e := Carpeta.empresaId nueva) in *.
  set (c := Carpeta.ciudad nueva) in *.
  assert (Hfind' : find (es_carpeta p e c) (Folders.carpetas st ++ [nueva])
                   = Some padre).
  { rewrite find_app_last, Hfind. reflexivity. }
  assert (Hb' : bosque (fun i => if Nat.eqb i (Carpeta._id nueva) then O
                                 else S (h i))
                       (Folders.carpetas st ++ [nueva])).
  { apply bosque_nueva; [exact Hb | rewrite Hid; exact Hnuevo|].
    apply (post_carpetas_padre_distinto st body nuevoId ahora);
      assumption. }
  assert (Hfuel' : ((if Nat.eqb p (Carpeta._id nueva) then O else S (h p))
                    < fuel)%nat).
  { destruct (Nat.eqb p (Carpeta._id nueva)); lia. }
  destruct (delete_carpeta_found _
              (Folders.mk (Folders.carpetas st ++ [nueva])
                          (Folders.asignaciones st))
              p e c fuel padre Hfind' Hb' Hfuel')
    as (st2 & Hrun & Hcs & _).
  cbn [Folders.carpetas] in Hcs.
  assert (Hdeb : debajo (Folders.carpetas st ++ [nueva]) e c p nueva).
  { apply debajo_hija; [apply in_or_app; right; left; reflexivity|].
    unfold es_subcarpeta. rewrite Hp, Nat.eqb_refl. unfold e, c.
    rewrite !String.eqb_refl. reflexivity. }
  exists padre, st2. split; [exact Hrun|]. split; [exact Hin|]. split.
  - intros Hx. apply Hcs in Hx. destruct Hx as (_ & _ & Hnd). auto.
  - intros x Hx. apply Hcs in Hx. destruct Hx as (Hx & Hne & Hnd).
    split; [|exact Hne].
    apply in_app_or in Hx. destruct Hx as [Hx|[<-|[]]]; [exact Hx|].
    contradiction.
Qed.

Lemma bosque_nodo (h : ObjectId -> nat) (cs cs' : list Carpeta.t) :
  map nodo cs' = map nodo cs -> bosque h cs -> bosque h cs'.
Proof.
  intros Hmap [Hnd Hh]. split.
  - replace (map Carpeta._id cs')
      with (map (fun n => fst (fst (fst n))) (map nodo cs'))
      by (rewrite map_map; reflexivity).
    rewrite Hmap, map_map. exact Hnd.
  - intros x p Hin Hp.
    assert (Hn : In (nodo x) (map nodo cs))
      by (rewrite <- Hmap; apply in_map; exact Hin).
    apply in_map_iff in Hn. destruct Hn as (y & Hy & Hyin).
    unfold nodo in Hy. injection Hy as Hi Hpar _ _.
    rewrite <- Hi. apply Hh; [exact Hyin | congruence].
Qed.

(** Renaming changes one name and nothing of the tree: identifiers,
    parents and scopes stay, so do the assignments and the forest.  It is
    answered 404, or 400, with the store as it was, when no folder of the
    scope has the identifier, or the name is empty once trimmed. *)
Theorem put_carpetas_renames (st : Folders.t) (id : ObjectId)
    (nombre : option string) (e c : string) :
  let res := put_carpetas String_trim st id nombre e c in
  (carpeta_status (fst res) <> 200 -> snd res = st)
  /\ map nodo (Folders.carpetas (snd res)) = map nodo (Folders.carpetas st)
  /\ Folders.asignaciones (snd res) = Folders.asignaciones st
  /\ (forall h, bosque h (Folders.carpetas st) ->
                bosque h (Folders.carpetas (snd res)))
  /\ (forall n, nombre = Some n -> String_trim n = EmptyString ->
                carpeta_status (fst res) = 400)
  /\ (forall n, nombre = Some n -> truthy_string n = true ->
                String_trim n <> EmptyString ->
                match find (es_carpeta id e c) (Folders.carpetas st) with
                | None => carpeta_status (fst res) = 404
                | Some carpeta =>
                  fst res = CarpetaRenombrada
                              (set_nombre (String_trim n) carpeta)
                  /\ find (es_carpeta id e c) (Folders.carpetas (snd res))
                     = Some (set_nombre (String_trim n) carpeta)
                end).
Proof.
  cbv zeta.
  assert (Hmap : map nodo (Folders.carpetas
                    (snd (put_carpetas String_trim st id nombre e c)))
                 = map nodo (Folders.carpetas st)).
  { unfold put_carpetas. destruct nombre as [n|]; [|reflexivity].
    destruct (negb (truthy_string n) || String.eqb (String_trim n) EmptyString);
      [reflexivity|]. cbv zeta.
    destruct (find (es_carpeta id e c) (Folders.carpetas st));
      [|reflexivity].
    cbn [snd Folders.carpetas]. apply map_update_first. reflexivity. }
  split; [|split; [exact Hmap|split; [|split; [|split]]]].
  - unfold put_carpetas. destruct nombre as [n|]; [|reflexivity].
    destruct (negb (truthy_string n) || String.eqb (String_trim n) EmptyString);
      [reflexivity|]. cbv zeta.
    destruct (find (es_carpeta id e c) (Folders.carpetas st));
      [|reflexivity]. intros H. contradiction H. reflexivity.
  - unfold put_carpetas. destruct nombre as [n|]; [|reflexivity].
    destruct (negb (truthy_string n) || String.eqb (String_trim n) EmptyString);
      [reflexivity|]. cbv zeta.
    destruct (find (es_carpeta id e c) (Folders.carpetas st)); reflexivity.
  - intros h. apply bosque_nodo. exact Hmap.
  - intros n -> Hempty. unfold put_carpetas. rewrite Hempty.
    cbn [String.eqb]. rewrite orb_true_r. reflexivity.
  - intros n -> Hn Hne. unfold put_carpetas. rewrite Hn.
    destruct (String.eqb_spec (String_trim n) EmptyString) as [Heq|_];
      [contradiction|]. cbn [negb orb]. cbv zeta.
    destruct (find (es_carpeta id e c) (Folders.carpetas st)) as [carpeta|]
      eqn:Hfind; [|reflexivity].
    cbn [fst snd Folders.carpetas]. split; [reflexivity|].
    apply find_update_first; [exact Hfind|].
    apply find_some in Hfind. apply Hfind.
Qed.

End CarpetasProps.

(** ** The licence middleware and the licence query on the users *)

Lemma NoDup_map_injective {A K : Type} (key : A -> K) (l : list A) (x y : A) :
  NoDup (map key l) -> In x l -> In y l -> key x = key y -> x = y.
Proof.
  induction l as [|z rest IH]; simpl; [intros _ []|].
  intros Hnd Hx Hy Heq. inversion Hnd as [|? ? Hnot Hrest]; subst.
  destruct Hx as [<-|Hx], Hy as [<-|Hy].
  - reflexivity.
  - exfalso. apply Hnot. rewrite Heq. apply in_map. exact Hy.
  - exfalso. apply Hnot. rewrite <- Heq. apply in_map. exact Hx.
  - apply IH; assumption.
Qed.

Lemma middleware_licencia_next (u u' : Usuario.t) (ahora : Z) :
  middleware_licencia u ahora = Next u' ->
  u' = u /\ licencia_vigente u ahora = true.
Proof.
  unfold middleware_licencia, licencia_vigente.
  destruct (Usuario.activo u
            && fecha_gt (Usuario.fechaExpiracionLicencia u) ahora);
    [intros [= <-]; auto|].
  destruct (Usuario.licenciaTrial u
            && fecha_gt (Usuario.fechaExpiracionTrial u) ahora);
    [intros [= <-]; auto|].
  destruct (Usuario.licenciaTrial u
            && fecha_le (Usuario.fechaExpiracionTrial u) ahora);
    [discriminate|].
  destruct (negb (Usuario.plan u =? "trial")%string
            && negb (Usuario.activo u)); discriminate.
Qed.

Lemma middleware_licencia_rechazo (u : Usuario.t) (ahora : Z) (status : Z)
    (codigo : string) :
  middleware_licencia u ahora = Rechazo status codigo ->
  status = 403 /\ licencia_vigente u ahora = false.
Proof.
  unfold middleware_licencia, licencia_vigente.
  destruct (Usuario.activo u
            && fecha_gt (Usuario.fechaExpiracionLicencia u) ahora);
    [discriminate|].
  destruct (Usuario.licenciaTrial u
            && fecha_gt (Usuario.fechaExpiracionTrial u) ahora);
    [discriminate|].
  destruct (Usuario.licenciaTrial u
            && fecha_le (Usuario.fechaExpiracionTrial u) ahora);
    [intros [= <- _]; auto|].
  destruct (negb (Usuario.plan u =? "trial")%string
            && negb (Usuario.activo u)); intros [= <- _]; auto.
Qed.

(** What the middleware found when it did not answer 401. *)
Lemma verificarLicencia_usuario (usuarios : list Usuario.t)
    (req : LicenciaRequest.t) (ahora : Z) :
  (exists codigo, verificarLicencia usuarios req ahora = Rechazo 401 codigo)
  \/ exists u empresaId ciudad,
       first_present (LicenciaRequest.params_empresaId req)
         (LicenciaRequest.query_empresaId req)
         (LicenciaRequest.body_empresaId req) = Some empresaId
       /\ first_present (LicenciaRequest.query_ciudad req)
            (LicenciaRequest.body_ciudad req)
            (LicenciaRequest.header_x_ciudad req) = Some ciudad
       /\ In u usuarios
       /\ Usuario.empresaId u = empresaId
       /\ Usuario.ciudad u = ciudad
       /\ verificarLicencia usuarios req ahora = middleware_licencia u ahora.
Proof.
  unfold verificarLicencia. cbv zeta.
  destruct (first_present (LicenciaRequest.params_empresaId req) _ _)
    as [e|]; [|left; eexists; reflexivity].
  destruct (first_present (LicenciaRequest.query_ciudad req) _ _)
    as [c|]; [|left; eexists; reflexivity].
  destruct (negb (truthy_string e) || negb (truthy_string c));
    [left; eexists; reflexivity|].
  destruct (find _ usuarios) as [u|] eqn:Hfind; [|left; eexists; reflexivity].
  right. apply find_some in Hfind. destruct Hfind as [Hin Hu].
  apply andb_true_iff in Hu. destruct Hu as [He Hc].
  apply String.eqb_eq in He. apply String.eqb_eq in Hc.
  exists u, e, c. auto 10.
Qed.

Lemma truthy_string_iff (s : string) :
  truthy_string s = true <-> s <> EmptyString.
Proof.
  unfold truthy_string. rewrite negb_true_iff. apply String.eqb_neq.
Qed.

Lemma present_false_iff (a : option string) :
  present a = false <-> sin_valor a.
Proof.
  unfold present, sin_valor, truthy_string. destruct a as [s|].
  - rewrite negb_false_iff, String.eqb_eq. split.
    + intros ->. right. reflexivity.
    + intros [H|[= H]]; [discriminate H | exact H].
  - split; auto.
Qed.

Lemma present_true_iff (a : option string) :
  present a = true <-> exists s, a = Some s /\ s <> EmptyString.
Proof.
  unfold present. destruct a as [s|].
  - rewrite truthy_string_iff. split.
    + intros H. exists s. auto.
    + intros (s' & [= <-] & H). exact H.
  - split; [discriminate | intros (s & H & _); discriminate H].
Qed.

Lemma sin_valor_Some (a : option string) (s : string) :
  sin_valor a -> a = Some s -> s = EmptyString.
Proof. intros [->| ->] [= <-]. reflexivity. Qed.

(** [a || b || c], when it is not empty, is the first of the three that is
    there and not empty; and the other way round. *)
Lemma first_present_primero (a b c : option string) (s : string) :
  first_present a b c = Some s /\ s <> EmptyString <-> primero_de a b c s.
Proof.
  unfold first_present, primero_de.
  destruct (present a) eqn:Ha.
  - apply present_true_iff in Ha. destruct Ha as (sa & -> & Hsa). split.
    + intros [[= <-] Hs]. auto.
    + intros [Hs [[= <-]|[[Hv _]|[Hv _]]]]; [auto| |];
        contradiction Hsa; apply (sin_valor_Some _ _ Hv eq_refl).
  - pose proof (proj1 (present_false_iff a) Ha) as Hva.
    destruct (present b) eqn:Hb.
    + apply present_true_iff in Hb. destruct Hb as (sb & -> & Hsb). split.
      * intros [[= <-] Hs]. auto.
      * intros [Hs [H|[[_ [= <-]]|[_ [Hv _]]]]]; [|auto|].
        -- contradiction Hs. apply (sin_valor_Some _ _ Hva H).
        -- contradiction Hsb. apply (sin_valor_Some _ _ Hv eq_refl).
    + pose proof (proj1 (present_false_iff b) Hb) as Hvb. split.
      * intros [Hc Hs]. auto 6.
      * intros [Hs [H|[[_ H]|[_ [_ H]]]]]; [| |auto].
        -- contradiction Hs. apply (sin_valor_Some _ _ Hva H).
        -- contradiction Hs. apply (sin_valor_Some _ _ Hvb H).
Qed.

Lemma find_first_iff {A : Type} (p : A -> bool) (l : list A) (x : A) :
  find p l = Some x
  <-> p x = true
      /\ exists antes despues,
           l = antes ++ x :: despues /\ forall y, In y antes -> p y = false.
Proof.
  split.
  - induction l as [|z rest IH]; simpl; [discriminate|].
    destruct (p z) eqn:Hz.
    + intros [= <-]. split; [exact Hz|]. exists [], rest.
      split; [reflexivity | intros y []].
    + intros H. destruct (IH H) as (Hx & antes & despues & -> & Hantes).
      split; [exact Hx|]. exists (z :: antes), despues.
      split; [reflexivity|]. intros y [<-|Hy]; auto.
  - intros (Hx & antes & despues & -> & Hantes).
    induction antes as [|z antes IH]; simpl.
    + rewrite Hx. reflexivity.
    + rewrite (Hantes z (or_introl eq_refl)). apply IH.
      intros y Hy. apply Hantes. right; exact Hy.
Qed.

Lemma es_de_iff (e c : string) (u : Usuario.t) :
  String.eqb (Usuario.empresaId u) e && String.eqb (Usuario.ciudad u) c = true
  <-> Usuario.empresaId u = e /\ Usuario.ciudad u = c.
Proof. rewrite andb_true_iff, !String.eqb_eq. reflexivity. Qed.

Lemma primer_usuario_find (usuarios : list Usuario.t) (e c : string)
    (u : Usuario.t) :
  primer_usuario usuarios e c u
  <-> find (fun u => String.eqb (Usuario.empresaId u) e
                     && String.eqb (Usuario.ciudad u) c) usuarios = Some u.
Proof.
  rewrite find_first_iff, es_de_iff. unfold primer_usuario. split.
  - intros (He & Hc & antes & despues & Hl & Hantes).
    split; [auto|]. exists antes, despues. split; [exact Hl|].
    intros y Hy. specialize (Hantes y Hy).
    destruct (String.eqb (Usuario.empresaId y) e
              && String.eqb (Usuario.ciudad y) c) eqn:Hb; [|reflexivity].
    apply es_de_iff in Hb. contradiction.
  - intros ([He Hc] & antes & despues & Hl & Hantes).
    split; [exact He|]. split; [exact Hc|]. exists antes, despues.
    split; [exact Hl|]. intros y Hy Hde. apply es_de_iff in Hde.
    rewrite (Hantes y Hy) in Hde. discriminate Hde.
Qed.

Lemma nombra_first_present (req : LicenciaRequest.t) (e c : string) :
  nombra req e c
  <-> first_present (LicenciaRequest.params_empresaId req)
        (LicenciaRequest.query_empresaId req)
        (LicenciaRequest.body_empresaId req) = Some e
      /\ first_present (LicenciaRequest.query_ciudad req)
           (LicenciaRequest.body_ciudad req)
           (LicenciaRequest.header_x_ciudad req) = Some c
      /\ truthy_string e = true /\ truthy_string c = true.
Proof.
  unfold nombra. rewrite <- !first_present_primero, !truthy_string_iff.
  tauto.
Qed.

Lemma middleware_licencia_vigente (u : Usuario.t) (ahora : Z) :
  licencia_vigente u ahora = true -> middleware_licencia u ahora = Next u.
Proof.
  intros Hv. destruct (middleware_licencia u ahora) as [u'|status codigo]
    eqn:Hm.
  - apply middleware_licencia_next in Hm. destruct Hm as [-> _]. reflexivity.
  - apply middleware_licencia_rechazo in Hm. destruct Hm as [_ Hm].
    congruence.
Qed.

(** The middleware answers 401, and then the request names no company and
    city of a user, or it answers what the licence of the first user with
    the named company and city gives. *)
Lemma verificarLicencia_spec (usuarios : list Usuario.t)
    (req : LicenciaRequest.t) (ahora : Z) :
  ((exists codigo, verificarLicencia usuarios req ahora = Rechazo 401 codigo)
   /\ ~ (exists e c u, nombra req e c /\ primer_usuario usuarios e c u))
  \/ (exists e c u,
        nombra req e c /\ primer_usuario usuarios e c u
        /\ (forall e' c' u',
              nombra req e' c' -> primer_usuario usuarios e' c' u' -> u' = u)
        /\ verificarLicencia usuarios req ahora
           = middleware_licencia u ahora).
Proof.
  unfold verificarLicencia. cbv zeta.
  destruct (first_present (LicenciaRequest.params_empresaId req) _ _)
    as [e|] eqn:He.
  2: { left. split; [eexists; reflexivity|].
       intros (e' & c' & u & Hn & _). apply nombra_first_present in Hn.
       destruct Hn as (H & _). rewrite He in H. discriminate H. }
  destruct (first_present (LicenciaRequest.query_ciudad req) _ _)
    as [c|] eqn:Hc.
  2: { left. split; [eexists; reflexivity|].
       intros (e' & c' & u & Hn & _). apply nombra_first_present in Hn.
       destruct Hn as (_ & H & _). rewrite Hc in H. discriminate H. }
  destruct (truthy_string e) eqn:Te; cbn [negb orb].
  2: { left. split; [eexists; reflexivity|].
       intros (e' & c' & u & Hn & _). apply nombra_first_present in Hn.
       destruct Hn as (H & _ & T & _). rewrite He in H. injection H as <-.
       congruence. }
  destruct (truthy_string c) eqn:Tc; cbn [negb orb].
  2: { left. split; [eexists; reflexivity|].
       intros (e' & c' & u & Hn & _). apply nombra_first_present in Hn.
       destruct Hn as (_ & H & _ & T). rewrite Hc in H. injection H as <-.
       congruence. }
  assert (Hn : nombra req e c).
  { apply nombra_first_present. rewrite He, Hc. auto. }
  assert (Huniq : forall e' c', nombra req e' c' -> e' = e /\ c' = c).
  { intros e' c' Hn'. apply nombra_first_present in Hn'.
    destruct Hn' as (H1 & H2 & _). rewrite He in H1. rewrite Hc in H2.
    injection H1 as <-. injection H2 as <-. auto. }
  destruct (find _ usuarios) as [u|] eqn:Hfind.
  - right. exists e, c, u. split; [exact Hn|].
    split; [apply primer_usuario_find; exact Hfind|].
    split; [|reflexivity].
    intros e' c' u' Hn' Hp'. destruct (Huniq e' c' Hn') as [-> ->].
    apply primer_usuario_find in Hp'. congruence.
  - left. split; [eexists; reflexivity|].
    intros (e' & c' & u & Hn' & Hp'). destruct (Huniq e' c' Hn') as [-> ->].
    apply primer_usuario_find in Hp'. congruence.
Qed.

(** The middleware lets a request through only for the first user of the
    store with the company and the city that the request names (the
    company by the route parameter, else the query string, else the body;
    the city by the query string, else the body, else the header), and only
    when the licence of that user is in force.  It answers 403 exactly for
    such a user whose licence is not in force, and 401 when the request
    names no company or no city, or no user has them. *)
Theorem verificarLicencia_paso (usuarios : list Usuario.t)
    (req : LicenciaRequest.t) (ahora : Z) :
  (forall u, verificarLicencia usuarios req ahora = Next u <->
     nombra req (Usuario.empresaId u) (Usuario.ciudad u)
     /\ primer_usuario usuarios (Usuario.empresaId u) (Usuario.ciudad u) u
     /\ licencia_vigente u ahora = true)
  /\ (forall status codigo,
        verificarLicencia usuarios req ahora = Rechazo status codigo ->
        status = 401 \/ status = 403)
  /\ ((exists codigo,
         verificarLicencia usuarios req ahora = Rechazo 403 codigo)
      <-> exists u,
            nombra req (Usuario.empresaId u) (Usuario.ciudad u)
            /\ primer_usuario usuarios (Usuario.empresaId u)
                              (Usuario.ciudad u) u
            /\ licencia_vigente u ahora = false)
  /\ ((exists codigo,
         verificarLicencia usuarios req ahora = Rechazo 401 codigo)
      <-> ~ (exists e c u, nombra req e c /\ primer_usuario usuarios e c u)).
Proof.
  destruct (verificarLicencia_spec usuarios req ahora)
    as [[(codigo & H401) Hnone]
       |(e & c & u0 & Hn & Hp & Huniq & Hrun)].
  - rewrite H401. split; [|split; [|split]].
    + intros u. split; [discriminate|].
      intros (Hn & Hp & _). exfalso. apply Hnone. eauto.
    + intros status codigo' [= <- _]. left. reflexivity.
    + split.
      * intros (codigo' & H). discriminate H.
      * intros (u & Hn & Hp & _). exfalso. apply Hnone. eauto.
    + split; [intros _; exact Hnone | intros _; eauto].
  - pose proof Hp as (He0 & Hc0 & _). rewrite Hrun.
    split; [|split; [|split]].
    + intros u. split.
      * intros Hnext. apply middleware_licencia_next in Hnext.
        destruct Hnext as [-> Hv]. rewrite He0, Hc0. auto.
      * intros (Hn' & Hp' & Hv). rewrite (Huniq _ _ u Hn' Hp') in Hv.
        rewrite (Huniq _ _ u Hn' Hp').
        apply middleware_licencia_vigente. exact Hv.
    + intros status codigo Hre. apply middleware_licencia_rechazo in Hre.
      right. apply Hre.
    + split.
      * intros (codigo & Hre). apply middleware_licencia_rechazo in Hre.
        exists u0. rewrite He0, Hc0. split; [exact Hn|].
        split; [exact Hp | apply Hre].
      * intros (u & Hn' & Hp' & Hv). rewrite (Huniq _ _ u Hn' Hp') in Hv.
        destruct (middleware_licencia u0 ahora) as [u'|status codigo] eqn:Hm.
        -- apply middleware_licencia_next in Hm. destruct Hm as [_ Hm].
           congruence.
        -- pose proof (middleware_licencia_rechazo _ _ _ _ Hm) as [-> _].
           exists codigo. reflexivity.
    + split.
      * intros (codigo & Hre). apply middleware_licencia_rechazo in Hre.
        destruct Hre as [Hre _]. discriminate Hre.
      * intros Hnone. exfalso. apply Hnone. eauto.
Qed.


(** With one user per company, a request that the middleware lets through
    is for a company whose licence query answers that it may enter. *)
Theorem verificarLicencia_agrees_query (usuarios : list Usuario.t)
    (req : LicenciaRequest.t) (ahora : Z) (u : Usuario.t) :
  NoDup (map Usuario.empresaId usuarios) ->
  verificarLicencia usuarios req ahora = Next u ->
  exists v,
    verificar_licencia usuarios (Usuario.empresaId u) ahora = Some v
    /\ v = verificar_licencia_usuario u ahora
    /\ Verificacion.puedeAcceder v = true.
Proof.
  intros Hnd Hnext.
  destruct (verificarLicencia_usuario usuarios req ahora)
    as [(codigo & H401)|(u0 & e & c & He & Hc & Hin & Hue & Huc & Hrun)];
    [congruence|].
  rewrite Hrun in Hnext. apply middleware_licencia_next in Hnext.
  destruct Hnext as [-> Hv]. unfold verificar_licencia.
  destruct (find (fun u' => (Usuario.empresaId u' =? Usuario.empresaId u0)%string)
                 usuarios) as [u1|] eqn:Hfind.
  - apply find_some in Hfind. destruct Hfind as [Hin1 H1].
    apply String.eqb_eq in H1.
    rewrite (NoDup_map_injective Usuario.empresaId usuarios u1 u0 Hnd Hin1 Hin H1).
    eexists. split; [reflexivity|]. split; [reflexivity|].
    rewrite <- Hv. unfold verificar_licencia_usuario, licencia_vigente.
    destruct (Usuario.activo u0
              && fecha_gt (Usuario.fechaExpiracionLicencia u0) ahora);
      [reflexivity|].
    destruct (Usuario.licenciaTrial u0
              && fecha_gt (Usuario.fechaExpiracionTrial u0) ahora);
      [reflexivity|].
    destruct (Usuario.licenciaTrial u0
              && fecha_le (Usuario.fechaExpiracionTrial u0) ahora);
      reflexivity.
  - exfalso. pose proof (find_none _ _ Hfind u0 Hin) as Hno.
    cbv beta in Hno. rewrite String.eqb_refl in Hno. discriminate Hno.
Qed.

(** * The properties on the examples *)

Lemma accepted_reporte_inicial :
  accepted db_vacia reporte_inicial
    (Empresa.mk 1 (Some "Acme") "emp_k1")
    (MetricsBody.mk (Some "10.0.0.5") (JNumber (Num 100))
       JUndefined JUndefined JUndefined
       None None None (Some "SN-1") None None None None)
    "10.0.0.5".
Proof. exists "emp_k1". repeat split; reflexivity. Qed.

Lemma metrics_impresoras_rejections_witness :
  status_of (fst (ingest (MetricsRequest.mk None None) db_una_impresora)) = 401
  /\ snd (ingest (MetricsRequest.mk None None) db_una_impresora)
     = db_una_impresora.
Proof.
  destruct (metrics_impresoras_rejections (RT := plain_runtime)
              db_una_impresora (MetricsRequest.mk None None)
              (ValidDate 5000) (ValidDate 5001)) as (_ & Hdb & H401).
  pose proof (H401 eq_refl) as H.
  assert (Hne : status_of (fst (ingest (MetricsRequest.mk None None)
                                       db_una_impresora)) <> 200).
  { unfold ingest. rewrite H. discriminate. }
  exact (conj H (proj1 (Hdb Hne))).
Defined.

Lemma metrics_impresoras_keeps_cuts_witness :
  unique_latests (snd (ingest reporte_cambio db_dos_impresoras))
  /\ DB.cortes (snd (ingest reporte_cambio db_dos_impresoras)) = [].
Proof.
  destruct (metrics_impresoras_keeps_cuts (RT := plain_runtime)
              db_dos_impresoras reporte_cambio
              (ValidDate 5000) (ValidDate 5001)) as (Hc & _ & _ & Hu).
  assert (Hu0 : unique_latests db_dos_impresoras).
  { unfold unique_latests. vm_compute.
    constructor; [intros [H|[]]; discriminate H|].
    constructor; [intros []|constructor]. }
  exact (conj (Hu Hu0) Hc).
Defined.

Lemma metrics_impresoras_twice_witness :
  printerId_of (fst (ingest reporte_inicial db_una_impresora))
  = printerId_of (fst (ingest reporte_inicial db_vacia))
  /\ DB.impresoras (snd (ingest reporte_inicial db_una_impresora))
     = DB.impresoras db_una_impresora.
Proof.
  destruct (metrics_impresoras_twice (RT := plain_runtime) db_vacia
              reporte_inicial _ _ _ (ValidDate 5000) (ValidDate 5001)
              (ValidDate 5000) (ValidDate 5001) accepted_reporte_inicial)
    as (H1 & H2 & _).
  exact (conj H1 H2).
Defined.


Lemma listar_impresoras_items_witness :
  map ImpresoraItem.impresora
      (listar_impresoras (RT := plain_runtime) None db_dos_impresoras
                         1 None 6000)
  = DB.impresoras db_dos_impresoras
  /\ listar_impresoras (RT := plain_runtime) None db_dos_impresoras
                       1 (Some "Lima") 6000 = [].
Proof.
  split.
  - destruct (listar_impresoras_items (RT := plain_runtime) None
                db_dos_impresoras 1 None 6000)
      as ((keep & Hmap & Hkeep) & _).
    rewrite Hmap. apply filter_all_true. intros i Hi. apply Hkeep.
    split; [|intros c H; discriminate H].
    destruct Hi as [<-|[<-|[]]]; reflexivity.
  - destruct (listar_impresoras_items (RT := plain_runtime) None
                db_dos_impresoras 1 (Some "Lima") 6000)
      as ((keep & Hmap & Hkeep) & _).
    apply (map_eq_nil ImpresoraItem.impresora). rewrite Hmap.
    destruct (filter keep (DB.impresoras db_dos_impresoras)) as [|i rest]
      eqn:Hfil; [reflexivity|]. exfalso.
    assert (Hi : In i (filter keep (DB.impresoras db_dos_impresoras)))
      by (rewrite Hfil; left; reflexivity).
    apply filter_In in Hi. destruct Hi as [Hi Hk]. apply Hkeep in Hk.
    destruct Hk as [_ Hc].
    assert (Hcity : Impresora.ciudad i = Some "Lima")
      by (apply (Hc "Lima" eq_refl); discriminate).
    destruct Hi as [<-|[<-|[]]]; discriminate Hcity.
Defined.

Lemma fresh_db_un_corte :
  forall c, In c (DB.cortes db_un_corte) ->
            (CortesMensuales._id c < DB.nextId db_un_corte)%nat.
Proof. intros c [<-|[]]. vm_compute. lia. Qed.

Lemma registrar_corte_twice_witness :
  exists primero segundo,
    DB.cortes (snd (run (registrar_corte (RT := plain_runtime) 3
                           (ValidDate 9500) (ValidDate 9501))
                        db_dos_cortes))
    = (DB.cortes db_un_corte ++ [primero]) ++ [segundo]
    /\ CortesMensuales.contadorInicioGeneral segundo = Some 1800
    /\ CortesMensuales.totalPaginasGeneral segundo = Some 0.
Proof.
  destruct (registrar_corte_twice (RT := plain_runtime) db_un_corte 3
              (ValidDate 9000) (ValidDate 9001) (ValidDate 9500)
              (ValidDate 9501) _ _ eq_refl eq_refl fresh_db_un_corte)
    as (primero & segundo & Hc & _ & _ & Hini & _ & Htot).
  exists primero, segundo. exact (conj Hc (conj Hini Htot)).
Defined.

Lemma generar_pdf_after_registrar_corte_witness :
  exists pdf,
    fst (run (generar_pdf (RT := plain_runtime) 3 (ValidDate 9500))
             db_dos_cortes) = SendPdf pdf
    /\ Pdf.stats pdf
       = [ ("INICIO PERÍODO", "1500");
           ("FIN PERÍODO", "1800");
           ("CONSUMO TOTAL", "300") ]
    /\ nth_error (Pdf.info pdf) 5 = Some "Período: Desde instalación".
Proof.
  destruct (generar_pdf_after_registrar_corte (RT := plain_runtime)
              db_un_corte 3 (ValidDate 9000) (ValidDate 9001)
              (ValidDate 9500) _ _ eq_refl eq_refl fresh_db_un_corte)
    as (_ & Hsent & _).
  apply Hsent. split; [|reflexivity].
  constructor; [|constructor].
  split; [discriminate|]. split; [discriminate|].
  split; [|reflexivity]. intros _. exists "black". reflexivity.
Defined.

Lemma generar_pdf_without_cut_witness :
  fst (run (generar_pdf (RT := plain_runtime) 3 (ValidDate 9500))
           db_sin_latest) = generar_pdf_falta_corte
  /\ snd (run (generar_pdf (RT := plain_runtime) 3 (ValidDate 9500))
              db_sin_latest) = db_sin_latest.
Proof.
  destruct (generar_pdf_without_cut (RT := plain_runtime) db_sin_latest 3
              (ValidDate 9500)) as (Hdb & Hfalta & _).
  exact (conj (Hfalta I) Hdb).
Defined.

Lemma licence_denial_is_trial_expired_witness :
  middleware_licencia usuario_ana 700000000 = Rechazo 403 "TRIAL_EXPIRADO"
  /\ Verificacion.tipo (verificar_licencia_usuario usuario_ana 700000000)
     = "trial_expirado".
Proof.
  destruct (licence_denial_is_trial_expired (RT := plain_runtime)
              usuario_ana 700000000 (1000 + 7 * ms_per_day)
              eq_refl eq_refl eq_refl) as (_ & _ & Hm & Hv).
  exact (conj Hm Hv).
Defined.



Lemma registro_twice_witness :
  registro_status
    (fst (registro (RT := plain_runtime) (SRT := plain_server_runtime)
                   usuarios_ana registro_ana "otra" (ValidDate 2000)
                   (ValidDate 2000))) = 400
  /\ snd (registro (RT := plain_runtime) (SRT := plain_server_runtime)
                   usuarios_ana registro_ana "otra" (ValidDate 2000)
                   (ValidDate 2000)) = usuarios_ana.
Proof.
  exact (registro_twice (RT := plain_runtime) (SRT := plain_server_runtime)
           [] registro_ana registro_ana "sal" "otra"
           (ValidDate 1000) (ValidDate 1000) (ValidDate 2000) (ValidDate 2000)
           eq_refl eq_refl).
Defined.


Lemma login_dias_restantes_witness :
  exists expira d,
    fecha_number (Usuario.fechaExpiracionTrial usuario_ana) = Num expira
    /\ Num 7 = Num d
    /\ 1 <= d
    /\ (d - 1) * ms_per_day < expira - 2000 <= d * ms_per_day.
Proof.
  exact (login_dias_restantes (RT := plain_runtime)
           (SRT := plain_server_runtime) usuarios_ana
           "ana@acme.pe" "secreto1" "Lima" 2000 usuario_ana (Num 7) eq_refl).
Defined.

Lemma activar_then_login_witness :
  login_status
    (login (RT := plain_runtime) (SRT := plain_server_runtime)
           (snd (activar usuarios_ana_beto "beto@obras.pe"))
           "beto@obras.pe" "secreto2" "Cusco" 700000000) = 403.
Proof.
  assert (H0 : 0 <= 700000000) by lia.
  assert (Hnull : forall u, In u usuarios_ana_beto ->
                    Usuario.fechaExpiracionLicencia u = FechaNull
                    \/ Usuario.fechaExpiracionLicencia u = FechaUndefined).
  { intros u [<-|[<-|[]]]; left; reflexivity. }
  exact (eq_trans
           (activar_then_login (RT := plain_runtime)
              (SRT := plain_server_runtime) usuarios_ana_beto
              "beto@obras.pe" "beto@obras.pe" "secreto2" "Cusco" 700000000
              H0 Hnull)
           eq_refl).
Defined.

Lemma nombra_ana : nombra licencia_request_ana "acme" "Lima".
Proof.
  split; (split; [discriminate|]).
  - left. reflexivity.
  - left. reflexivity.
Qed.

Lemma primer_usuario_ana :
  primer_usuario usuarios_ana_beto "acme" "Lima" usuario_ana.
Proof.
  split; [reflexivity|]. split; [reflexivity|].
  exists []. eexists. split; [reflexivity | intros x []].
Qed.

Lemma verificarLicencia_paso_witness :
  verificarLicencia usuarios_ana_beto licencia_request_ana 2000
  = Next usuario_ana
  /\ exists codigo,
       verificarLicencia usuarios_ana_beto licencia_request_ana 700000000
       = Rechazo 403 codigo.
Proof.
  split.
  - destruct (verificarLicencia_paso usuarios_ana_beto licencia_request_ana
                2000) as (Hnext & _).
    apply Hnext. split; [exact nombra_ana|].
    split; [exact primer_usuario_ana | reflexivity].
  - destruct (verificarLicencia_paso usuarios_ana_beto licencia_request_ana
                700000000) as (_ & _ & H403 & _).
    apply H403. exists usuario_ana. split; [exact nombra_ana|].
    split; [exact primer_usuario_ana | reflexivity].
Defined.

Lemma verificarLicencia_agrees_query_witness :
  exists v,
    verificar_licencia usuarios_ana_beto "acme" 2000 = Some v
    /\ Verificacion.puedeAcceder v = true.
Proof.
  assert (Hnd : NoDup (map Usuario.empresaId usuarios_ana_beto)).
  { vm_compute. constructor; [intros [H|[]]; discriminate H|].
    constructor; [intros []|constructor]. }
  destruct (verificarLicencia_agrees_query usuarios_ana_beto
              licencia_request_ana 2000 usuario_ana Hnd eq_refl)
    as (v & Hq & _ & Hp).
  exists v. exact (conj Hq Hp).
Defined.

Lemma eliminar_empresa_cascade_witness :
  listar_impresoras (RT := plain_runtime) None
    (snd (eliminar_empresa (fun _ _ => true) db_un_corte 1)) 1 None 6000 = []
  /\ forall c,
       In c (DB.cortes (snd (eliminar_empresa (fun _ _ => true)
                                              db_un_corte 1)))
       -> CortesMensuales.empresaId c <> 1%nat.
Proof.
  destruct (eliminar_empresa_cascade (RT := plain_runtime) (fun _ _ => true)
              db_un_corte 1) as (_ & H).
  destruct (H _ eq_refl) as (_ & Hc & Hl & _).
  exact (conj (Hl None None 6000) (fun c Hin => proj2 (proj1 (Hc c) Hin))).
Defined.

Lemma bosque_ejemplo : bosque altura_ejemplo (Folders.carpetas carpetas_ejemplo).
Proof.
  split.
  - vm_compute. constructor; [intros [H|[]]; discriminate H|].
    constructor; [intros []|constructor].
  - intros x p [<-|[<-|[]]]; [discriminate|].
    intros [= <-]. vm_compute. lia.
Qed.

Lemma id_nuevo_ejemplo : id_nuevo 3 (Folders.carpetas carpetas_asignada).
Proof. intros x [<-|[<-|[]]]; split; discriminate. Qed.

Lemma post_asignaciones_assign_witness :
  asignada carpetas_asignada "clienteA" "acme" "Lima" = Some 2%nat
  /\ unique_asignaciones carpetas_asignada.
Proof.
  destruct (post_asignaciones_assign carpetas_ejemplo
              (asignacion_body (RefId 2)) "clienteA" "acme" "Lima" 2
              carpeta_hija eq_refl eq_refl eq_refl eq_refl eq_refl eq_refl
              eq_refl eq_refl) as (_ & Ha & _ & _ & Hu).
  exact (conj Ha (Hu (NoDup_nil _))).
Defined.

Lemma unique_carpetas_asignada : unique_asignaciones carpetas_asignada.
Proof.
  unfold unique_asignaciones. vm_compute.
  constructor; [intros []|constructor].
Qed.

Lemma post_asignaciones_remove_witness :
  asignada (snd (post_asignaciones carpetas_asignada
                                   (asignacion_body RefNull)))
           "clienteA" "acme" "Lima" = None.
Proof.
  destruct (post_asignaciones_remove carpetas_asignada
              (asignacion_body RefNull) "clienteA" "acme" "Lima"
              eq_refl eq_refl eq_refl eq_refl eq_refl eq_refl eq_refl
              unique_carpetas_asignada) as (_ & Ha & _).
  exact Ha.
Defined.

Lemma post_asignaciones_errors_witness :
  asignacion_status
    (fst (post_asignaciones carpetas_asignada (asignacion_body (RefId 9))))
  = 404
  /\ snd (post_asignaciones carpetas_asignada (asignacion_body (RefId 9)))
     = carpetas_asignada.
Proof.
  destruct (post_asignaciones_errors carpetas_asignada
              (asignacion_body (RefId 9))) as (Hst & _ & H404).
  pose proof (proj2 (H404 "clienteA" "acme" "Lima" 9%nat
                          eq_refl eq_refl eq_refl eq_refl eq_refl eq_refl
                          eq_refl) eq_refl) as H.
  assert (Hne : asignacion_status
                  (fst (post_asignaciones carpetas_asignada
                                          (asignacion_body (RefId 9))))
                <> 200) by (rewrite H; discriminate).
  exact (conj H (Hst Hne)).
Defined.

Lemma get_asignaciones_asignada_witness :
  exists data,
    get_asignaciones carpetas_asignada (Some "acme") (Some "Lima") = Some data
    /\ obj_get data "clienteA" = Some 2%nat
    /\ obj_get data "clienteB" = None.
Proof.
  destruct (get_asignaciones_asignada carpetas_asignada "acme" "Lima"
              eq_refl eq_refl unique_carpetas_asignada)
    as (data & Hget & Hdata & _).
  exists data. split; [exact Hget|]. split.
  - apply (Hdata "clienteA"). discriminate.
  - apply (Hdata "clienteB"). discriminate.
Defined.

Lemma post_carpetas_bosque_witness :
  carpetas_tres
  = Folders.mk (Folders.carpetas carpetas_asignada ++ [carpeta_nueva])
               (Folders.asignaciones carpetas_asignada)
  /\ bosque (fun i => if Nat.eqb i 3 then O else S (altura_ejemplo i))
            (Folders.carpetas carpetas_tres).
Proof.
  destruct (post_carpetas_bosque trim_ascii carpetas_asignada carpeta_body 3
              (ValidDate 300)) as (_ & H).
  destruct (H carpeta_nueva eq_refl) as (Hst & _ & _ & _ & _ & _ & _ & Hb).
  exact (conj Hst (Hb altura_ejemplo bosque_ejemplo id_nuevo_ejemplo)).
Defined.

Lemma post_carpetas_then_delete_witness :
  exists padre st2,
    delete_carpeta 5 carpetas_tres 2 "acme" "Lima" = Some (Some padre, st2)
    /\ In padre (Folders.carpetas carpetas_asignada)
    /\ ~ In carpeta_nueva (Folders.carpetas st2).
Proof.
  destruct (post_carpetas_then_delete trim_ascii altura_ejemplo
              carpetas_asignada carpeta_body 3 (ValidDate 300)
              carpeta_nueva 2 5 bosque_ejemplo id_nuevo_ejemplo
              eq_refl eq_refl)
    as (padre & st2 & Hrun & Hin & Hno & _).
  - vm_compute. lia.
  - exists padre, st2. exact (conj Hrun (conj Hin Hno)).
Defined.

Lemma bosque_tres :
  bosque (fun i => if Nat.eqb i 3 then O else S (altura_ejemplo i))
         (Folders.carpetas carpetas_tres).
Proof.
  split.
  - vm_compute. constructor; [intros [H|[H|[]]]; discriminate H|].
    constructor; [intros [H|[]]; discriminate H|].
    constructor; [intros []|constructor].
  - intros x p [<-|[<-|[<-|[]]]]; [discriminate| |];
      intros [= <-]; vm_compute; lia.
Qed.

Lemma delete_carpeta_subarbol_witness :
  exists st',
    delete_carpeta 5 carpetas_tres 1 "acme" "Lima"
    = Some (Some carpeta_raiz, st')
    /\ (forall x, ~ In x (Folders.carpetas st'))
    /\ (forall a, ~ In a (Folders.asignaciones st')).
Proof.
  destruct (delete_carpeta_subarbol
              (fun i => if Nat.eqb i 3 then O else S (altura_ejemplo i))
              carpetas_tres 1 "acme" "Lima" 5) as (_ & H).
  destruct (H carpeta_raiz eq_refl bosque_tres) as (st' & Hrun & Hc & Ha & _).
  - vm_compute. lia.
  - exists st'. split; [exact Hrun|]. split.
    + intros x Hx. apply Hc in Hx. destruct Hx as (Hx & Hne & Hnd).
      assert (Hhija : debajo (Folders.carpetas carpetas_tres) "acme" "Lima" 1
                             carpeta_hija).
      { apply debajo_hija; [right; left; reflexivity | reflexivity]. }
      destruct Hx as [<-|[<-|[<-|[]]]].
      * apply Hne. reflexivity.
      * apply Hnd. exact Hhija.
      * apply Hnd. apply (debajo_nieta _ _ _ _ carpeta_hija);
          [exact Hhija | right; right; left; reflexivity | reflexivity].
    + intros a Hin. apply Ha in Hin. destruct Hin as (Hin & _ & Hnd).
      destruct Hin as [<-|[]]. apply Hnd. exists carpeta_hija. split.
      * apply debajo_hija; [right; left; reflexivity | reflexivity].
      * reflexivity.
Defined.

Lemma put_carpetas_renames_witness :
  carpeta_status (fst (put_carpetas trim_ascii carpetas_tres 2
                                    (Some "   ") "acme" "Lima")) = 400
  /\ find (es_carpeta 2 "acme" "Lima")
          (Folders.carpetas
             (snd (put_carpetas trim_ascii carpetas_tres 2
                                (Some " Sur ") "acme" "Lima")))
     = Some (set_nombre "Sur" carpeta_hija).
Proof.
  split.
  - destruct (put_carpetas_renames trim_ascii carpetas_tres 2
                (Some "   ") "acme" "Lima") as (_ & _ & _ & _ & H400 & _).
    exact (H400 "   " eq_refl eq_refl).
  - destruct (put_carpetas_renames trim_ascii carpetas_tres 2
                (Some " Sur ") "acme" "Lima") as (_ & _ & _ & _ & _ & H).
    assert (Hne : trim_ascii " Sur " <> EmptyString) by discriminate.
    exact (proj2 (H " Sur " eq_refl eq_refl Hne)).
Defined.
